(** * Pallet_Calc: the calculation engine of [pallet_calc/calculator.py]

    A shallow embedding of the engine and the proofs of its specification.

    Python values are modelled as follows.
    - [int] is [Z] (unbounded); [//] and [%] are [Z.div] and [Z.modulo], which
      floor like Python's.
    - [float] is the primitive binary64 type [float] of Rocq, whose operations
      are those of IEEE 754 with rounding to nearest even, as CPython's are.
      [math.floor], [math.ceil], [float(int)] and [int / int] are written out
      on the binary64 decomposition [Prim2SF].
    - exceptions are an explicit error type threaded through a result monad;
      [try ... except (KeyError, TypeError, ValueError)] is a handler on it.
    - a [dict] is an association list in insertion order.
    - untyped input (the decoded JSON document) is the type [pyval]; what
      [int()], [float()] and [str()] make of text and of values without a
      simple rendering is left to three parameters of the engine.

    Of [pallet_calc/web.py] the reading of the yes/no field of the form is
    embedded as well; a [str] holds the characters that [ascii] can hold. *)

From Stdlib Require Import ZArith List Bool String Ascii Lia Floats.
From Stdlib Require Import DecimalString Permutation Sorted.
Import ListNotations.

#[local] Set Warnings "-inexact-float,-register-all".
#[local] Open Scope Z_scope.

(** ** Untyped values, exceptions and the result monad *)

(** Untyped Python values, as [json.load] produces them. A [str] is a sequence
    of the characters that [ascii] can hold. *)
Inductive pyval : Type :=
| PyNone
| PyBool (b : bool)
| PyInt (z : Z)
| PyFloat (f : float)
| PyStr (s : string)
| PyList (l : list pyval)
| PyDict (d : list (string * pyval)).

(** The text of each [ValueError] the engine raises; the formatted parts of
    the f-string are the constructor's arguments. *)
Inductive message : Type :=
| BuiltinMessage
    (* a ValueError raised by a builtin: float(), int(), math.floor() *)
| InvalidProductSpecification (raw : pyval)
    (* f"Invalid product specification: {json.dumps(raw)}" *)
| AtLeastOneProduct
    (* "At least one product must be provided." *)
| InvalidPalletSpecification
    (* "Invalid pallet specification." *)
| PalletDimensionsNotPositive
    (* "Pallet dimensions must be positive numbers." *)
| PalletBaseHeightTooHigh
    (* "Pallet base height must be lower than total pallet height." *)
| UnsupportedContainerHeight (container_height : string)
    (* f"Unsupported container height '{container_height}'. Valid values: ..." *)
| PalletExceedsContainerHeight
    (* "Pallet/base height exceeds available container height." *)
| CannotFitFootprint (name : string)
    (* f"Product {name} cannot fit on the pallet footprint with either orientation." *)
| ExceedsStackingHeight (name : string)
    (* f"Product {name} exceeds the allowable stacking height." *)
| CannotBePlaced (name : string)
    (* f"Product {name} cannot be placed on the pallet with the given constraints." *)
| LayerHeightExceedsLimit.
    (* "Layer height exceeds available stacking limit." *)

Inductive exn : Type :=
| ValueError (m : message)
| KeyError
| TypeError
| IndexError
| AttributeError
| ZeroDivisionError
| OverflowError.

Inductive result (A : Type) : Type :=
| Ok (a : A)
| Raise (e : exn).

Arguments Ok {A} a.
Arguments Raise {A} e.

Definition bind {A B : Type} (r : result A) (k : A -> result B) : result B :=
  match r with
  | Ok a => k a
  | Raise e => Raise e
  end.

Declare Scope result_scope.
Delimit Scope result_scope with result.
Notation "x <- r ;; k" := (bind r (fun x => k))
  (at level 61, r at next level, right associativity) : result_scope.
Notation "' p <- r ;; k" := (bind r (fun p => k))
  (at level 61, p pattern, r at next level, right associativity) : result_scope.
#[local] Open Scope result_scope.

(** [for x in xs: acc = f(acc, x)], stopping at the first exception. *)
Fixpoint foldM {A S : Type} (f : S -> A -> result S) (xs : list A) (s : S)
  : result S :=
  match xs with
  | [] => Ok s
  | x :: xs' => s' <- f s x ;; foldM f xs' s'
  end.

(** ** Numbers *)

(** [m * 2^e] rounded towards minus infinity, and towards plus infinity. *)
Definition scaled_floor (m e : Z) : Z :=
  if 0 <=? e then m * 2 ^ e else m / 2 ^ (- e).

Definition scaled_ceil (m e : Z) : Z := - scaled_floor (- m) e.

(** [math.floor(x)] for a float: NaN raises ValueError, an infinity
    OverflowError. *)
Definition math_floor (x : float) : result Z :=
  match Prim2SF x with
  | S754_nan => Raise (ValueError BuiltinMessage)
  | S754_infinity _ => Raise OverflowError
  | S754_zero _ => Ok 0
  | S754_finite s m e => Ok (scaled_floor (cond_Zopp s (Zpos m)) e)
  end.

(** [math.ceil(x)] for a float. *)
Definition math_ceil (x : float) : result Z :=
  match Prim2SF x with
  | S754_nan => Raise (ValueError BuiltinMessage)
  | S754_infinity _ => Raise OverflowError
  | S754_zero _ => Ok 0
  | S754_finite s m e => Ok (scaled_ceil (cond_Zopp s (Zpos m)) e)
  end.

(** [int(x)] for a float truncates towards zero. *)
Definition float_trunc (x : float) : result Z :=
  match Prim2SF x with
  | S754_nan => Raise (ValueError BuiltinMessage)
  | S754_infinity _ => Raise OverflowError
  | S754_zero _ => Ok 0
  | S754_finite s m e => Ok (cond_Zopp s (scaled_floor (Zpos m) e))
  end.

(** [float(n)] for an int: the nearest binary64 value, ties to even;
    "int too large to convert to float" is an OverflowError. *)
Definition float_of_int (n : Z) : result float :=
  match binary_normalize prec emax n 0 false with
  | S754_infinity _ => Raise OverflowError
  | sf => Ok (SF2Prim sf)
  end.

(** The integer [n] as an unrounded binary float. *)
Definition int_as_spec_float (n : Z) : spec_float :=
  match n with
  | Z0 => S754_zero false
  | Zpos p => S754_finite false p 0
  | Zneg p => S754_finite true p 0
  end.

(** [a / b] for two ints (true division): the correctly rounded quotient;
    "integer division result too large for a float" is an OverflowError. *)
Definition int_truediv (a b : Z) : result float :=
  if b =? 0 then Raise ZeroDivisionError
  else
    match SFdiv prec emax (int_as_spec_float a) (int_as_spec_float b) with
    | S754_infinity _ => Raise OverflowError
    | sf => Ok (SF2Prim sf)
    end.

(** [x / y] for two floats. *)
Definition float_truediv (x y : float) : result float :=
  if (y =? 0)%float then Raise ZeroDivisionError else Ok (x / y)%float.

(** [n * x] for an int and a float: the int is converted first. *)
Definition int_mul_float (n : Z) (x : float) : result float :=
  f <- float_of_int n ;; Ok (f * x)%float.

(** [a // b] and [a % b] for two ints. *)
Definition int_floordiv (a b : Z) : result Z :=
  if b =? 0 then Raise ZeroDivisionError else Ok (a / b).

Definition int_mod (a b : Z) : result Z :=
  if b =? 0 then Raise ZeroDivisionError else Ok (a mod b).

(** [min(a, b)]: the first argument unless the second is smaller. *)
Definition py_min (a b : float) : float :=
  if (b <? a)%float then b else a.

(** ** Strings and dicts *)

(** [f"{n}"] for a non-negative int. *)
Definition str_of_nat (n : nat) : string :=
  NilZero.string_of_uint (Nat.to_uint n).

Definition upper_char (c : ascii) : ascii :=
  let n := nat_of_ascii c in
  if andb (Nat.leb 97 n) (Nat.leb n 122) then ascii_of_nat (n - 32) else c.

(** [s.upper()]; characters that are not ASCII letters are kept as they are. *)
Fixpoint str_upper (s : string) : string :=
  match s with
  | EmptyString => EmptyString
  | String c s' => String (upper_char c) (str_upper s')
  end.

(** [d.get(k, default)], [d[k] = v] and [d[k]] on an insertion-ordered dict. *)
Section Dict.
Context {V : Type}.

Fixpoint dict_get (d : list (string * V)) (k : string) (default : V) : V :=
  match d with
  | [] => default
  | (k', v) :: d' => if String.eqb k' k then v else dict_get d' k default
  end.

Fixpoint dict_set (d : list (string * V)) (k : string) (v : V)
  : list (string * V) :=
  match d with
  | [] => [(k, v)]
  | (k', v') :: d' =>
    if String.eqb k' k then (k', v) :: d' else (k', v') :: dict_set d' k v
  end.

Fixpoint dict_lookup (d : list (string * V)) (k : string) : option V :=
  match d with
  | [] => None
  | (k', v) :: d' => if String.eqb k' k then Some v else dict_lookup d' k
  end.
End Dict.

(** ** Sorting *)

(** [list.sort] is stable; with [reverse=True] CPython reverses the list,
  sorts it and reverses the result, which keeps equal keys in input order.
  The sort itself is modelled as insertion from the left, each element going
  behind the elements that are not greater ([lt] is the [<] of the keys).
  Where [<] orders the keys, this is the one stable sorted list, so it is
  the list that CPython returns. For keys that [<] does not order (a NaN
  among floats) CPython's list depends on the comparisons that its merge
  sort happens to make and can differ from this one: what is stated below
  about the order of the result is stated for keys without NaN, and the
  engine never sorts a NaN (the floor of [limit / nan] raises in the
  Product Planner). *)
Section Sorting.
Context {A : Type}.
Variable lt : A -> A -> bool.

Fixpoint insert_sorted (x : A) (l : list A) : list A :=
  match l with
  | [] => [x]
  | y :: l' => if lt x y then x :: y :: l' else y :: insert_sorted x l'
  end.

Definition stable_sort (l : list A) : list A :=
  fold_left (fun acc x => insert_sorted x acc) l [].

Definition sorted_reverse (l : list A) : list A :=
  rev (stable_sort (rev l)).
End Sorting.

(** ** Data model *)

Module ProductSpec.
Record t : Type := {
  name : string;
  order_quantity_pcs : Z;
  pcs_per_carton : Z;
  carton_length_cm : float;
  carton_width_cm : float;
  carton_height_cm : float
}.

Definition cartons_required (self : t) : result Z :=
  q <- int_truediv (order_quantity_pcs self) (pcs_per_carton self) ;;
  math_ceil q.

Definition carton_volume_cbm (self : t) : float :=
  (carton_length_cm self * carton_width_cm self * carton_height_cm self
   / 1000000)%float.
End ProductSpec.

Module PalletSpec.
Record t : Type := {
  length_cm : float;
  width_cm : float;
  height_cm : float;
  base_height_cm : float
}.

(** The maximum allowable goods height above the pallet base. *)
Definition goods_height_limit (self : t) (container_height_cm : float)
  : result float :=
  let limit := (py_min (height_cm self) container_height_cm
                - base_height_cm self)%float in
  if (limit <=? 0)%float then Raise (ValueError PalletExceedsContainerHeight)
  else Ok limit.
End PalletSpec.

Module OrientationPlan.
Record t : Type := {
  cartons_per_layer : Z;
  cartons_along_length : Z;
  cartons_along_width : Z;
  carton_length_cm : float;
  carton_width_cm : float
}.
End OrientationPlan.

Module ProductPlan.
Record t : Type := {
  product : ProductSpec.t;
  orientation : OrientationPlan.t;
  layers_per_pallet : Z;
  cartons_per_pallet : Z;
  full_pallets : Z;
  remainder_cartons : Z
}.

Definition goods_height_cm (self : t) : result float :=
  int_mul_float (layers_per_pallet self)
    (ProductSpec.carton_height_cm (product self)).
End ProductPlan.

Module Layer.
Record t : Type := {
  product_name : string;
  cartons : Z;
  layer_height_cm : float
}.
End Layer.

Module PalletDetail.
Record t : Type := {
  label : string;
  count : Z;
  cartons_by_product : list (string * Z);
  goods_height_cm : float;
  total_height_cm : float
}.
End PalletDetail.

Module CalculationInput.
Record t : Type := {
  products : list pyval;
  pallet : pyval;
  allow_mixed_remainders : bool;
  container_height : string
}.
End CalculationInput.

Definition CUFT_PER_CBM : float := 35.3146667%float.

Module CalculationResult.
Record t : Type := {
  product_plans : list ProductPlan.t;
  pallets : list PalletDetail.t;
  total_cartons : Z;
  total_pallets : Z;
  volume_without_pallets_cbm : float;
  volume_with_pallets_cbm : float
}.

Definition volume_without_pallets_cuft (self : t) : float :=
  (volume_without_pallets_cbm self * CUFT_PER_CBM)%float.

Definition volume_with_pallets_cuft (self : t) : float :=
  (volume_with_pallets_cbm self * CUFT_PER_CBM)%float.
End CalculationResult.

Definition _CONTAINER_HEIGHTS_CM : list (string * float) :=
  [("20CY"%string, 239%float); ("40CY"%string, 239%float);
   ("40HQ"%string, 269%float)].

(** ** Orientation Selector *)

(** The sort key of an orientation and the [<] of Python tuples of ints. *)
Definition orientation_key (plan : OrientationPlan.t) : Z * Z * Z :=
  (OrientationPlan.cartons_per_layer plan,
   OrientationPlan.cartons_along_length plan,
   OrientationPlan.cartons_along_width plan).

Definition key_lt (a b : Z * Z * Z) : bool :=
  let '(a1, a2, a3) := a in
  let '(b1, b2, b3) := b in
  if a1 =? b1 then (if a2 =? b2 then a3 <? b3 else a2 <? b2) else a1 <? b1.

(** The body of the loop over the two orientations. *)
Definition orientation_step (pallet : PalletSpec.t)
  (options : list OrientationPlan.t) (dims : float * float)
  : result (list OrientationPlan.t) :=
  let '(length, width) := dims in
  ql <- float_truediv (PalletSpec.length_cm pallet) length ;;
  count_length <- math_floor ql ;;
  qw <- float_truediv (PalletSpec.width_cm pallet) width ;;
  count_width <- math_floor qw ;;
  let per_layer := count_length * count_width in
  if per_layer <=? 0 then Ok options
  else Ok (options ++
           [ {| OrientationPlan.cartons_per_layer := per_layer;
                OrientationPlan.cartons_along_length := count_length;
                OrientationPlan.cartons_along_width := count_width;
                OrientationPlan.carton_length_cm := length;
                OrientationPlan.carton_width_cm := width |} ]).

Definition _best_orientation (product : ProductSpec.t) (pallet : PalletSpec.t)
  : result OrientationPlan.t :=
  options <- foldM (orientation_step pallet)
               [ (ProductSpec.carton_length_cm product,
                  ProductSpec.carton_width_cm product);
                 (ProductSpec.carton_width_cm product,
                  ProductSpec.carton_length_cm product) ] [] ;;
  match options with
  | [] => Raise (ValueError (CannotFitFootprint (ProductSpec.name product)))
  | _ =>
      match sorted_reverse
              (fun a b => key_lt (orientation_key a) (orientation_key b))
              options with
      | best :: _ => Ok best
      | [] => Raise IndexError
      end
  end.

(** ** Remainder layers and the Remainder Packer *)

Definition _build_layers (plan : ProductPlan.t) : result (list Layer.t) :=
  if ProductPlan.remainder_cartons plan <=? 0 then Ok []
  else
    let per_layer :=
      OrientationPlan.cartons_per_layer (ProductPlan.orientation plan) in
    let product := ProductPlan.product plan in
    full_layers <- int_floordiv (ProductPlan.remainder_cartons plan) per_layer ;;
    let layers :=
      repeat {| Layer.product_name := ProductSpec.name product;
                Layer.cartons := per_layer;
                Layer.layer_height_cm := ProductSpec.carton_height_cm product |}
             (Z.to_nat full_layers) in
    remaining <- int_mod (ProductPlan.remainder_cartons plan) per_layer ;;
    if remaining =? 0 then Ok layers
    else Ok (layers ++
             [ {| Layer.product_name := ProductSpec.name product;
                  Layer.cartons := remaining;
                  Layer.layer_height_cm :=
                    ProductSpec.carton_height_cm product |} ]).

(** The state of the packing loop: the closed pallets, the open pallet and
    its running height. *)
Record pack_state : Type := {
  closed_pallets : list (list Layer.t);
  current : list Layer.t;
  current_height : float
}.

Definition pack_step (goods_height_limit_cm : float) (st : pack_state)
  (layer : Layer.t) : result pack_state :=
  let h := Layer.layer_height_cm layer in
  if (goods_height_limit_cm <? h)%float
  then Raise (ValueError LayerHeightExceedsLimit)
  else if (current_height st + h <=? goods_height_limit_cm)%float
  then Ok {| closed_pallets := closed_pallets st;
             current := current st ++ [layer];
             current_height := (current_height st + h)%float |}
  else Ok {| closed_pallets := closed_pallets st ++ [current st];
             current := [layer];
             current_height := h |}.

Definition layer_height_lt (a b : Layer.t) : bool :=
  (Layer.layer_height_cm a <? Layer.layer_height_cm b)%float.

Definition _pack_layers (layers : list Layer.t) (goods_height_limit_cm : float)
  : result (list (list Layer.t)) :=
  match layers with
  | [] => Ok []
  | _ =>
      let ordered := sorted_reverse layer_height_lt layers in
      st <- foldM (pack_step goods_height_limit_cm) ordered
              {| closed_pallets := []; current := [];
                 current_height := 0%float |} ;;
      match current st with
      | [] => Ok (closed_pallets st)
      | _ => Ok (closed_pallets st ++ [current st])
      end
  end.

(** ** Input Normalizer *)

(** [try: ... except (KeyError, TypeError, ValueError) as exc:
    raise ValueError(m) from exc]; any other exception propagates. *)
Definition except_invalid {A : Type} (m : message) (r : result A) : result A :=
  match r with
  | Raise KeyError | Raise TypeError | Raise (ValueError _) =>
      Raise (ValueError m)
  | _ => r
  end.

(** [v[key]] for a str key: only a dict can be subscripted by a str. *)
Definition getitem_key (v : pyval) (key : string) : result pyval :=
  match v with
  | PyDict d =>
      match dict_lookup d key with
      | Some x => Ok x
      | None => Raise KeyError
      end
  | _ => Raise TypeError
  end.

(** [v[i]] for a non-negative int index: a list gives its element, a str its
    character; the keys of a decoded JSON object are strs, so an int is
    never among them. *)
Definition getitem_index (v : pyval) (i : nat) : result pyval :=
  match v with
  | PyList l =>
      match nth_error l i with
      | Some x => Ok x
      | None => Raise IndexError
      end
  | PyStr s =>
      match String.get i s with
      | Some c => Ok (PyStr (String c EmptyString))
      | None => Raise IndexError
      end
  | PyDict _ => Raise KeyError
  | _ => Raise TypeError
  end.

(** [v.get(key, default)]; only a dict has the method. *)
Definition get_default (v : pyval) (key : string) (default : pyval)
  : result pyval :=
  match v with
  | PyDict d =>
      match dict_lookup d key with
      | Some x => Ok x
      | None => Ok default
      end
  | _ => Raise AttributeError
  end.

Section Builtins.

(** The interpreter's parsers of numeric text, [int(s)] and [float(s)] for a
    str [s] ([None] stands for their ValueError), and [repr] are outside the
    repository; the engine is parametric in them. *)
Variable int_of_str : string -> option Z.
Variable float_of_str : string -> option float.
Variable repr : pyval -> string.

(** [float(v)] *)
Definition py_float (v : pyval) : result float :=
  match v with
  | PyFloat f => Ok f
  | PyInt z => float_of_int z
  | PyBool b => Ok (if b then 1%float else 0%float)
  | PyStr s =>
      match float_of_str s with
      | Some f => Ok f
      | None => Raise (ValueError BuiltinMessage)
      end
  | _ => Raise TypeError
  end.

(** [int(v)] *)
Definition py_int (v : pyval) : result Z :=
  match v with
  | PyInt z => Ok z
  | PyBool b => Ok (if b then 1 else 0)
  | PyFloat f => float_trunc f
  | PyStr s =>
      match int_of_str s with
      | Some z => Ok z
      | None => Raise (ValueError BuiltinMessage)
      end
  | _ => Raise TypeError
  end.

(** [str(v)] *)
Definition py_str (v : pyval) : string :=
  match v with
  | PyStr s => s
  | _ => repr v
  end.

(** The body of the [try] block of [_load_products]. *)
Definition load_product (raw : pyval) : result ProductSpec.t :=
  dims <- getitem_key raw "carton_dimensions_cm" ;;
  d0 <- getitem_index dims 0 ;;
  length_cm <- py_float d0 ;;
  d1 <- getitem_index dims 1 ;;
  width_cm <- py_float d1 ;;
  d2 <- getitem_index dims 2 ;;
  height_cm <- py_float d2 ;;
  raw_name <- getitem_key raw "name" ;;
  raw_quantity <- getitem_key raw "order_quantity_pcs" ;;
  quantity <- py_int raw_quantity ;;
  raw_pcs <- getitem_key raw "pcs_per_carton" ;;
  pcs <- py_int raw_pcs ;;
  Ok {| ProductSpec.name := py_str raw_name;
        ProductSpec.order_quantity_pcs := quantity;
        ProductSpec.pcs_per_carton := pcs;
        ProductSpec.carton_length_cm := length_cm;
        ProductSpec.carton_width_cm := width_cm;
        ProductSpec.carton_height_cm := height_cm |}.

Definition _load_products (raw_products : list pyval)
  : result (list ProductSpec.t) :=
  products <-
    foldM (fun products raw =>
             product <- except_invalid (InvalidProductSpecification raw)
                          (load_product raw) ;;
             Ok (products ++ [product]))
          raw_products [] ;;
  match products with
  | [] => Raise (ValueError AtLeastOneProduct)
  | _ => Ok products
  end.

Definition _load_pallet (raw_pallet : pyval) : result PalletSpec.t :=
  '(length_cm, width_cm, height_cm, base_height_cm) <-
    except_invalid InvalidPalletSpecification
      (raw_length <- getitem_key raw_pallet "length_cm" ;;
       length_cm <- py_float raw_length ;;
       raw_width <- getitem_key raw_pallet "width_cm" ;;
       width_cm <- py_float raw_width ;;
       raw_height <- getitem_key raw_pallet "height_cm" ;;
       height_cm <- py_float raw_height ;;
       raw_base <- get_default raw_pallet "base_height_cm" (PyFloat 15) ;;
       base_height_cm <- py_float raw_base ;;
       Ok (length_cm, width_cm, height_cm, base_height_cm)) ;;
  if existsb (fun value => (value <=? 0)%float)
       [length_cm; width_cm; height_cm; base_height_cm]
  then Raise (ValueError PalletDimensionsNotPositive)
  else if (height_cm <=? base_height_cm)%float
  then Raise (ValueError PalletBaseHeightTooHigh)
  else Ok {| PalletSpec.length_cm := length_cm;
             PalletSpec.width_cm := width_cm;
             PalletSpec.height_cm := height_cm;
             PalletSpec.base_height_cm := base_height_cm |}.

Definition _resolve_container_height (container_height : string)
  : result float :=
  match dict_lookup _CONTAINER_HEIGHTS_CM (str_upper container_height) with
  | Some h => Ok h
  | None => Raise (ValueError (UnsupportedContainerHeight container_height))
  end.

(** ** Product Planner, remainder handling and Result Aggregator *)

(** The variables that the loop over the products updates. *)
Record loop_state : Type := {
  product_plans : list ProductPlan.t;
  remainder_layers : list Layer.t;
  pallets : list PalletDetail.t;
  total_cartons : Z;
  volume_without_pallets : float
}.

(** The goods height of a dedicated remainder pallet:
    [math.ceil(remainder / plan.orientation.cartons_per_layer)
     * product.carton_height_cm]. *)
Definition remainder_goods_height (remainder : Z) (plan : ProductPlan.t)
  (product : ProductSpec.t) : result float :=
  q <- int_truediv remainder
         (OrientationPlan.cartons_per_layer (ProductPlan.orientation plan)) ;;
  layer_count <- math_ceil q ;;
  int_mul_float layer_count (ProductSpec.carton_height_cm product).

(** The [PalletDetail] of the full pallets of a product, and of its
    dedicated remainder pallet. *)
Definition full_pallet (pallet : PalletSpec.t) (plan : ProductPlan.t)
  (goods_height_cm : float) : PalletDetail.t :=
  let product := ProductPlan.product plan in
  {| PalletDetail.label := (ProductSpec.name product ++ " full pallet")%string;
     PalletDetail.count := ProductPlan.full_pallets plan;
     PalletDetail.cartons_by_product :=
       [(ProductSpec.name product, ProductPlan.cartons_per_pallet plan)];
     PalletDetail.goods_height_cm := goods_height_cm;
     PalletDetail.total_height_cm :=
       (goods_height_cm + PalletSpec.base_height_cm pallet)%float |}.

Definition remainder_pallet (pallet : PalletSpec.t) (product : ProductSpec.t)
  (remainder : Z) (goods_height_cm : float) : PalletDetail.t :=
  {| PalletDetail.label :=
       (ProductSpec.name product ++ " remainder pallet")%string;
     PalletDetail.count := 1;
     PalletDetail.cartons_by_product := [(ProductSpec.name product, remainder)];
     PalletDetail.goods_height_cm := goods_height_cm;
     PalletDetail.total_height_cm :=
       (goods_height_cm + PalletSpec.base_height_cm pallet)%float |}.

(** The body of [for product in products:]. *)
Definition plan_step (allow_mixed_remainders : bool) (pallet : PalletSpec.t)
  (goods_limit_cm : float) (st : loop_state) (product : ProductSpec.t)
  : result loop_state :=
  orientation <- _best_orientation product pallet ;;
  q <- float_truediv goods_limit_cm (ProductSpec.carton_height_cm product) ;;
  layers_per_pallet <- math_floor q ;;
  if layers_per_pallet <=? 0
  then Raise (ValueError (ExceedsStackingHeight (ProductSpec.name product)))
  else
  let cartons_per_pallet :=
    OrientationPlan.cartons_per_layer orientation * layers_per_pallet in
  if cartons_per_pallet <=? 0
  then Raise (ValueError (CannotBePlaced (ProductSpec.name product)))
  else
  cartons_required <- ProductSpec.cartons_required product ;;
  full_pallets <- int_floordiv cartons_required cartons_per_pallet ;;
  remainder <- int_mod cartons_required cartons_per_pallet ;;
  let plan :=
    {| ProductPlan.product := product;
       ProductPlan.orientation := orientation;
       ProductPlan.layers_per_pallet := layers_per_pallet;
       ProductPlan.cartons_per_pallet := cartons_per_pallet;
       ProductPlan.full_pallets := full_pallets;
       ProductPlan.remainder_cartons := remainder |} in
  volume <- int_mul_float cartons_required
              (ProductSpec.carton_volume_cbm product) ;;
  pallets1 <-
    (if full_pallets =? 0 then Ok (pallets st)
     else
       goods_height_cm <- ProductPlan.goods_height_cm plan ;;
       Ok (pallets st ++ [full_pallet pallet plan goods_height_cm])) ;;
  '(remainder_layers2, pallets2) <-
    (if allow_mixed_remainders then
       layers <- _build_layers plan ;;
       Ok (remainder_layers st ++ layers, pallets1)
     else if remainder =? 0 then Ok (remainder_layers st, pallets1)
     else
       goods_height_cm <- remainder_goods_height remainder plan product ;;
       Ok (remainder_layers st,
           pallets1 ++
           [remainder_pallet pallet product remainder goods_height_cm])) ;;
  Ok {| product_plans := product_plans st ++ [plan];
        remainder_layers := remainder_layers2;
        pallets := pallets2;
        total_cartons := total_cartons st + cartons_required;
        volume_without_pallets := (volume_without_pallets st + volume)%float |}.

(** The inner loop over one packed stack: the cartons per product and the
    goods height. *)
Definition stack_totals (layer_stack : list Layer.t)
  : list (string * Z) * float :=
  fold_left
    (fun (acc : list (string * Z) * float) layer =>
       let '(cartons_by_product, goods_height_cm) := acc in
       (dict_set cartons_by_product (Layer.product_name layer)
          (dict_get cartons_by_product (Layer.product_name layer) 0
           + Layer.cartons layer),
        (goods_height_cm + Layer.layer_height_cm layer)%float))
    layer_stack ([], 0%float).

Definition mixed_pallet (pallet : PalletSpec.t) (index : nat)
  (layer_stack : list Layer.t) : PalletDetail.t :=
  let '(cartons_by_product, goods_height_cm) := stack_totals layer_stack in
  {| PalletDetail.label :=
       ("Mixed remainder pallet #" ++ str_of_nat index)%string;
     PalletDetail.count := 1;
     PalletDetail.cartons_by_product := cartons_by_product;
     PalletDetail.goods_height_cm := goods_height_cm;
     PalletDetail.total_height_cm :=
       (goods_height_cm + PalletSpec.base_height_cm pallet)%float |}.

(** [for index, layer_stack in enumerate(packed, start=1)] *)
Definition mixed_pallets (pallet : PalletSpec.t)
  (packed : list (list Layer.t)) : list PalletDetail.t :=
  map (fun '(index, layer_stack) => mixed_pallet pallet index layer_stack)
      (combine (seq 1 (List.length packed)) packed).

(** [sum(detail.count for detail in pallets)] *)
Definition sum_counts (pallets : list PalletDetail.t) : Z :=
  fold_left (fun acc detail => acc + PalletDetail.count detail) pallets 0.

(** The loop that accumulates [volume_with_pallets]. *)
Definition volume_step (pallet_footprint_sqm : float) (volume : float)
  (detail : PalletDetail.t) : result float :=
  let height_m := (PalletDetail.total_height_cm detail / 100)%float in
  count <- float_of_int (PalletDetail.count detail) ;;
  Ok (volume + count * pallet_footprint_sqm * height_m)%float.

Definition calculate_palletization (data : CalculationInput.t)
  : result CalculationResult.t :=
  products <- _load_products (CalculationInput.products data) ;;
  pallet <- _load_pallet (CalculationInput.pallet data) ;;
  container_height_cm <-
    _resolve_container_height (CalculationInput.container_height data) ;;
  goods_limit_cm <- PalletSpec.goods_height_limit pallet container_height_cm ;;
  st <- foldM (plan_step (CalculationInput.allow_mixed_remainders data)
                 pallet goods_limit_cm)
          products
          {| product_plans := []; remainder_layers := []; pallets := [];
             total_cartons := 0; volume_without_pallets := 0%float |} ;;
  all_pallets <-
    (if CalculationInput.allow_mixed_remainders data then
       match remainder_layers st with
       | [] => Ok (pallets st)
       | _ =>
           packed <- _pack_layers (remainder_layers st) goods_limit_cm ;;
           Ok (pallets st ++ mixed_pallets pallet packed)
       end
     else Ok (pallets st)) ;;
  let total_pallets := sum_counts all_pallets in
  let pallet_footprint_sqm :=
    (PalletSpec.length_cm pallet / 100 * (PalletSpec.width_cm pallet / 100))%float in
  volume_with_pallets <-
    foldM (volume_step pallet_footprint_sqm) all_pallets 0%float ;;
  Ok {| CalculationResult.product_plans := product_plans st;
        CalculationResult.pallets := all_pallets;
        CalculationResult.total_cartons := total_cartons st;
        CalculationResult.total_pallets := total_pallets;
        CalculationResult.volume_without_pallets_cbm := volume_without_pallets st;
        CalculationResult.volume_with_pallets_cbm := volume_with_pallets |}.

End Builtins.

(** ** The web front end: [pallet_calc/web.py]

    [value.strip().lower() in {"y", "yes", "true", "1"}]. Among the
    characters that [ascii] holds, [str.isspace] is true of the codes 9 to
    13, 28 to 32, 133 and 160, and [str.lower] moves the capital letters,
    65 to 90 and 192 to 222 without 215, up by 32. *)
Definition is_space (c : ascii) : bool :=
  let n := nat_of_ascii c in
  (Nat.leb 9 n && Nat.leb n 13) || (Nat.leb 28 n && Nat.leb n 32)
  || Nat.eqb n 133 || Nat.eqb n 160.

Definition lower_char (c : ascii) : ascii :=
  let n := nat_of_ascii c in
  if (Nat.leb 65 n && Nat.leb n 90)
     || (Nat.leb 192 n && Nat.leb n 222 && negb (Nat.eqb n 215))
  then ascii_of_nat (n + 32) else c.

Fixpoint str_lower (s : string) : string :=
  match s with
  | EmptyString => EmptyString
  | String c s' => String (lower_char c) (str_lower s')
  end.

Fixpoint str_lstrip (s : string) : string :=
  match s with
  | EmptyString => EmptyString
  | String c s' => if is_space c then str_lstrip s' else s
  end.

Fixpoint str_rstrip (s : string) : string :=
  match s with
  | EmptyString => EmptyString
  | String c s' =>
      match str_rstrip s' with
      | EmptyString => if is_space c then EmptyString else String c EmptyString
      | t => String c t
      end
  end.

Definition str_strip (s : string) : string := str_rstrip (str_lstrip s).

Definition _parse_yes_no (value : string) : bool :=
  existsb (String.eqb (str_lower (str_strip value)))
          ["y"; "yes"; "true"; "1"]%string.

(** A str of whitespace only. *)
Fixpoint all_space (s : string) : bool :=
  match s with
  | EmptyString => true
  | String c s' => is_space c && all_space s'
  end.

(** The entry of a product whose fields already have the types the loader
    converts to: a str name, int quantities and three float dimensions, as
    [index] of [pallet_calc/web.py] builds it from the form. *)
Definition product_entry (p : ProductSpec.t) : pyval :=
  PyDict [ ("name"%string, PyStr (ProductSpec.name p));
           ("order_quantity_pcs"%string, PyInt (ProductSpec.order_quantity_pcs p));
           ("pcs_per_carton"%string, PyInt (ProductSpec.pcs_per_carton p));
           ("carton_dimensions_cm"%string,
            PyList [ PyFloat (ProductSpec.carton_length_cm p);
                     PyFloat (ProductSpec.carton_width_cm p);
                     PyFloat (ProductSpec.carton_height_cm p) ]) ].

(** ** Examples

    One choice of the interpreter's parsers, for closed examples: text that
    is a plain decimal integer is converted; other text that Python accepts
    as well (surrounding blanks, underscores, exponents) is rejected, and
    [repr] is rendered for ints, bools and [None] only. The examples below
    carry numbers and str names, on which no choice matters. *)
Definition decimal_int_of_str (s : string) : option Z :=
  option_map Z.of_int (NilZero.int_of_string s).

Definition decimal_float_of_str (s : string) : option float :=
  match decimal_int_of_str s with
  | Some z =>
      match float_of_int z with
      | Ok f => Some f
      | Raise _ => None
      end
  | None => None
  end.

Definition plain_repr (v : pyval) : string :=
  match v with
  | PyNone => "None"
  | PyBool true => "True"
  | PyBool false => "False"
  | PyInt z => NilZero.string_of_int (Z.to_int z)
  | _ => ""
  end.

(** The input of [tests/test_calculator.py]. *)
Definition build_example_input (allow_mixed : bool) : CalculationInput.t :=
  {| CalculationInput.products :=
       [ PyDict [ ("name"%string, PyStr "999-00031");
                  ("order_quantity_pcs"%string, PyInt 800);
                  ("pcs_per_carton"%string, PyInt 10);
                  ("carton_dimensions_cm"%string,
                   PyList [PyInt 56; PyInt 26; PyInt 20]) ];
         PyDict [ ("name"%string, PyStr "999-00166");
                  ("order_quantity_pcs"%string, PyInt 580);
                  ("pcs_per_carton"%string, PyInt 10);
                  ("carton_dimensions_cm"%string,
                   PyList [PyInt 97; PyInt 26; PyInt 20]) ] ];
     CalculationInput.pallet :=
       PyDict [ ("length_cm"%string, PyInt 120);
                ("width_cm"%string, PyInt 105);
                ("height_cm"%string, PyInt 195) ];
     CalculationInput.allow_mixed_remainders := allow_mixed;
     CalculationInput.container_height := "20CY" |}.

Definition empty_result : CalculationResult.t :=
  {| CalculationResult.product_plans := [];
     CalculationResult.pallets := [];
     CalculationResult.total_cartons := 0;
     CalculationResult.total_pallets := 0;
     CalculationResult.volume_without_pallets_cbm := 0%float;
     CalculationResult.volume_with_pallets_cbm := 0%float |}.

(** The value of a call, or [empty_result] if it raised. *)
Definition value_of (r : result CalculationResult.t) : CalculationResult.t :=
  match r with
  | Ok v => v
  | Raise _ => empty_result
  end.

(** The results of the engine on the input of the tests, with mixing and
    without. *)
Definition scenario_mixed : CalculationResult.t :=
  Eval vm_compute in
    value_of (calculate_palletization decimal_int_of_str decimal_float_of_str
                plain_repr (build_example_input true)).

Definition scenario_dedicated : CalculationResult.t :=
  Eval vm_compute in
    value_of (calculate_palletization decimal_int_of_str decimal_float_of_str
                plain_repr (build_example_input false)).

(** The plan of the first product in that result. *)
Definition scenario_plan_a : ProductPlan.t :=
  Eval vm_compute in
    hd {| ProductPlan.product :=
            {| ProductSpec.name := "";
               ProductSpec.order_quantity_pcs := 0;
               ProductSpec.pcs_per_carton := 0;
               ProductSpec.carton_length_cm := 0%float;
               ProductSpec.carton_width_cm := 0%float;
               ProductSpec.carton_height_cm := 0%float |};
          ProductPlan.orientation :=
            {| OrientationPlan.cartons_per_layer := 0;
               OrientationPlan.cartons_along_length := 0;
               OrientationPlan.cartons_along_width := 0;
               OrientationPlan.carton_length_cm := 0%float;
               OrientationPlan.carton_width_cm := 0%float |};
          ProductPlan.layers_per_pallet := 0;
          ProductPlan.cartons_per_pallet := 0;
          ProductPlan.full_pallets := 0;
          ProductPlan.remainder_cartons := 0 |}
       (CalculationResult.product_plans scenario_mixed).

(** [math.isclose(a, b, rel_tol=rel_tol)], as the tests use it. *)
Definition math_isclose (a b rel_tol : float) : bool :=
  (a =? b)%float
  || (negb (is_infinity a || is_infinity b)
      && (let diff := abs (b - a) in
          (diff <=? abs (rel_tol * b))%float
          || (diff <=? abs (rel_tol * a))%float
          || (diff <=? 0)%float)).

(** One product in cartons of 56 x 26 cm and of the given height, on the
    pallet of the tests but of the given height. *)
Definition single_product_input (allow_mixed : bool) (quantity : Z)
  (carton_height_cm : float) (pallet_height_cm : Z) : CalculationInput.t :=
  {| CalculationInput.products :=
       [ PyDict [ ("name"%string, PyStr "A");
                  ("order_quantity_pcs"%string, PyInt quantity);
                  ("pcs_per_carton"%string, PyInt 10);
                  ("carton_dimensions_cm"%string,
                   PyList [PyInt 56; PyInt 26; PyFloat carton_height_cm]) ] ];
     CalculationInput.pallet :=
       PyDict [ ("length_cm"%string, PyInt 120);
                ("width_cm"%string, PyInt 105);
                ("height_cm"%string, PyInt pallet_height_cm) ];
     CalculationInput.allow_mixed_remainders := allow_mixed;
     CalculationInput.container_height := "20CY" |}.

(** Three fragments of heights 20, 30 and 20 cm. *)
Definition layer_x : Layer.t :=
  {| Layer.product_name := "X"; Layer.cartons := 8;
     Layer.layer_height_cm := 20%float |}.

Definition layer_y : Layer.t :=
  {| Layer.product_name := "Y"; Layer.cartons := 4;
     Layer.layer_height_cm := 30%float |}.

Definition layer_z : Layer.t :=
  {| Layer.product_name := "Z"; Layer.cartons := 2;
     Layer.layer_height_cm := 20%float |}.

Definition example_layers : list Layer.t := [layer_x; layer_y; layer_z].

(** A plan with a remainder of 44 cartons in layers of 8. *)
Definition example_plan : ProductPlan.t :=
  {| ProductPlan.product :=
       {| ProductSpec.name := "A";
          ProductSpec.order_quantity_pcs := 440;
          ProductSpec.pcs_per_carton := 10;
          ProductSpec.carton_length_cm := 56%float;
          ProductSpec.carton_width_cm := 26%float;
          ProductSpec.carton_height_cm := 20%float |};
     ProductPlan.orientation :=
       {| OrientationPlan.cartons_per_layer := 8;
          OrientationPlan.cartons_along_length := 2;
          OrientationPlan.cartons_along_width := 4;
          OrientationPlan.carton_length_cm := 56%float;
          OrientationPlan.carton_width_cm := 26%float |};
     ProductPlan.layers_per_pallet := 9;
     ProductPlan.cartons_per_pallet := 72;
     ProductPlan.full_pallets := 0;
     ProductPlan.remainder_cartons := 44 |}.

(** A pallet that is 10^300 times wider than long, and a carton that is
    10^10 times wider than long. *)
Definition oblong_pallet : PalletSpec.t :=
  {| PalletSpec.length_cm := 1%float;
     PalletSpec.width_cm := 1e300%float;
     PalletSpec.height_cm := 195%float;
     PalletSpec.base_height_cm := 15%float |}.

Definition oblong_product : ProductSpec.t :=
  {| ProductSpec.name := "X";
     ProductSpec.order_quantity_pcs := 10;
     ProductSpec.pcs_per_carton := 1;
     ProductSpec.carton_length_cm := 1e-10%float;
     ProductSpec.carton_width_cm := 1%float;
     ProductSpec.carton_height_cm := 20%float |}.

(** The pallet of the tests as [_load_pallet] returns it, and its record. *)
Definition example_pallet_record : list (string * pyval) :=
  [ ("length_cm"%string, PyInt 120); ("width_cm"%string, PyInt 105);
    ("height_cm"%string, PyInt 195) ].

Definition example_pallet : PalletSpec.t :=
  {| PalletSpec.length_cm := 120%float;
     PalletSpec.width_cm := 105%float;
     PalletSpec.height_cm := 195%float;
     PalletSpec.base_height_cm := 15%float |}.

(** A product entry with two carton dimensions only, and an input with
    it. *)
Definition two_dimensions_entry : list (string * pyval) :=
  [ ("name"%string, PyStr "A");
    ("order_quantity_pcs"%string, PyInt 800);
    ("pcs_per_carton"%string, PyInt 10);
    ("carton_dimensions_cm"%string, PyList [PyInt 56; PyInt 26]) ].

Definition two_dimensions_input : CalculationInput.t :=
  {| CalculationInput.products := [PyDict two_dimensions_entry];
     CalculationInput.pallet := PyDict example_pallet_record;
     CalculationInput.allow_mixed_remainders := false;
     CalculationInput.container_height := "20CY" |}.

(** An input without products. *)
Definition no_products_input : CalculationInput.t :=
  {| CalculationInput.products := [];
     CalculationInput.pallet := PyDict example_pallet_record;
     CalculationInput.allow_mixed_remainders := false;
     CalculationInput.container_height := "20CY" |}.

(** ** Definitions used by the proofs *)

(** *** Rounding to nearest, ties to even

    [rne X B] is the integer nearest to the rational [X / B]; [loc_of T B] is
    the position of the remainder [T] in the interval of length [B], as the
    rounding functions of [SpecFloat] track it; [shr_inv mrs X B] says that
    the shift record [mrs] stands for [X / B]. *)
Definition rne (X B : Z) : Z :=
  let q := X / B in
  match 2 * (X mod B) ?= B with
  | Lt => q
  | Eq => if Z.even q then q else q + 1
  | Gt => q + 1
  end.

Definition loc_of (T B : Z) : location :=
  if T =? 0 then loc_Exact else loc_Inexact (2 * T ?= B).

Definition shr_inv (mrs : shr_record) (X B : Z) : Prop :=
  0 <= shr_m mrs /\ 0 < B /\
  exists T, 0 <= T < B /\ X = shr_m mrs * B + T /\
            loc_of_shr_record mrs = loc_of T B.

(** *** Floats up to the sign of zero

    [0.0 + h] is [h] except that [0.0 + (-0.0)] is [0.0]; the two zeros
    compare equal. *)
Definition same_value (x y : float) : Prop :=
  x = y \/
  (exists s1 s2, Prim2SF x = S754_zero s1 /\ Prim2SF y = S754_zero s2).

(** *** The Remainder Packer in the words of its specification

    [stack_height] is the goods height that the engine reports for a packed
    stack. [next_fit limit fragments closed open running result] reads: with
    [closed] pallets behind it, [open] as the open pallet and [running] as
    its height, next-fit over [fragments] ends with the pallets [result]. *)
Definition stack_height (layer_stack : list Layer.t) : float :=
  snd (stack_totals layer_stack).

Inductive next_fit (limit : float)
  : list Layer.t -> list (list Layer.t) -> list Layer.t -> float ->
    list (list Layer.t) -> Prop :=
| next_fit_done_empty closed running :
    next_fit limit [] closed [] running closed
| next_fit_done closed open running :
    open <> [] ->
    next_fit limit [] closed open running (closed ++ [open])
| next_fit_append fragment rest closed open running result :
    (running + Layer.layer_height_cm fragment <=? limit)%float = true ->
    next_fit limit rest closed (open ++ [fragment])
      (running + Layer.layer_height_cm fragment)%float result ->
    next_fit limit (fragment :: rest) closed open running result
| next_fit_close fragment rest closed open running result :
    (running + Layer.layer_height_cm fragment <=? limit)%float = false ->
    next_fit limit rest (closed ++ [open]) [fragment]
      (Layer.layer_height_cm fragment) result ->
    next_fit limit (fragment :: rest) closed open running result.

(** The pallets that [_pack_layers] returns from the final loop state. *)
Definition packed_pallets (st : pack_state) : list (list Layer.t) :=
  match current st with
  | [] => closed_pallets st
  | _ => closed_pallets st ++ [current st]
  end.

(** A list is ascending for [lt] when no element is smaller than an earlier
    one, and descending when none is smaller than a later one. *)
Definition ascending {A : Type} (lt : A -> A -> bool) (l : list A) : Prop :=
  StronglySorted (fun u v => lt v u = false) l.

Definition descending {A : Type} (lt : A -> A -> bool) (l : list A) : Prop :=
  StronglySorted (fun u v => lt u v = false) l.

(** What the loop maintains when no fragment is taller than the limit:
    closed pallets are non-empty and within the limit, and the running height
    is the goods height of the open pallet. *)
Definition pack_inv (limit : float) (st : pack_state) : Prop :=
  Forall (fun g => g <> [] /\ (stack_height g <=? limit)%float = true)
         (closed_pallets st) /\
  same_value (current_height st) (stack_height (current st)) /\
  (current st <> [] -> (current_height st <=? limit)%float = true).

(** *** The Orientation Selector in the words of its specification *)

(** The counts of one orientation, [floor(pallet length / length)] and
    [floor(pallet width / width)], evaluated as the loop does. *)
Definition orientation_counts (pallet : PalletSpec.t) (length width : float)
  : result (Z * Z) :=
  ql <- float_truediv (PalletSpec.length_cm pallet) length ;;
  count_length <- math_floor ql ;;
  qw <- float_truediv (PalletSpec.width_cm pallet) width ;;
  count_width <- math_floor qw ;;
  Ok (count_length, count_width).

Definition candidate (length width : float) (counts : Z * Z)
  : OrientationPlan.t :=
  {| OrientationPlan.cartons_per_layer := fst counts * snd counts;
     OrientationPlan.cartons_along_length := fst counts;
     OrientationPlan.cartons_along_width := snd counts;
     OrientationPlan.carton_length_cm := length;
     OrientationPlan.carton_width_cm := width |}.

(** [c] does not beat [best]: fewer cartons per layer, or as many and fewer
    along the length, or as many of both and no more along the width. *)
Definition not_better (c best : OrientationPlan.t) : Prop :=
  OrientationPlan.cartons_per_layer c < OrientationPlan.cartons_per_layer best \/
  (OrientationPlan.cartons_per_layer c = OrientationPlan.cartons_per_layer best /\
   (OrientationPlan.cartons_along_length c
      < OrientationPlan.cartons_along_length best \/
    (OrientationPlan.cartons_along_length c
       = OrientationPlan.cartons_along_length best /\
     OrientationPlan.cartons_along_width c
       <= OrientationPlan.cartons_along_width best))).

(** *** Totals in the words of the specification *)

Definition sum_Z (l : list Z) : Z := fold_right Z.add 0 l.

(** The cartons that a pallet detail stands for: [count] times the sum of
    the values of [cartons_by_product]. *)
Definition dict_total (d : list (string * Z)) : Z := sum_Z (map snd d).

Definition detail_cartons (detail : PalletDetail.t) : Z :=
  PalletDetail.count detail * dict_total (PalletDetail.cartons_by_product detail).

Definition pallets_cartons (details : list PalletDetail.t) : Z :=
  sum_Z (map detail_cartons details).

Definition layers_cartons (layers : list Layer.t) : Z :=
  sum_Z (map Layer.cartons layers).

(** [full_pallets * cartons_per_pallet + remainder_cartons == cartons_required] *)
Definition plan_balanced (plan : ProductPlan.t) : Prop :=
  exists cartons_required,
    ProductSpec.cartons_required (ProductPlan.product plan) = Ok cartons_required /\
    ProductPlan.full_pallets plan * ProductPlan.cartons_per_pallet plan
    + ProductPlan.remainder_cartons plan = cartons_required.

(** The volume of the pallets a detail stands for,
    [count * (length/100 * width/100) * (total_height_cm/100)], and the sum
    of these volumes over the details, from [0.0] and in order. *)
Definition detail_volume (pallet : PalletSpec.t) (detail : PalletDetail.t)
  : result float :=
  count <- float_of_int (PalletDetail.count detail) ;;
  Ok (count
      * (PalletSpec.length_cm pallet / 100 * (PalletSpec.width_cm pallet / 100))
      * (PalletDetail.total_height_cm detail / 100))%float.

Fixpoint volume_sum (pallet : PalletSpec.t) (details : list PalletDetail.t)
  (acc : float) : result float :=
  match details with
  | [] => Ok acc
  | detail :: details' =>
      v <- detail_volume pallet detail ;;
      volume_sum pallet details' (acc + v)%float
  end.

(** The state in which the loop over the products starts. *)
Definition initial_state : loop_state :=
  {| product_plans := []; remainder_layers := []; pallets := [];
     total_cartons := 0; volume_without_pallets := 0%float |}.

(** *** The defensive check of the Remainder Packer *)

(** [r] is not the failure "Layer height exceeds available stacking limit." *)
Definition no_layer_error {A : Type} (r : result A) : Prop :=
  r <> Raise (ValueError LayerHeightExceedsLimit).

(** *** Neighbours in a list

    [adjacent R l]: every element of [l] and the one right behind it are
    related by [R]. *)
Definition adjacent {A : Type} (R : A -> A -> Prop) (l : list A) : Prop :=
  forall i x y, nth_error l i = Some x -> nth_error l (S i) = Some y -> R x y.

(** Why the packer opened the pallet [next] behind [previous]: the first
    fragment of [next] did not fit on [previous]. *)
Definition opened_for_lack_of_room (limit : float)
  (previous next : list Layer.t) : Prop :=
  exists fragment rest,
    next = fragment :: rest /\
    (stack_height previous + Layer.layer_height_cm fragment <=? limit)%float
    = false.

(** The loop state of the packer as the pallets it stands for, the open one
    last. *)
Definition pallets_so_far (st : pack_state) : list (list Layer.t) :=
  closed_pallets st ++ [current st].

(** *** The product with its two sides exchanged *)
Definition swap_sides (product : ProductSpec.t) : ProductSpec.t :=
  {| ProductSpec.name := ProductSpec.name product;
     ProductSpec.order_quantity_pcs := ProductSpec.order_quantity_pcs product;
     ProductSpec.pcs_per_carton := ProductSpec.pcs_per_carton product;
     ProductSpec.carton_length_cm := ProductSpec.carton_width_cm product;
     ProductSpec.carton_width_cm := ProductSpec.carton_length_cm product;
     ProductSpec.carton_height_cm := ProductSpec.carton_height_cm product |}.

(** *** The plan of a product

    [planned pallet limit product plan]: [plan] is what the loop over the
    products makes of [product]: the orientation that [_best_orientation]
    selects, [floor(limit / carton height)] layers, their product as the
    cartons per pallet, and the quotient and the remainder of the cartons
    required by it. *)
Definition planned (pallet : PalletSpec.t) (limit : float)
  (product : ProductSpec.t) (plan : ProductPlan.t) : Prop :=
  ProductPlan.product plan = product /\
  _best_orientation product pallet = Ok (ProductPlan.orientation plan) /\
  (q <- float_truediv limit (ProductSpec.carton_height_cm product) ;;
   math_floor q) = Ok (ProductPlan.layers_per_pallet plan) /\
  ProductPlan.cartons_per_pallet plan
  = OrientationPlan.cartons_per_layer (ProductPlan.orientation plan)
    * ProductPlan.layers_per_pallet plan /\
  0 < ProductPlan.layers_per_pallet plan /\
  0 < ProductPlan.cartons_per_pallet plan /\
  exists cartons_required,
    ProductSpec.cartons_required product = Ok cartons_required /\
    ProductPlan.full_pallets plan
    = cartons_required / ProductPlan.cartons_per_pallet plan /\
    ProductPlan.remainder_cartons plan
    = cartons_required mod ProductPlan.cartons_per_pallet plan.

(** *** The entries of the pallet list

    What a pallet detail says apart from its heights, and the entries that
    the loop over the products emits for a plan: one for its full pallets
    unless there is none, and, in dedicated mode, one for its remainder
    unless there is none. *)
Definition detail_summary (detail : PalletDetail.t)
  : string * Z * list (string * Z) :=
  (PalletDetail.label detail, PalletDetail.count detail,
   PalletDetail.cartons_by_product detail).

Definition full_entry (plan : ProductPlan.t)
  : list (string * Z * list (string * Z)) :=
  let name := ProductSpec.name (ProductPlan.product plan) in
  if ProductPlan.full_pallets plan =? 0 then []
  else [ ((name ++ " full pallet")%string, ProductPlan.full_pallets plan,
          [(name, ProductPlan.cartons_per_pallet plan)]) ].

Definition remainder_entry (plan : ProductPlan.t)
  : list (string * Z * list (string * Z)) :=
  let name := ProductSpec.name (ProductPlan.product plan) in
  if ProductPlan.remainder_cartons plan =? 0 then []
  else [ ((name ++ " remainder pallet")%string, 1,
          [(name, ProductPlan.remainder_cartons plan)]) ].

(** The number of pallets of a plan in dedicated mode. *)
Definition dedicated_pallets (plan : ProductPlan.t) : Z :=
  ProductPlan.full_pallets plan
  + (if ProductPlan.remainder_cartons plan =? 0 then 0 else 1).

(** *** Cartons by product name *)

Definition named (name : string) (layer : Layer.t) : bool :=
  String.eqb (Layer.product_name layer) name.

(** The cartons of the product [name] among fragments, on the pallets of a
    detail, on all pallets, and in the plans. *)
Definition layers_cartons_of (name : string) (layers : list Layer.t) : Z :=
  layers_cartons (filter (named name) layers).

Definition detail_cartons_of (name : string) (detail : PalletDetail.t) : Z :=
  PalletDetail.count detail
  * dict_get (PalletDetail.cartons_by_product detail) name 0.

Definition pallets_cartons_of (name : string) (details : list PalletDetail.t)
  : Z :=
  sum_Z (map (detail_cartons_of name) details).

Definition plan_cartons_of (name : string) (plan : ProductPlan.t) : Z :=
  if String.eqb (ProductSpec.name (ProductPlan.product plan)) name
  then ProductPlan.full_pallets plan * ProductPlan.cartons_per_pallet plan
       + ProductPlan.remainder_cartons plan
  else 0.

Definition plans_cartons_of (name : string) (plans : list ProductPlan.t) : Z :=
  sum_Z (map (plan_cartons_of name) plans).

(** *** The volume of the goods

    [cartons_required * carton_volume_cbm] summed over the plans, from
    [acc] and in order. *)
Fixpoint goods_volume (plans : list ProductPlan.t) (acc : float)
  : result float :=
  match plans with
  | [] => Ok acc
  | plan :: plans' =>
      cartons_required <-
        ProductSpec.cartons_required (ProductPlan.product plan) ;;
      volume <- int_mul_float cartons_required
                  (ProductSpec.carton_volume_cbm (ProductPlan.product plan)) ;;
      goods_volume plans' (acc + volume)%float
  end.

(** *** The exceptions of the engine *)

(** The exceptions that a failed lookup or conversion of untyped input
    raises and that the loaders are there to convert. *)
Definition lookup_exception (e : exn) : bool :=
  match e with
  | KeyError | TypeError | AttributeError => true
  | _ => false
  end.

Definition is_attribute_error (e : exn) : bool :=
  match e with
  | AttributeError => true
  | _ => false
  end.

(** [r] does not fail with an exception of the class [bad]. *)
Definition never_raises {A : Type} (bad : exn -> bool) (r : result A) : Prop :=
  forall e, r = Raise e -> bad e = false.

(** * Proofs *)

#[local] Arguments Z.mul : simpl never.
#[local] Arguments Z.add : simpl never.
#[local] Arguments Z.sub : simpl never.
#[local] Arguments Z.pow : simpl never.
#[local] Arguments Z.div : simpl never.
#[local] Arguments Z.modulo : simpl never.

(** ** Binary64 arithmetic *)

Lemma fexp64 e : fexp prec emax e = Z.max (e - 53) (-1074).
Proof. reflexivity. Qed.

Lemma digits2_pos_size p : digits2_pos p = Pos.size p.
Proof. induction p; simpl; congruence. Qed.

Lemma Zdigits2_log2 m : 0 < m -> Zdigits2 m = Z.log2 m + 1.
Proof.
  destruct m as [|p|p]; try lia. intros _. simpl.
  rewrite digits2_pos_size.
  destruct p; simpl; try rewrite Pos2Z.inj_succ; try reflexivity.
Qed.

Lemma Zdigits2_bounds m :
  0 < m -> 2 ^ (Zdigits2 m - 1) <= m < 2 ^ Zdigits2 m.
Proof.
  intros Hm. rewrite (Zdigits2_log2 m Hm).
  replace (Z.log2 m + 1 - 1) with (Z.log2 m) by lia.
  replace (Z.log2 m + 1) with (Z.succ (Z.log2 m)) by lia.
  apply Z.log2_spec; assumption.
Qed.

Lemma Zdigits2_nonneg m : 0 <= Zdigits2 m.
Proof. destruct m; simpl; lia. Qed.

Lemma Zdigits2_unique m d :
  0 < m -> 2 ^ (d - 1) <= m < 2 ^ d -> Zdigits2 m = d.
Proof.
  intros Hm H. rewrite (Zdigits2_log2 m Hm).
  assert (0 <= d - 1).
  { destruct (Z.le_gt_cases 0 (d - 1)) as [|Hn]; [assumption|].
    assert (d <= 0) by lia.
    assert (2 ^ d <= 2 ^ 0) by (destruct (Z.eq_dec d 0); [subst; lia|rewrite Z.pow_neg_r; lia]).
    simpl in *. lia. }
  assert (Z.log2 m = d - 1).
  { apply Z.log2_unique; [assumption|]. replace (Z.succ (d - 1)) with d by lia. assumption. }
  lia.
Qed.

Lemma Zdigits2_le m d : 0 <= m < 2 ^ d -> 0 <= d -> Zdigits2 m <= d.
Proof.
  intros [Hm Hlt] Hd.
  destruct (Z.eq_dec m 0) as [->|Hne]; [simpl; lia|].
  assert (Hpos : 0 < m) by lia.
  pose proof (Zdigits2_bounds m Hpos) as [Hlo _].
  destruct (Z.le_gt_cases (Zdigits2 m) d) as [|Hgt]; [assumption|].
  assert (2 ^ d <= 2 ^ (Zdigits2 m - 1)) by (apply Z.pow_le_mono_r; lia).
  lia.
Qed.

Lemma Zdigits2_ge m d : 2 ^ (d - 1) <= m -> 0 < m -> d <= Zdigits2 m.
Proof.
  intros Hlo Hm.
  pose proof (Zdigits2_bounds m Hm) as [_ Hhi].
  destruct (Z.le_gt_cases d (Zdigits2 m)) as [|Hgt]; [assumption|].
  assert (2 ^ Zdigits2 m <= 2 ^ (d - 1)).
  { apply Z.pow_le_mono_r; [lia|]. lia. }
  lia.
Qed.

Lemma new_location_loc_of B T :
  0 < B -> 0 <= T < B -> new_location B T = loc_of T B.
Proof.
  intros HB HT. unfold new_location, new_location_even, new_location_odd, loc_of.
  destruct (Z.even B) eqn:Hev; [reflexivity|].
  destruct (T =? 0); [reflexivity|].
  f_equal.
  assert (Hodd : Z.odd B = true) by (rewrite <- Z.negb_even, Hev; reflexivity).
  apply Z.odd_spec in Hodd. destruct Hodd as [k Hk].
  destruct (Z.compare_spec (2 * T + 1) B); destruct (Z.compare_spec (2 * T) B);
    try reflexivity; lia.
Qed.

Lemma loc_of_shr_record_of_loc m l :
  loc_of_shr_record (shr_record_of_loc m l) = l /\
  shr_m (shr_record_of_loc m l) = m.
Proof. destruct l as [|[ | | ]]; simpl; auto. Qed.

Lemma shr_inv_init m T B :
  0 <= m -> 0 <= T < B ->
  shr_inv (shr_record_of_loc m (loc_of T B)) (m * B + T) B.
Proof.
  intros Hm HT.
  destruct (loc_of_shr_record_of_loc m (loc_of T B)) as [Hl Hs].
  unfold shr_inv. rewrite Hl, Hs. repeat split; try lia.
  exists T. repeat split; lia.
Qed.

Lemma shr_1_inv mrs X B : shr_inv mrs X B -> shr_inv (shr_1 mrs) X (2 * B).
Proof.
  intros (Hm & HB & T & HT & HX & Hl).
  destruct mrs as [m r s]. simpl in Hm, HX.
  assert (Hcase :
    exists b, (b = 0 \/ b = 1) /\ m = 2 * shr_m (shr_1 (Build_shr_record m r s)) + b /\
              0 <= shr_m (shr_1 (Build_shr_record m r s)) /\
              shr_r (shr_1 (Build_shr_record m r s)) = (b =? 1) /\
              shr_s (shr_1 (Build_shr_record m r s)) = orb r s).
  { destruct m as [|[p|p|]|p]; simpl; try lia.
    - exists 0; repeat split; auto; lia.
    - exists 1; repeat split; auto; lia.
    - exists 0; repeat split; auto; lia.
    - exists 1; repeat split; auto; lia. }
  destruct Hcase as (b & Hb & Hm2 & Hm1 & Hr & Hs).
  destruct (shr_1 (Build_shr_record m r s)) as [m' r' s'] eqn:E.
  simpl in *. subst r' s'.
  unfold shr_inv; simpl. split; [lia|]. split; [lia|].
  exists (b * B + T). split; [nia|]. split; [nia|].
  unfold loc_of in *.
  destruct r, s; simpl in Hl;
    destruct (Z.eqb_spec T 0); try discriminate;
    destruct (Z.compare_spec (2 * T) B); try discriminate;
    destruct Hb as [-> | ->]; simpl;
    destruct (Z.eqb_spec (0 * B + T) 0); destruct (Z.eqb_spec (1 * B + T) 0);
    try lia;
    try (destruct (Z.compare_spec (2 * (0 * B + T)) (2 * B)); try reflexivity; lia);
    try (destruct (Z.compare_spec (2 * (1 * B + T)) (2 * B)); try reflexivity; lia).
Qed.

Lemma pow2_xI p : 2 ^ Z.pos p~1 = 2 * 2 ^ Z.pos p * 2 ^ Z.pos p.
Proof.
  replace (Z.pos p~1) with (Z.pos p + Z.pos p + 1) by lia.
  rewrite !Z.pow_add_r by lia. change (2 ^ 1) with 2. ring.
Qed.

Lemma pow2_xO p : 2 ^ Z.pos p~0 = 2 ^ Z.pos p * 2 ^ Z.pos p.
Proof.
  replace (Z.pos p~0) with (Z.pos p + Z.pos p) by lia.
  rewrite !Z.pow_add_r by lia. ring.
Qed.

Lemma iter_shr_1_inv p : forall mrs X B,
  shr_inv mrs X B -> shr_inv (iter_pos shr_1 p mrs) X (B * 2 ^ Zpos p).
Proof.
  induction p as [p IH|p IH|]; intros mrs X B H; simpl iter_pos.
  - apply shr_1_inv in H. apply IH in H. apply IH in H.
    replace (B * 2 ^ Z.pos p~1) with (2 * B * 2 ^ Z.pos p * 2 ^ Z.pos p);
      [exact H|rewrite pow2_xI; ring].
  - apply IH in H. apply IH in H.
    replace (B * 2 ^ Z.pos p~0) with (B * 2 ^ Z.pos p * 2 ^ Z.pos p);
      [exact H|rewrite pow2_xO; ring].
  - apply shr_1_inv in H. replace (B * 2 ^ 1) with (2 * B) by (change (2 ^ 1) with 2; ring).
    exact H.
Qed.

Lemma shr_inv_shr mrs X B e n :
  0 <= n -> shr_inv mrs X B ->
  shr_inv (fst (shr mrs e n)) X (B * 2 ^ n) /\ snd (shr mrs e n) = e + n.
Proof.
  intros Hn H. destruct n as [|p|p]; simpl; try lia.
  - change (2 ^ 0) with 1. rewrite Z.mul_1_r. split; [assumption|lia].
  - split; [apply iter_shr_1_inv; assumption|reflexivity].
Qed.

Lemma shr_inv_div mrs X B :
  shr_inv mrs X B ->
  shr_m mrs = X / B /\
  round_nearest_even (shr_m mrs) (loc_of_shr_record mrs) = rne X B.
Proof.
  intros (Hm & HB & T & HT & HX & Hl).
  assert (Hq : X / B = shr_m mrs).
  { symmetry. apply (Z.div_unique_pos X B (shr_m mrs) T); lia. }
  assert (Hr : X mod B = T).
  { symmetry. apply (Z.mod_unique_pos X B (shr_m mrs) T); lia. }
  split; [congruence|].
  unfold rne. rewrite Hq, Hr, Hl. unfold loc_of, round_nearest_even.
  destruct (Z.eqb_spec T 0) as [->|Hne].
  - destruct (Z.compare_spec (2 * 0) B); try reflexivity; lia.
  - destruct (Z.compare_spec (2 * T) B); reflexivity.
Qed.

Lemma Zdigits2_div_pow2 m n :
  0 <= n -> 2 ^ n <= m -> Zdigits2 (m / 2 ^ n) = Zdigits2 m - n.
Proof.
  intros Hn Hm.
  assert (Hp : 0 < 2 ^ n) by (apply Z.pow_pos_nonneg; lia).
  assert (Hpos : 0 < m) by lia.
  pose proof (Zdigits2_bounds m Hpos) as [Hlo Hhi].
  assert (Hd : n < Zdigits2 m).
  { destruct (Z.lt_ge_cases n (Zdigits2 m)) as [|Hge]; [assumption|].
    assert (2 ^ Zdigits2 m <= 2 ^ n) by (apply Z.pow_le_mono_r; lia). lia. }
  assert (Hq : 0 < m / 2 ^ n) by (apply Z.div_str_pos; lia).
  apply Zdigits2_unique; [assumption|].
  split.
  - apply Z.div_le_lower_bound; [assumption|].
    rewrite Z.mul_comm, <- Z.pow_add_r by lia.
    replace (Zdigits2 m - n - 1 + n) with (Zdigits2 m - 1) by lia. assumption.
  - apply Z.div_lt_upper_bound; [assumption|].
    rewrite <- Z.pow_add_r by lia.
    replace (n + (Zdigits2 m - n)) with (Zdigits2 m) by lia. assumption.
Qed.

Lemma Zdigits2_mono a b : 0 <= a <= b -> Zdigits2 a <= Zdigits2 b.
Proof.
  intros [Ha Hab].
  destruct (Z.eq_dec a 0) as [->|Hne]; [apply Zdigits2_nonneg|].
  apply Zdigits2_ge; [|lia].
  pose proof (Zdigits2_bounds a ltac:(lia)). lia.
Qed.

Lemma div_mul_add_pow2 m B T n :
  0 <= n -> 0 < B -> 0 <= T < B -> (m * B + T) / (B * 2 ^ n) = m / 2 ^ n.
Proof.
  intros Hn HB HT.
  assert (Hp : 0 < 2 ^ n) by (apply Z.pow_pos_nonneg; lia).
  rewrite <- Z.div_div by lia.
  f_equal. symmetry. apply (Z.div_unique_pos _ _ _ T); lia.
Qed.

Lemma rne_cases X B : rne X B = X / B \/ rne X B = X / B + 1.
Proof.
  unfold rne. destruct (2 * (X mod B) ?= B); auto. destruct (Z.even (X / B)); auto.
Qed.

(** After the first shift the exponent is the canonical one of the
    truncated mantissa. *)
Lemma fexp_after_shift m e :
  0 <= m -> e <= fexp prec emax (Zdigits2 m + e) ->
  let e1 := fexp prec emax (Zdigits2 m + e) in
  fexp prec emax (Zdigits2 (m / 2 ^ (e1 - e)) + e1) = e1.
Proof.
  intros Hm He e1.
  assert (Hn : 0 <= e1 - e) by (unfold e1; lia).
  assert (Hp : 0 < 2 ^ (e1 - e)) by (apply Z.pow_pos_nonneg; lia).
  destruct (Z.le_gt_cases (2 ^ (e1 - e)) m) as [Hge|Hlt].
  - rewrite Zdigits2_div_pow2 by assumption.
    replace (Zdigits2 m - (e1 - e) + e1) with (Zdigits2 m + e) by lia. reflexivity.
  - rewrite Z.div_small by lia. simpl Zdigits2.
    assert (Zdigits2 m <= e1 - e) by (apply Zdigits2_le; lia).
    unfold e1 in *. rewrite !fexp64 in *. lia.
Qed.

Lemma binary_round_aux_correct sx m e T B :
  0 <= m -> 0 <= T < B -> e <= fexp prec emax (Zdigits2 m + e) ->
  let e1 := fexp prec emax (Zdigits2 m + e) in
  let m2 := rne (m * B + T) (B * 2 ^ (e1 - e)) in
  (m2 = 0 /\ binary_round_aux prec emax sx m e (loc_of T B) = S754_zero sx) \/
  (exists m3 e3,
      e1 <= e3 /\ Zpos m3 * 2 ^ (e3 - e1) = m2 /\
      canonical_mantissa prec emax m3 e3 = true /\
      binary_round_aux prec emax sx m e (loc_of T B) =
        if e3 <=? emax - prec then S754_finite sx m3 e3 else S754_infinity sx).
Proof.
  intros Hm HT He e1 m2.
  assert (Hn : 0 <= e1 - e) by (unfold e1; lia).
  assert (HB : 0 < B) by lia.
  assert (Hp : 0 < 2 ^ (e1 - e)) by (apply Z.pow_pos_nonneg; lia).
  unfold binary_round_aux, shr_fexp. fold e1.
  destruct (shr_inv_shr _ _ _ e (e1 - e) Hn (shr_inv_init m T B Hm HT)) as [Hinv Hsnd].
  destruct (shr (shr_record_of_loc m (loc_of T B)) e (e1 - e)) as [mrs' e'] eqn:E1.
  simpl in Hinv, Hsnd. replace e' with e1 by lia. clear Hsnd.
  destruct (shr_inv_div _ _ _ Hinv) as [Hm1 Hrne].
  rewrite Hrne. fold m2.
  rewrite div_mul_add_pow2 in Hm1 by assumption.
  pose proof (fexp_after_shift m e Hm He) as Hcan1. cbv zeta in Hcan1. fold e1 in Hcan1.
  rewrite <- Hm1 in Hcan1.
  assert (Hm1pos : 0 <= shr_m mrs') by (rewrite Hm1; apply Z.div_pos; lia).
  assert (Hm2 : m2 = shr_m mrs' \/ m2 = shr_m mrs' + 1).
  { unfold m2. destruct (rne_cases (m * B + T) (B * 2 ^ (e1 - e))) as [H|H];
      rewrite H, div_mul_add_pow2 by assumption; rewrite Hm1; auto. }
  set (m1 := shr_m mrs') in *.
  destruct (Z.eq_dec m2 0) as [Hz|Hnz].
  - left. split; [assumption|].
    rewrite Hz. simpl Zdigits2.
    assert (m1 = 0) by lia.
    replace (fexp prec emax (0 + e1) - e1) with 0
      by (rewrite H in Hcan1; simpl Zdigits2 in Hcan1; lia).
    reflexivity.
  - right.
    assert (Hm2pos : 0 < m2) by lia.
    pose proof (Zdigits2_bounds m2 Hm2pos) as [Hlo2 Hhi2].
    assert (Hd12 : Zdigits2 m1 <= Zdigits2 m2 <= Zdigits2 m1 + 1).
    { split; [apply Zdigits2_mono; lia|].
      apply Zdigits2_le; [|pose proof (Zdigits2_nonneg m1); lia].
      destruct (Z.eq_dec m1 0) as [H0|H0].
      - rewrite H0 in *. simpl Zdigits2. change (2 ^ (0 + 1)) with 2. lia.
      - pose proof (Zdigits2_bounds m1 ltac:(lia)) as [_ Hhi1].
        rewrite Z.pow_add_r by (pose proof (Zdigits2_nonneg m1); lia).
        change (2 ^ 1) with 2. lia. }
    set (n2 := fexp prec emax (Zdigits2 m2 + e1) - e1).
    assert (Hn2 : n2 = 0 \/ (n2 = 1 /\ m2 = 2 ^ Zdigits2 m1 /\ 1 <= Zdigits2 m1)).
    { unfold n2. rewrite fexp64 in *.
      destruct (Z.eq_dec (Zdigits2 m2) (Zdigits2 m1)) as [Heq|Hneq].
      - left. rewrite Heq. lia.
      - assert (Hd : Zdigits2 m2 = Zdigits2 m1 + 1) by lia.
        assert (Hpow : m2 = 2 ^ Zdigits2 m1).
        { rewrite Hd in Hlo2. replace (Zdigits2 m1 + 1 - 1) with (Zdigits2 m1) in Hlo2 by lia.
          destruct (Z.eq_dec m1 0) as [H0|H0].
          - rewrite H0 in *. simpl Zdigits2 in *. change (2 ^ 0) with 1 in *. lia.
          - pose proof (Zdigits2_bounds m1 ltac:(lia)) as [_ Hhi1]. lia. }
        destruct (Z.eq_dec (Zdigits2 m1) 0) as [H0|H0].
        + left. rewrite Hd, H0 in *. lia.
        + pose proof (Zdigits2_nonneg m1).
          rewrite Hd. lia. }
    destruct Hn2 as [Hn2|(Hn2 & Hpow & Hd1)].
    + exists (Z.to_pos m2), e1.
      rewrite Z2Pos.id by assumption.
      replace (e1 - e1) with 0 by lia. change (2 ^ 0) with 1.
      split; [lia|]. split; [lia|]. split.
      * unfold canonical_mantissa. change (Z.pos (digits2_pos (Z.to_pos m2))) with (Zdigits2 (Z.pos (Z.to_pos m2))).
        rewrite Z2Pos.id by assumption. apply Z.eqb_eq. unfold n2 in Hn2. lia.
      * fold n2. rewrite Hn2. simpl.
        destruct m2; try lia. reflexivity.
    + exists (Z.to_pos (m2 / 2)), (e1 + 1).
      assert (Hev : m2 = 2 * 2 ^ (Zdigits2 m1 - 1)).
      { rewrite Hpow. replace (Zdigits2 m1) with (1 + (Zdigits2 m1 - 1)) at 1 by lia.
        rewrite Z.pow_add_r by lia. reflexivity. }
      assert (Hhalf : m2 / 2 = 2 ^ (Zdigits2 m1 - 1)).
      { rewrite Hev. rewrite Z.mul_comm, Z.div_mul by lia. reflexivity. }
      assert (Hhpos : 0 < m2 / 2) by (rewrite Hhalf; apply Z.pow_pos_nonneg; lia).
      rewrite Z2Pos.id by assumption.
      replace (e1 + 1 - e1) with 1 by lia. change (2 ^ 1) with 2.
      split; [lia|]. split; [lia|]. split.
      * unfold canonical_mantissa.
        change (Z.pos (digits2_pos (Z.to_pos (m2 / 2)))) with (Zdigits2 (Z.pos (Z.to_pos (m2 / 2)))).
        rewrite Z2Pos.id by assumption. apply Z.eqb_eq.
        assert (Zdigits2 (m2 / 2) = Zdigits2 m2 - 1).
        { change 2 with (2 ^ 1) at 1. apply Zdigits2_div_pow2; [lia|]. change (2 ^ 1) with 2. lia. }
        rewrite H. replace (Zdigits2 m2 - 1 + (e1 + 1)) with (Zdigits2 m2 + e1) by lia.
        unfold n2 in Hn2. lia.
      * fold n2. rewrite Hn2.
        assert (Hinv2 := shr_inv_shr _ _ _ e1 1 ltac:(lia) (shr_inv_init m2 0 1 ltac:(lia) ltac:(lia))).
        change (loc_of 0 1) with loc_Exact in Hinv2.
        destruct (shr (shr_record_of_loc m2 loc_Exact) e1 1) as [mrs'' e''] eqn:E2.
        simpl in Hinv2. destruct Hinv2 as [Hinv2 He2].
        apply shr_inv_div in Hinv2. destruct Hinv2 as [Hm3 _].
        replace (m2 * 1 + 0) with m2 in Hm3 by lia.
        change (1 * 2 ^ 1) with 2 in Hm3.
        rewrite Hm3, He2.
        destruct (m2 / 2); try lia. reflexivity.
Qed.

Lemma fexp_mono a b : a <= b -> fexp prec emax a <= fexp prec emax b.
Proof. intros H. rewrite !fexp64. lia. Qed.

(** The number of digits of a truncated quotient. *)
Lemma Zdigits2_quotient_ge a b da db :
  0 < a -> 0 < b -> 2 ^ (da - 1) <= a -> b < 2 ^ db -> 0 <= db -> 1 <= da ->
  da - db <= Zdigits2 (a / b).
Proof.
  intros Ha Hb Hlo Hhi Hdb Hda.
  destruct (Z.le_gt_cases (da - db) 0) as [Hle|Hgt].
  - pose proof (Zdigits2_nonneg (a / b)). lia.
  - assert (Hq : 2 ^ (da - db - 1) <= a / b).
    { apply Z.div_le_lower_bound; [assumption|].
      apply Z.le_trans with (2 ^ db * 2 ^ (da - db - 1)).
      - apply Z.mul_le_mono_nonneg_r; [apply Z.pow_nonneg; lia|lia].
      - rewrite <- Z.pow_add_r by lia.
        replace (db + (da - db - 1)) with (da - 1) by lia. assumption. }
    apply Zdigits2_ge; [assumption|].
    assert (0 < 2 ^ (da - db - 1)) by (apply Z.pow_pos_nonneg; lia). lia.
Qed.

Lemma Zdigits2_quotient_le a b da db :
  0 < a -> 0 < b -> a < 2 ^ da -> 2 ^ (db - 1) <= b -> 1 <= db -> 0 <= da ->
  Zdigits2 (a / b) <= Z.max 0 (da - db + 1).
Proof.
  intros Ha Hb Hhi Hlo Hdb Hda.
  apply Zdigits2_le; [|lia].
  split; [apply Z.div_pos; lia|].
  apply Z.div_lt_upper_bound; [assumption|].
  destruct (Z.le_gt_cases (da - db + 1) 0) as [Hle|Hgt].
  - rewrite Z.max_l by lia. change (2 ^ 0) with 1.
    assert (2 ^ da <= 2 ^ (db - 1)) by (apply Z.pow_le_mono_r; lia). lia.
  - rewrite Z.max_r by lia.
    apply Z.lt_le_trans with (2 ^ da); [assumption|].
    replace da with ((db - 1) + (da - db + 1)) at 1 by lia.
    rewrite Z.pow_add_r by lia.
    apply Z.mul_le_mono_nonneg_r; [apply Z.pow_nonneg; lia|assumption].
Qed.

Lemma shift_match m s :
  0 <= s ->
  match s with
  | 0 => m
  | Zpos _ => Z.shiftl m s
  | Zneg _ => 0
  end = m * 2 ^ s.
Proof.
  intros Hs. destruct s as [|p|p]; try lia.
  rewrite Z.shiftl_mul_pow2 by lia. reflexivity.
Qed.

(** The quotient of two finite binary floats, as [SFdiv] computes it: with
    [e' = ex - ey - s] the exponent of the truncated quotient and [e1] the
    exponent of the format at its magnitude, the mantissa of the result is
    the integer nearest to [(mx * 2^s) / (my * 2^(e1 - e'))], ties to even. *)
Lemma SFdiv_finite_correct sx mx ex sy my ey :
  let E := Zdigits2 (Zpos mx) + ex - (Zdigits2 (Zpos my) + ey) in
  let e' := Z.min (fexp prec emax E) (ex - ey) in
  let s := ex - ey - e' in
  let q := Zpos mx * 2 ^ s / Zpos my in
  let e1 := fexp prec emax (Zdigits2 q + e') in
  let m2 := rne (Zpos mx * 2 ^ s) (Zpos my * 2 ^ (e1 - e')) in
  0 <= s /\ e' <= e1 /\ E <= Zdigits2 q + e' <= Z.max (e') (E + 1) /\
  ((m2 = 0 /\
    SFdiv prec emax (S754_finite sx mx ex) (S754_finite sy my ey)
    = S754_zero (xorb sx sy)) \/
   (exists m3 e3,
      e1 <= e3 /\ Zpos m3 * 2 ^ (e3 - e1) = m2 /\
      canonical_mantissa prec emax m3 e3 = true /\
      SFdiv prec emax (S754_finite sx mx ex) (S754_finite sy my ey)
      = if e3 <=? emax - prec then S754_finite (xorb sx sy) m3 e3
        else S754_infinity (xorb sx sy))).
Proof.
  intros E e' s q e1 m2.
  assert (Hs : 0 <= s) by (unfold s, e'; lia).
  assert (Hps : 0 < 2 ^ s) by (apply Z.pow_pos_nonneg; lia).
  assert (Hx : 0 < Zpos mx * 2 ^ s) by lia.
  pose proof (Zdigits2_bounds (Zpos mx) ltac:(lia)) as [Hlox Hhix].
  pose proof (Zdigits2_bounds (Zpos my) ltac:(lia)) as [Hloy Hhiy].
  assert (Hdx : 1 <= Zdigits2 (Zpos mx)) by (simpl; lia).
  assert (Hdy : 1 <= Zdigits2 (Zpos my)) by (simpl; lia).
  assert (Hdq : E <= Zdigits2 q + e' <= Z.max e' (E + 1)).
  { split.
    - assert (Zdigits2 (Zpos mx) + s - Zdigits2 (Zpos my) <= Zdigits2 q).
      { apply Zdigits2_quotient_ge; try lia.
        replace (Zdigits2 (Zpos mx) + s - 1) with (Zdigits2 (Zpos mx) - 1 + s) by lia.
        rewrite Z.pow_add_r by lia. nia. }
      unfold s in H. unfold E. lia.
    - assert (Zdigits2 q <= Z.max 0 (Zdigits2 (Zpos mx) + s - Zdigits2 (Zpos my) + 1)).
      { apply Zdigits2_quotient_le; try lia.
        rewrite Z.pow_add_r by lia. nia. }
      unfold s in H. unfold E. lia. }
  assert (He1 : e' <= e1).
  { unfold e1. apply Z.le_trans with (fexp prec emax E); [unfold e'; lia|].
    apply fexp_mono; lia. }
  split; [assumption|]. split; [assumption|]. split; [assumption|].
  assert (Hq : 0 <= q) by (apply Z.div_pos; lia).
  assert (HT : 0 <= (Zpos mx * 2 ^ s) mod Zpos my < Zpos my) by (apply Z.mod_pos_bound; lia).
  pose proof (binary_round_aux_correct (xorb sx sy) q e'
                ((Zpos mx * 2 ^ s) mod Zpos my) (Zpos my) Hq HT He1) as Hbra.
  cbv zeta in Hbra. fold e1 in Hbra.
  replace (q * Zpos my + (Zpos mx * 2 ^ s) mod Zpos my) with (Zpos mx * 2 ^ s) in Hbra
    by (unfold q; rewrite (Z.div_mod (Zpos mx * 2 ^ s) (Zpos my)) at 1 by lia; lia).
  fold m2 in Hbra.
  assert (Hdiv : SFdiv prec emax (S754_finite sx mx ex) (S754_finite sy my ey)
                 = binary_round_aux prec emax (xorb sx sy) q e'
                     (loc_of ((Zpos mx * 2 ^ s) mod Zpos my) (Zpos my))).
  { unfold SFdiv, SFdiv_core_binary. fold E. fold e'. fold s.
    rewrite (shift_match (Zpos mx) s Hs).
    unfold q, Z.div, Z.modulo.
    destruct (Z.div_eucl (Zpos mx * 2 ^ s) (Zpos my)) as [q0 r0] eqn:Ediv.
    simpl fst; simpl snd.
    rewrite new_location_loc_of; [reflexivity|lia|].
    unfold Z.modulo in HT. rewrite Ediv in HT. exact HT. }
  rewrite Hdiv. exact Hbra.
Qed.

Lemma rne_le X B I : 0 < B -> X <= I * B -> rne X B <= I.
Proof.
  intros HB HX. unfold rne.
  pose proof (Z.div_mod X B ltac:(lia)) as Hdm.
  pose proof (Z.mod_pos_bound X B HB) as Hmod.
  assert (X / B <= I) by nia.
  destruct (Z.compare_spec (2 * (X mod B)) B); [| lia |];
    try destruct (Z.even (X / B)); nia.
Qed.


Lemma rne_gt_half X B I : 0 < B -> (2 * I + 1) * B < 2 * X -> I + 1 <= rne X B.
Proof.
  intros HB HX. unfold rne.
  pose proof (Z.div_mod X B ltac:(lia)) as Hdm.
  pose proof (Z.mod_pos_bound X B HB) as Hmod.
  assert (I <= X / B) by nia.
  destruct (Z.compare_spec (2 * (X mod B)) B); try destruct (Z.even (X / B)); nia.
Qed.

Lemma canonical_bounds m e :
  canonical_mantissa prec emax m e = true ->
  Zdigits2 (Zpos m) <= 53 /\ -1074 <= e /\ (-1074 < e -> Zdigits2 (Zpos m) = 53).
Proof.
  unfold canonical_mantissa. rewrite fexp64. intros H. apply Z.eqb_eq in H.
  change (Z.pos (digits2_pos m)) with (Zdigits2 (Zpos m)) in H. lia.
Qed.

(** A positive canonical float that is smaller than another divides it to a
    quotient below one. *)
Lemma SFdiv_lt_floor mx ex my ey :
  canonical_mantissa prec emax mx ex = true ->
  canonical_mantissa prec emax my ey = true ->
  SFltb (S754_finite false mx ex) (S754_finite false my ey) = true ->
  SFdiv prec emax (S754_finite false mx ex) (S754_finite false my ey)
    = S754_zero false \/
  exists m3 e3,
    SFdiv prec emax (S754_finite false mx ex) (S754_finite false my ey)
      = S754_finite false m3 e3 /\ scaled_floor (Zpos m3) e3 = 0.
Proof.
  intros Hcx Hcy Hlt.
  destruct (canonical_bounds _ _ Hcx) as (Hdx & Hex & Hnx).
  destruct (canonical_bounds _ _ Hcy) as (Hdy & Hey & Hny).
  pose proof (Zdigits2_bounds (Zpos mx) ltac:(lia)) as [Hlox Hhix].
  pose proof (Zdigits2_bounds (Zpos my) ltac:(lia)) as [Hloy Hhiy].
  assert (Hdx1 : 1 <= Zdigits2 (Zpos mx)) by (simpl; lia).
  assert (Hdy1 : 1 <= Zdigits2 (Zpos my)) by (simpl; lia).
  assert (Hx53 : Zpos mx < 2 ^ 53).
  { apply Z.lt_le_trans with (2 ^ Zdigits2 (Zpos mx)); [assumption|].
    apply Z.pow_le_mono_r; lia. }
  assert (Hy53 : Zpos my < 2 ^ 53).
  { apply Z.lt_le_trans with (2 ^ Zdigits2 (Zpos my)); [assumption|].
    apply Z.pow_le_mono_r; lia. }
  (* the order of the two floats *)
  assert (Hord : ex < ey \/ (ex = ey /\ Zpos mx < Zpos my)).
  { unfold SFltb, SFcompare in Hlt.
    destruct (Z.compare_spec ex ey); [right|left; assumption|discriminate].
    split; [assumption|].
    rewrite Pos.compare_cont_spec in Hlt. simpl in Hlt.
    destruct (Pos.compare_spec mx my); try discriminate. lia. }
  set (g := ey - ex).
  assert (Hg : 0 <= g) by (unfold g; lia).
  assert (Hpg : 0 < 2 ^ g) by (apply Z.pow_pos_nonneg; lia).
  assert (KF : 2 ^ 53 * Zpos mx <= (2 ^ 53 - 1) * Zpos my * 2 ^ g).
  { destruct Hord as [Hlt'|[Heq Hlt']].
    - assert (Zdigits2 (Zpos my) = 53) by lia.
      assert (2 ^ 52 <= Zpos my) by (rewrite H in Hloy; exact Hloy).
      assert (2 ^ 1 <= 2 ^ g) by (apply Z.pow_le_mono_r; unfold g; lia).
      change (2 ^ 1) with 2 in H1.
      change (2 ^ 53) with 9007199254740992 in *.
      change (2 ^ 52) with 4503599627370496 in *. nia.
    - replace g with 0 by (unfold g; lia). change (2 ^ 0) with 1.
      change (2 ^ 53) with 9007199254740992 in *. nia. }
  assert (Hda : Zdigits2 (Zpos mx) <= Zdigits2 (Zpos my) + g).
  { destruct Hord as [Hlt'|[Heq Hlt']]; [lia|].
    pose proof (Zdigits2_mono (Zpos mx) (Zpos my) ltac:(lia)). lia. }
  pose proof (SFdiv_finite_correct false mx ex false my ey) as H.
  cbv zeta in H.
  set (E := Zdigits2 (Zpos mx) + ex - (Zdigits2 (Zpos my) + ey)) in *.
  set (e' := Z.min (fexp prec emax E) (ex - ey)) in *.
  set (s := ex - ey - e') in *.
  set (q := Zpos mx * 2 ^ s / Zpos my) in *.
  set (e1 := fexp prec emax (Zdigits2 q + e')) in *.
  set (m2 := rne (Zpos mx * 2 ^ s) (Zpos my * 2 ^ (e1 - e'))) in *.
  destruct H as (Hs & He1 & Hdq & Hres).
  assert (HE : E <= 0) by (unfold E, g in *; lia).
  assert (He' : e' <= -53) by (unfold e'; rewrite fexp64; lia).
  set (t := - e').
  assert (Hst : s = t - g) by (unfold s, t, g; lia).
  assert (Hps : 0 < 2 ^ s) by (apply Z.pow_pos_nonneg; lia).
  assert (Hpt : 2 ^ t = 2 ^ g * 2 ^ s).
  { rewrite <- Z.pow_add_r by lia. f_equal; lia. }
  (* the truncated quotient is below one *)
  assert (Hq : q < 2 ^ t).
  { unfold q. apply Z.div_lt_upper_bound; [lia|].
    rewrite Hpt. change (2 ^ 53) with 9007199254740992 in *. nia. }
  assert (Hqd : Zdigits2 q + e' <= 0).
  { assert (Zdigits2 q <= t); [|unfold t in *; lia].
    apply Zdigits2_le; [|unfold t; lia].
    split; [apply Z.div_pos; lia|assumption]. }
  assert (He153 : e1 <= -53) by (unfold e1; rewrite fexp64; lia).
  assert (Hpn : 0 < 2 ^ (e1 - e')) by (apply Z.pow_pos_nonneg; lia).
  assert (Hp53 : 2 ^ t = 2 ^ 53 * 2 ^ (t - 53)).
  { rewrite <- Z.pow_add_r by (unfold t; lia). f_equal; lia. }
  assert (Hpe : 2 ^ (t - 53) = 2 ^ (- e1 - 53) * 2 ^ (e1 - e')).
  { rewrite <- Z.pow_add_r by lia. f_equal; unfold t; lia. }
  assert (Hm2 : m2 <= (2 ^ 53 - 1) * 2 ^ (- e1 - 53)).
  { unfold m2. apply rne_le; [lia|].
    assert (0 < 2 ^ (- e1 - 53)) by (apply Z.pow_pos_nonneg; lia).
    assert (0 < 2 ^ (t - 53)) by (apply Z.pow_pos_nonneg; unfold t; lia).
    assert (Zpos mx * 2 ^ s * 2 ^ 53 <= (2 ^ 53 - 1) * Zpos my * 2 ^ t).
    { rewrite Hpt. change (2 ^ 53) with 9007199254740992 in *. nia. }
    rewrite Hp53 in H1.
    replace ((2 ^ 53 - 1) * 2 ^ (- e1 - 53) * (Zpos my * 2 ^ (e1 - e')))
      with ((2 ^ 53 - 1) * Zpos my * 2 ^ (t - 53)) by (rewrite Hpe; ring).
    change (2 ^ 53) with 9007199254740992 in *. nia. }
  assert (Hm2lt : m2 < 2 ^ (- e1)).
  { replace (- e1) with (53 + (- e1 - 53)) by lia.
    rewrite Z.pow_add_r by lia.
    assert (0 < 2 ^ (- e1 - 53)) by (apply Z.pow_pos_nonneg; lia).
    change (2 ^ 53) with 9007199254740992 in *. nia. }
  simpl xorb in Hres.
  destruct Hres as [[_ Hz]|(m3 & e3 & He3 & Hm3 & Hcan & Hdiv)].
  - left. exact Hz.
  - right. exists m3, e3.
    assert (Hp3 : 0 < 2 ^ (e3 - e1)) by (apply Z.pow_pos_nonneg; lia).
    assert (He3n : e3 < 0).
    { destruct (Z.lt_ge_cases e3 0) as [|Hge]; [assumption|].
      assert (2 ^ (- e1) <= 2 ^ (e3 - e1)) by (apply Z.pow_le_mono_r; lia).
      nia. }
    split.
    + rewrite Hdiv.
      replace (e3 <=? emax - prec) with true; [reflexivity|].
      symmetry. apply Z.leb_le. unfold emax, prec. lia.
    + unfold scaled_floor.
      replace (0 <=? e3) with false by (symmetry; apply Z.leb_gt; assumption).
      apply Z.div_small. split; [lia|].
      assert (2 ^ (- e1) = 2 ^ (- e3) * 2 ^ (e3 - e1)).
      { rewrite <- Z.pow_add_r by lia. f_equal; lia. }
      assert (0 < 2 ^ (- e3)) by (apply Z.pow_pos_nonneg; lia).
      nia.
Qed.

(** The quotient of two positive integers below [2^53], rounded to binary64,
    has the ceiling of the exact quotient. *)
Lemma SFdiv_int_ceil (a b : positive) :
  Zpos a < 2 ^ 53 -> Zpos b < 2 ^ 53 ->
  exists m3 e3,
    SFdiv prec emax (S754_finite false a 0) (S754_finite false b 0)
      = S754_finite false m3 e3 /\
    bounded prec emax m3 e3 = true /\
    scaled_ceil (Zpos m3) e3 = (Zpos a + Zpos b - 1) / Zpos b.
Proof.
  intros Ha Hb.
  set (C := (Zpos a + Zpos b - 1) / Zpos b).
  assert (HC : (C - 1) * Zpos b < Zpos a <= C * Zpos b).
  { unfold C.
    pose proof (Z.div_mod (Zpos a + Zpos b - 1) (Zpos b) ltac:(lia)).
    pose proof (Z.mod_pos_bound (Zpos a + Zpos b - 1) (Zpos b) ltac:(lia)). nia. }
  assert (HC1 : 1 <= C) by nia.
  assert (HCa : C <= Zpos a) by nia.
  pose proof (Zdigits2_bounds (Zpos a) ltac:(lia)) as [Hloa Hhia].
  pose proof (Zdigits2_bounds (Zpos b) ltac:(lia)) as [Hlob Hhib].
  assert (Hda1 : 1 <= Zdigits2 (Zpos a)) by (simpl; lia).
  assert (Hdb1 : 1 <= Zdigits2 (Zpos b)) by (simpl; lia).
  assert (Hda : Zdigits2 (Zpos a) <= 53) by (apply Zdigits2_le; lia).
  assert (Hdb : Zdigits2 (Zpos b) <= 53) by (apply Zdigits2_le; lia).
  pose proof (SFdiv_finite_correct false a 0 false b 0) as H.
  cbv zeta in H.
  set (E := Zdigits2 (Zpos a) + 0 - (Zdigits2 (Zpos b) + 0)) in *.
  set (e' := Z.min (fexp prec emax E) (0 - 0)) in *.
  set (s := 0 - 0 - e') in *.
  set (q := Zpos a * 2 ^ s / Zpos b) in *.
  set (e1 := fexp prec emax (Zdigits2 q + e')) in *.
  set (m2 := rne (Zpos a * 2 ^ s) (Zpos b * 2 ^ (e1 - e'))) in *.
  destruct H as (Hs & He1 & Hdq & Hres).
  assert (He'0 : e' <= 0) by (unfold e'; lia).
  assert (He1b : e1 <= 1 - Zdigits2 (Zpos b)).
  { unfold e1. rewrite fexp64. unfold E in Hdq. lia. }
  assert (He10 : e1 <= 0) by lia.
  set (K := 2 ^ (- e1)).
  set (R := 2 ^ (e1 - e')).
  assert (HK : 0 < K) by (apply Z.pow_pos_nonneg; lia).
  assert (HR : 0 < R) by (apply Z.pow_pos_nonneg; lia).
  assert (HKR : 2 ^ s = K * R).
  { unfold K, R. rewrite <- Z.pow_add_r by lia. f_equal; unfold s; lia. }
  assert (HbK : Zpos b < 2 * K).
  { apply Z.lt_le_trans with (2 ^ Zdigits2 (Zpos b)); [assumption|].
    replace (2 * K) with (2 ^ (1 - e1)).
    - apply Z.pow_le_mono_r; lia.
    - unfold K. replace (1 - e1) with (1 + - e1) by lia.
      rewrite Z.pow_add_r by lia. reflexivity. }
  assert (Hup : m2 <= C * K).
  { unfold m2. apply rne_le; [fold R; lia|]. fold R. rewrite HKR. nia. }
  assert (Hlo : (C - 1) * K + 1 <= m2).
  { unfold m2. apply rne_gt_half; [fold R; lia|]. fold R. rewrite HKR. nia. }
  simpl xorb in Hres.
  destruct Hres as [[Hz _]|(m3 & e3 & He3 & Hm3 & Hcan & Hdiv)]; [nia|].
  exists m3, e3.
  set (P3 := 2 ^ (e3 - e1)) in *.
  assert (HP3 : 0 < P3) by (apply Z.pow_pos_nonneg; lia).
  assert (He353 : e3 < 53).
  { destruct (Z.lt_ge_cases e3 53) as [|Hge]; [assumption|].
    assert (2 ^ 53 * K <= P3).
    { unfold K, P3. rewrite <- Z.pow_add_r by lia. apply Z.pow_le_mono_r; lia. }
    nia. }
  assert (Hle : (e3 <=? emax - prec) = true)
    by (apply Z.leb_le; unfold emax, prec; lia).
  rewrite Hle in Hdiv.
  split; [assumption|]. split.
  - unfold bounded. rewrite Hcan, Hle. reflexivity.
  - unfold scaled_ceil, scaled_floor.
    destruct (Z.leb_spec 0 e3) as [Hpos|Hneg].
    + assert (P3 = 2 ^ e3 * K).
      { unfold K, P3. rewrite <- Z.pow_add_r by lia. f_equal; lia. }
      assert (0 < 2 ^ e3) by (apply Z.pow_pos_nonneg; lia).
      nia.
    + assert (HKP : K = 2 ^ (- e3) * P3).
      { unfold K, P3. rewrite <- Z.pow_add_r by lia. f_equal; lia. }
      assert (HP : 0 < 2 ^ (- e3)) by (apply Z.pow_pos_nonneg; lia).
      assert ((- Zpos m3) / 2 ^ (- e3) = - C); [|lia].
      symmetry.
      apply (Z.div_unique_pos _ _ _ (C * 2 ^ (- e3) - Zpos m3)); nia.
Qed.

(** ** The order of binary64 *)

Ltac order_cases :=
  repeat match goal with
  | |- context [PosDef.Pos.compare_cont Eq ?p ?q] =>
      change (PosDef.Pos.compare_cont Eq p q) with (Z.compare (Zpos p) (Zpos q))
  end;
  repeat match goal with
  | |- context [Z.compare ?a ?b] => destruct (Z.compare_spec a b)
  end;
  cbn [CompOpp]; intros; try reflexivity; try discriminate; try lia.

Lemma SFltb_trans a b c :
  SFltb a b = true -> SFltb b c = true -> SFltb a c = true.
Proof.
  unfold SFltb, SFcompare.
  destruct a as [[]|[]| |[] ma ea], b as [[]|[]| |[] mb eb],
           c as [[]|[]| |[] mc ec];
    try discriminate; try reflexivity;
    order_cases.
Qed.

Lemma SFltb_asym a b : SFltb a b = true -> SFltb b a = false.
Proof.
  unfold SFltb, SFcompare.
  destruct a as [[]|[]| |[] ma ea], b as [[]|[]| |[] mb eb];
    try discriminate; try reflexivity;
    order_cases.
Qed.

Lemma SFeqb_ltb_l a b c :
  SFeqb a b = true -> SFltb a c = SFltb b c.
Proof.
  unfold SFeqb, SFltb, SFcompare.
  destruct a as [[]|[]| |[] ma ea], b as [[]|[]| |[] mb eb],
           c as [[]|[]| |[] mc ec];
    try discriminate; try reflexivity;
    order_cases.
Qed.

Lemma SFeqb_ltb_r a b c :
  SFeqb a b = true -> SFltb c a = SFltb c b.
Proof.
  unfold SFeqb, SFltb, SFcompare.
  destruct a as [[]|[]| |[] ma ea], b as [[]|[]| |[] mb eb],
           c as [[]|[]| |[] mc ec];
    try discriminate; try reflexivity;
    order_cases.
Qed.


Lemma ltb_trans (a b c : float) :
  (a <? b)%float = true -> (b <? c)%float = true -> (a <? c)%float = true.
Proof. rewrite !ltb_spec. apply SFltb_trans. Qed.

Lemma ltb_asym (a b : float) :
  (a <? b)%float = true -> (b <? a)%float = false.
Proof. rewrite !ltb_spec. apply SFltb_asym. Qed.

(** Two floats that equal a third one are interchangeable in comparisons. *)
Lemma eqb_ltb_l (a b k c : float) :
  (a =? k)%float = true -> (b =? k)%float = true ->
  (a <? c)%float = (b <? c)%float.
Proof.
  rewrite !eqb_spec, !ltb_spec. intros Ha Hb.
  rewrite (SFeqb_ltb_l _ _ _ Ha), (SFeqb_ltb_l _ _ _ Hb). reflexivity.
Qed.

Lemma eqb_ltb_r (a b k c : float) :
  (a =? k)%float = true -> (b =? k)%float = true ->
  (c <? a)%float = (c <? b)%float.
Proof.
  rewrite !eqb_spec, !ltb_spec. intros Ha Hb.
  rewrite (SFeqb_ltb_r _ _ _ Ha), (SFeqb_ltb_r _ _ _ Hb). reflexivity.
Qed.

Lemma eqb_not_ltb (a b k : float) :
  (a =? k)%float = true -> (b =? k)%float = true -> (a <? b)%float = false.
Proof.
  intros Ha Hb. rewrite (eqb_ltb_r b a k a Hb Ha).
  rewrite eqb_spec in Ha. rewrite ltb_spec.
  unfold SFeqb in Ha. unfold SFltb.
  destruct (Prim2SF a) as [[]|[]| |[] m e]; try reflexivity; try discriminate;
    simpl; rewrite ?Z.compare_refl, ?Pos.compare_cont_refl; reflexivity.
Qed.

(** ** Sums that start from [0.0] *)

Lemma same_value_refl x : same_value x x.
Proof. left; reflexivity. Qed.

Lemma same_value_sym x y : same_value x y -> same_value y x.
Proof.
  intros [H|(s1 & s2 & H1 & H2)]; [left; congruence|right; eauto].
Qed.

Lemma same_value_zero_add h : same_value (0 + h)%float h.
Proof.
  destruct (Prim2SF h) as [s|s| |s m e] eqn:E.
  - right. exists false, s. split; [|exact E].
    rewrite add_spec, E. destruct s; reflexivity.
  - left. apply Prim2SF_inj. rewrite add_spec, E. reflexivity.
  - left. apply Prim2SF_inj. rewrite add_spec, E. reflexivity.
  - left. apply Prim2SF_inj. rewrite add_spec, E. reflexivity.
Qed.

Lemma same_value_add x y h :
  same_value x y -> same_value (x + h)%float (y + h)%float.
Proof.
  intros [H|(s1 & s2 & H1 & H2)]; [left; congruence|].
  destruct (Prim2SF h) as [s|s| |s m e] eqn:E.
  - right. exists (if s1 then if s then true else false else false),
                  (if s2 then if s then true else false else false).
    rewrite !add_spec, H1, H2, E. destruct s1, s2, s; split; reflexivity.
  - left. apply Prim2SF_inj. rewrite !add_spec, H1, H2, E. reflexivity.
  - left. apply Prim2SF_inj. rewrite !add_spec, H1, H2, E. reflexivity.
  - left. apply Prim2SF_inj. rewrite !add_spec, H1, H2, E. reflexivity.
Qed.

Lemma same_value_leb x y l :
  same_value x y -> (x <=? l)%float = (y <=? l)%float.
Proof.
  intros [H|(s1 & s2 & H1 & H2)]; [congruence|].
  rewrite !leb_spec, H1, H2. unfold SFleb, SFcompare.
  destruct (Prim2SF l) as [s|s| |s m e]; reflexivity.
Qed.

(** ** The builtins on exact arguments *)

(** A positive limit that holds at least one layer of height [y] is not
    below [y]: the rounded quotient of a float by a greater one is below
    one. *)
Lemma floor_quotient_positive (x y q : float) (n : Z) :
  (x <=? 0)%float = false ->
  float_truediv x y = Ok q -> math_floor q = Ok n -> 1 <= n ->
  (x <? y)%float = false.
Proof.
  intros Hx Hq Hn Hn1.
  unfold float_truediv in Hq. destruct (y =? 0)%float; [discriminate|].
  injection Hq as <-.
  unfold math_floor in Hn. rewrite div_spec in Hn.
  rewrite leb_spec in Hx. rewrite ltb_spec.
  pose proof (Prim2SF_valid x) as Hvx. pose proof (Prim2SF_valid y) as Hvy.
  change (Prim2SF 0) with (S754_zero false) in Hx.
  destruct (Prim2SF x) as [sx|sx| |sx mx ex]; try reflexivity;
    try (destruct sx; discriminate Hx).
  - destruct sx; [discriminate Hx|].
    destruct (Prim2SF y) as [sy|sy| |sy my ey]; try reflexivity.
    destruct sy; reflexivity.
  - destruct sx; [discriminate Hx|].
    destruct (Prim2SF y) as [sy|sy| |sy my ey]; try reflexivity.
    + destruct sy; [reflexivity|]. simpl in Hn. injection Hn as <-. lia.
    + destruct sy; [reflexivity|].
      destruct (SFltb (S754_finite false mx ex) (S754_finite false my ey)) eqn:Hlt;
        [|reflexivity].
      simpl in Hvx, Hvy. unfold bounded in Hvx, Hvy.
      apply andb_prop in Hvx, Hvy.
      destruct Hvx as [Hcx _], Hvy as [Hcy _].
      destruct (SFdiv_lt_floor mx ex my ey Hcx Hcy Hlt)
        as [Hz|(m3 & e3 & Hdiv & Hfl)].
      * unfold SF64div in Hn. rewrite Hz in Hn. injection Hn as <-. lia.
      * unfold SF64div in Hn. rewrite Hdiv in Hn. simpl in Hn.
        injection Hn as <-. lia.
Qed.

(** The number of cartons, and of layers, is the exact ceiling as long as
    both integers are below [2^53]. *)
Lemma int_truediv_ceil (a b : Z) :
  0 <= a < 2 ^ 53 -> 0 < b < 2 ^ 53 ->
  (q <- int_truediv a b ;; math_ceil q) = Ok ((a + b - 1) / b).
Proof.
  intros Ha Hb. unfold int_truediv.
  replace (b =? 0) with false by (symmetry; apply Z.eqb_neq; lia).
  destruct b as [|pb|pb]; try lia.
  destruct a as [|pa|pa]; try lia.
  - simpl. rewrite Z.div_small by lia. reflexivity.
  - destruct (SFdiv_int_ceil pa pb ltac:(lia) ltac:(lia))
      as (m3 & e3 & Hdiv & Hbd & Hceil).
    cbn [int_as_spec_float]. rewrite Hdiv. cbn [bind].
    unfold math_ceil. rewrite Prim2SF_SF2Prim by exact Hbd.
    simpl cond_Zopp. rewrite Hceil. reflexivity.
Qed.

(** ** The stable sort *)

Section SortingFacts.
Context {A : Type}.
Variable lt : A -> A -> bool.

Lemma insert_sorted_perm x l : Permutation (insert_sorted lt x l) (x :: l).
Proof.
  induction l as [|y l IH]; simpl; [reflexivity|].
  destruct (lt x y); [reflexivity|].
  rewrite IH. apply perm_swap.
Qed.

Lemma fold_insert_perm l : forall acc,
  Permutation (fold_left (fun acc x => insert_sorted lt x acc) l acc) (acc ++ l).
Proof.
  induction l as [|x l IH]; intros acc; simpl.
  - rewrite app_nil_r. reflexivity.
  - etransitivity; [apply IH|].
    etransitivity; [apply Permutation_app_tail, insert_sorted_perm|].
    simpl. apply Permutation_middle.
Qed.

Lemma stable_sort_perm l : Permutation (stable_sort lt l) l.
Proof. unfold stable_sort. rewrite fold_insert_perm. reflexivity. Qed.

Lemma sorted_reverse_perm l : Permutation (sorted_reverse lt l) l.
Proof.
  unfold sorted_reverse.
  rewrite <- Permutation_rev, stable_sort_perm, <- Permutation_rev. reflexivity.
Qed.

(** An element that is smaller than none goes to the end. *)
Lemma insert_sorted_last x l :
  (forall y, In y l -> lt x y = false) -> insert_sorted lt x l = l ++ [x].
Proof.
  induction l as [|y l IH]; intros H; simpl; [reflexivity|].
  rewrite (H y (or_introl eq_refl)). f_equal. apply IH.
  intros z Hz. apply H. right. exact Hz.
Qed.

Lemma fold_insert_flat l : forall acc,
  (forall x y, In x (acc ++ l) -> In y (acc ++ l) -> lt x y = false) ->
  fold_left (fun acc x => insert_sorted lt x acc) l acc = acc ++ l.
Proof.
  induction l as [|x l IH]; intros acc H; simpl.
  - rewrite app_nil_r. reflexivity.
  - rewrite insert_sorted_last.
    + rewrite IH; rewrite <- app_assoc; [reflexivity|exact H].
    + intros y Hy. apply H; apply in_or_app; [right; left; reflexivity|left; exact Hy].
Qed.

(** A list without two elements in the order [lt] is left as it is. *)
Lemma sorted_reverse_flat l :
  (forall x y, In x l -> In y l -> lt x y = false) -> sorted_reverse lt l = l.
Proof.
  intros H. unfold sorted_reverse, stable_sort.
  rewrite fold_insert_flat.
  - apply rev_involutive.
  - intros x y Hx Hy. simpl in Hx, Hy. apply H; apply in_rev; assumption.
Qed.

Hypothesis lt_trans :
  forall a b c, lt a b = true -> lt b c = true -> lt a c = true.
Hypothesis lt_asym : forall a b, lt a b = true -> lt b a = false.

Lemma insert_sorted_ascending x l :
  ascending lt l -> ascending lt (insert_sorted lt x l).
Proof.
  unfold ascending. induction l as [|y l IH]; intros Hs; simpl.
  - constructor; constructor.
  - apply StronglySorted_inv in Hs. destruct Hs as [Hl Hy].
    destruct (lt x y) eqn:Hxy.
    + constructor; [constructor; assumption|].
      constructor; [apply lt_asym; exact Hxy|].
      rewrite Forall_forall in *. intros v Hv.
      destruct (lt v x) eqn:Hvx; [|reflexivity].
      rewrite <- (Hy v Hv). symmetry. apply (lt_trans v x y); assumption.
    + constructor; [apply IH; exact Hl|].
      rewrite Forall_forall in *. intros v Hv.
      apply (Permutation_in _ (insert_sorted_perm x l)) in Hv.
      destruct Hv as [<-|Hv]; [exact Hxy|apply Hy; exact Hv].
Qed.

Lemma fold_insert_ascending l : forall acc,
  ascending lt acc ->
  ascending lt (fold_left (fun acc x => insert_sorted lt x acc) l acc).
Proof.
  induction l as [|x l IH]; intros acc H; simpl; [exact H|].
  apply IH, insert_sorted_ascending, H.
Qed.

Lemma stable_sort_ascending l : ascending lt (stable_sort lt l).
Proof. apply fold_insert_ascending. constructor. Qed.

(** With [reverse=True] no element is smaller than a later one. *)
Lemma sorted_reverse_descending l : descending lt (sorted_reverse lt l).
Proof.
  unfold sorted_reverse, descending.
  pose proof (stable_sort_ascending (rev l)) as H. unfold ascending in H.
  induction H as [|a t Ht IH Ha]; [constructor|].
  cbn [rev]. clear Ht.
  assert (Hall : Forall (fun x => lt x a = false) (rev t)).
  { apply Forall_forall. intros x Hx. rewrite Forall_forall in Ha.
    apply Ha, in_rev, Hx. }
  clear Ha. induction IH as [|b u Hu IHu Hb]; cbn [app].
  - constructor; constructor.
  - inversion Hall as [|? ? Hba Hrest]; subst.
    constructor; [apply IHu; exact Hrest|].
    apply Forall_app. split; [exact Hb|constructor; [exact Hba|constructor]].
Qed.

(** Stability: the elements of a class [P] of mutually equal keys keep their
    order. *)
Variable P : A -> bool.
Hypothesis P_class :
  forall x u, P x = true -> P u = true ->
              lt x u = false /\ forall y, lt x y = lt u y.

Lemma insert_sorted_filter x l :
  ascending lt l ->
  filter P (insert_sorted lt x l) = filter P l ++ filter P [x].
Proof.
  unfold ascending. induction l as [|y l IH]; intros Hs; [reflexivity|].
  apply StronglySorted_inv in Hs. destruct Hs as [Hl Hy].
  cbn [insert_sorted]. destruct (lt x y) eqn:Hxy.
  - cbn [filter]. destruct (P x) eqn:Px; [|rewrite app_nil_r; reflexivity].
    assert (Hnone : forall u, In u (y :: l) -> P u = false).
    { intros u Hu. destruct (P u) eqn:Pu; [|reflexivity].
      destruct (P_class x u Px Pu) as [Hxu Hsame].
      destruct Hu as [<-|Hu]; [congruence|].
      rewrite Forall_forall in Hy. rewrite <- (Hy u Hu), <- Hsame. symmetry. exact Hxy. }
    rewrite (Hnone y (or_introl eq_refl)).
    assert (Hl0 : filter P l = []).
    { clear -Hnone. induction l as [|z l IH]; [reflexivity|].
      cbn [filter]. rewrite (Hnone z (or_intror (or_introl eq_refl))).
      apply IH. intros u [<-|Hu]; apply Hnone; [left|right; right]; auto. }
    rewrite Hl0. reflexivity.
  - cbn [filter]. rewrite (IH Hl). destruct (P y); reflexivity.
Qed.

Lemma fold_insert_filter l : forall acc,
  ascending lt acc ->
  filter P (fold_left (fun acc x => insert_sorted lt x acc) l acc)
  = filter P acc ++ filter P l.
Proof.
  induction l as [|x l IH]; intros acc H; simpl fold_left.
  - rewrite app_nil_r. reflexivity.
  - rewrite IH by (apply insert_sorted_ascending, H).
    rewrite (insert_sorted_filter x acc H), <- app_assoc.
    cbn [filter]. destruct (P x); reflexivity.
Qed.

Lemma stable_sort_filter l : filter P (stable_sort lt l) = filter P l.
Proof.
  unfold stable_sort. rewrite fold_insert_filter; [reflexivity|constructor].
Qed.

Lemma sorted_reverse_filter l : filter P (sorted_reverse lt l) = filter P l.
Proof.
  unfold sorted_reverse.
  rewrite filter_rev, stable_sort_filter, filter_rev, rev_involutive.
  reflexivity.
Qed.

End SortingFacts.

(** ** The Remainder Packer *)

Lemma leb_not_ltb (x l : float) :
  (x <=? l)%float = true -> (l <? x)%float = false.
Proof.
  rewrite leb_spec, ltb_spec. unfold SFleb, SFltb, SFcompare.
  destruct (Prim2SF x) as [[]|[]| |[] mx ex],
           (Prim2SF l) as [[]|[]| |[] ml el];
    try discriminate; try reflexivity; order_cases.
Qed.

Lemma stack_totals_snd g : forall d a,
  snd (fold_left
         (fun (acc : list (string * Z) * float) layer =>
            let '(cartons_by_product, goods_height_cm) := acc in
            (dict_set cartons_by_product (Layer.product_name layer)
               (dict_get cartons_by_product (Layer.product_name layer) 0
                + Layer.cartons layer),
             (goods_height_cm + Layer.layer_height_cm layer)%float))
         g (d, a))
  = fold_left (fun a layer => (a + Layer.layer_height_cm layer)%float) g a.
Proof.
  induction g as [|l g IH]; intros d a; simpl; [reflexivity|]. apply IH.
Qed.

Lemma stack_height_sum g :
  stack_height g
  = fold_left (fun a layer => (a + Layer.layer_height_cm layer)%float) g 0%float.
Proof. unfold stack_height, stack_totals. apply stack_totals_snd. Qed.

Lemma stack_height_app g l :
  stack_height (g ++ [l]) = (stack_height g + Layer.layer_height_cm l)%float.
Proof. rewrite !stack_height_sum, fold_left_app. reflexivity. Qed.

Lemma concat_packed_pallets st :
  List.concat (packed_pallets st) = List.concat (closed_pallets st) ++ current st.
Proof.
  unfold packed_pallets. destruct (current st) as [|l c] eqn:E.
  - rewrite app_nil_r. reflexivity.
  - rewrite concat_app. simpl. rewrite app_nil_r. reflexivity.
Qed.

(** The packing loop keeps every fragment, in order. *)
Lemma pack_loop_concat limit ordered : forall st st',
  foldM (pack_step limit) ordered st = Ok st' ->
  List.concat (closed_pallets st') ++ current st'
  = List.concat (closed_pallets st) ++ current st ++ ordered.
Proof.
  induction ordered as [|l ordered IH]; intros st st' H; simpl in H.
  - injection H as <-. rewrite app_nil_r. reflexivity.
  - unfold bind in H. destruct (pack_step limit st l) as [st1|e] eqn:E;
      [|discriminate].
    rewrite (IH _ _ H). unfold pack_step in E.
    destruct (limit <? Layer.layer_height_cm l)%float; [discriminate|].
    destruct (current_height st + Layer.layer_height_cm l <=? limit)%float;
      injection E as <-; simpl.
    + rewrite <- app_assoc. reflexivity.
    + rewrite concat_app. simpl. rewrite app_nil_r, <- app_assoc. reflexivity.
Qed.

(** The packing loop is next-fit. *)
Lemma pack_loop_next_fit limit ordered : forall st st',
  foldM (pack_step limit) ordered st = Ok st' ->
  next_fit limit ordered (closed_pallets st) (current st) (current_height st)
    (packed_pallets st').
Proof.
  induction ordered as [|l ordered IH]; intros st st' H; simpl in H.
  - injection H as <-. unfold packed_pallets.
    destruct (current st) as [|x c] eqn:E.
    + apply next_fit_done_empty.
    + apply next_fit_done. discriminate.
  - unfold bind in H. destruct (pack_step limit st l) as [st1|e] eqn:E;
      [|discriminate].
    apply IH in H. unfold pack_step in E.
    destruct (limit <? Layer.layer_height_cm l)%float; [discriminate|].
    destruct (current_height st + Layer.layer_height_cm l <=? limit)%float eqn:Hfit;
      injection E as <-; simpl in H.
    + apply next_fit_append; assumption.
    + apply next_fit_close; assumption.
Qed.

Lemma pack_step_inv limit st l :
  (Layer.layer_height_cm l <=? limit)%float = true ->
  pack_inv limit st ->
  exists st', pack_step limit st l = Ok st' /\ pack_inv limit st' /\
              current st' <> [].
Proof.
  intros Hl (Hclosed & Hsame & Hbound).
  unfold pack_step. rewrite (leb_not_ltb _ _ Hl).
  destruct (current_height st + Layer.layer_height_cm l <=? limit)%float eqn:Hfit.
  - eexists. split; [reflexivity|]. split.
    + repeat split; simpl.
      * exact Hclosed.
      * rewrite stack_height_app. apply same_value_add, Hsame.
      * intros _. exact Hfit.
    + simpl. destruct (current st); discriminate.
  - assert (Hne : current st <> []).
    { intros Hnil. rewrite Hnil in Hsame.
      apply (same_value_add _ _ (Layer.layer_height_cm l)) in Hsame.
      rewrite (same_value_leb _ _ limit Hsame) in Hfit.
      change (stack_height []) with 0%float in Hfit.
      rewrite (same_value_leb _ _ limit (same_value_zero_add _)) in Hfit.
      congruence. }
    eexists. split; [reflexivity|]. split.
    + repeat split; simpl.
      * apply Forall_app. split; [exact Hclosed|].
        constructor; [|constructor]. split; [exact Hne|].
        rewrite <- (same_value_leb _ _ limit Hsame). apply Hbound, Hne.
      * apply same_value_sym.
        change (stack_height [l]) with (0 + Layer.layer_height_cm l)%float.
        apply same_value_zero_add.
      * intros _. exact Hl.
    + simpl. discriminate.
Qed.

Lemma pack_loop_inv limit ordered : forall st,
  Forall (fun l => (Layer.layer_height_cm l <=? limit)%float = true) ordered ->
  pack_inv limit st ->
  exists st', foldM (pack_step limit) ordered st = Ok st' /\
              pack_inv limit st' /\
              (ordered <> [] -> current st' <> []).
Proof.
  induction ordered as [|l ordered IH]; intros st Hall Hinv.
  - exists st. split; [reflexivity|]. split; [exact Hinv|].
    intros H; contradiction H; reflexivity.
  - inversion Hall as [|? ? Hl Hrest]; subst.
    destruct (pack_step_inv limit st l Hl Hinv) as (st1 & E1 & Hinv1 & Hne1).
    destruct (IH st1 Hrest Hinv1) as (st' & E' & Hinv' & Hne').
    exists st'. simpl. rewrite E1. simpl. split; [exact E'|].
    split; [exact Hinv'|]. intros _.
    destruct ordered as [|l2 ordered]; [|apply Hne'; discriminate].
    simpl in E'. injection E' as <-. exact Hne1.
Qed.

Lemma pack_layers_concat layers limit groups :
  _pack_layers layers limit = Ok groups ->
  List.concat groups = sorted_reverse layer_height_lt layers.
Proof.
  unfold _pack_layers. destruct layers as [|l layers].
  - intros H. injection H as <-. reflexivity.
  - set (ordered := sorted_reverse layer_height_lt (l :: layers)).
    unfold bind.
    destruct (foldM (pack_step limit) ordered _) as [st|e] eqn:E; [|discriminate].
    intros H.
    assert (Hg : groups = packed_pallets st).
    { unfold packed_pallets. destruct (current st); injection H as <-; reflexivity. }
    rewrite Hg, concat_packed_pallets, (pack_loop_concat _ _ _ _ E). reflexivity.
Qed.

(** C1. For every list of fragments of which none is taller than the limit
    (the limit need not be positive for this), [_pack_layers] returns an
    ordered sequence of pallets that holds the fragments in descending
    height order, every pallet non-empty and with a goods height within the
    limit, and that is the next-fit packing of the sorted fragments: a
    fragment joins the open pallet exactly when the running height plus its
    height is at most the limit, and otherwise the open pallet is closed and
    a new one opened with that fragment alone. *)
Theorem pack_layers_next_fit (layers : list Layer.t) (limit : float) :
  (forall l, In l layers -> (Layer.layer_height_cm l <=? limit)%float = true) ->
  exists groups,
    _pack_layers layers limit = Ok groups /\
    List.concat groups = sorted_reverse layer_height_lt layers /\
    Forall (fun g => g <> []) groups /\
    Forall (fun g => (stack_height g <=? limit)%float = true) groups /\
    next_fit limit (sorted_reverse layer_height_lt layers) [] [] 0%float groups.
Proof.
  intros Hall.
  destruct layers as [|l layers].
  - exists []. repeat split; try constructor.
  - set (ordered := sorted_reverse layer_height_lt (l :: layers)).
    assert (Hord : Forall (fun l => (Layer.layer_height_cm l <=? limit)%float = true)
                          ordered).
    { apply Forall_forall. intros x Hx. apply Hall.
      apply (Permutation_in _ (sorted_reverse_perm layer_height_lt (l :: layers))).
      exact Hx. }
    assert (Hne : ordered <> []).
    { intros Hnil.
      pose proof (Permutation_length (sorted_reverse_perm layer_height_lt (l :: layers)))
        as Hlen.
      fold ordered in Hlen. rewrite Hnil in Hlen. discriminate Hlen. }
    set (st0 := {| closed_pallets := []; current := [];
                   current_height := 0%float |}).
    assert (Hinv0 : pack_inv limit st0).
    { repeat split; simpl; [constructor|apply same_value_refl|].
      intros H; contradiction H; reflexivity. }
    destruct (pack_loop_inv limit ordered st0 Hord Hinv0)
      as (st & E & (Hclosed & Hsame & Hbound) & Hcur).
    specialize (Hcur Hne).
    exists (packed_pallets st).
    assert (Hpack : _pack_layers (l :: layers) limit = Ok (packed_pallets st)).
    { unfold _pack_layers. fold ordered. fold st0. rewrite E. simpl.
      unfold packed_pallets. destruct (current st); reflexivity. }
    split; [exact Hpack|].
    split; [apply (pack_layers_concat _ _ _ Hpack)|].
    assert (Hboth : Forall (fun g => g <> [] /\
                                     (stack_height g <=? limit)%float = true)
                           (packed_pallets st)).
    { unfold packed_pallets. destruct (current st) as [|x c] eqn:Ec;
        [contradiction Hcur; reflexivity|].
      apply Forall_app. split; [exact Hclosed|].
      constructor; [|constructor]. split; [discriminate|].
      rewrite <- (same_value_leb _ _ limit Hsame). apply Hbound. discriminate. }
    split; [|split].
    + eapply Forall_impl; [|exact Hboth]. intros g [H _]; exact H.
    + eapply Forall_impl; [|exact Hboth]. intros g [_ H]; exact H.
    + apply (pack_loop_next_fit limit ordered st0 st E).
Qed.

Lemma layer_height_lt_trans a b c :
  layer_height_lt a b = true -> layer_height_lt b c = true ->
  layer_height_lt a c = true.
Proof. unfold layer_height_lt. apply ltb_trans. Qed.

Lemma layer_height_lt_asym a b :
  layer_height_lt a b = true -> layer_height_lt b a = false.
Proof. unfold layer_height_lt. apply ltb_asym. Qed.

(** The descending sort of the model keeps fragments of one height in
    input order. *)
Lemma sorted_layers_stable (layers : list Layer.t) (k : float) :
  filter (fun l => (Layer.layer_height_cm l =? k)%float)
         (sorted_reverse layer_height_lt layers)
  = filter (fun l => (Layer.layer_height_cm l =? k)%float) layers.
Proof.
  apply sorted_reverse_filter.
  - apply layer_height_lt_trans.
  - apply layer_height_lt_asym.
  - intros x u Hx Hu. unfold layer_height_lt. split.
    + apply (eqb_not_ltb _ _ k); assumption.
    + intros y. apply (eqb_ltb_l _ _ k); assumption.
Qed.

Lemma sorted_layers_descending (layers : list Layer.t) :
  descending layer_height_lt (sorted_reverse layer_height_lt layers).
Proof.
  apply sorted_reverse_descending.
  - apply layer_height_lt_trans.
  - apply layer_height_lt_asym.
Qed.

(** A NaN height passes the check of the packer, since [nan > limit] is
    false, but it is not at most the limit either: the open pallet, still
    empty, is closed. The engine never builds such a fragment (the floor of
    [limit / nan] raises in the Product Planner). *)
Remark pack_layers_nan_height :
  _pack_layers [ {| Layer.product_name := "A"; Layer.cartons := 1;
                    Layer.layer_height_cm := nan |} ] 180
  = Ok [ []; [ {| Layer.product_name := "A"; Layer.cartons := 1;
                  Layer.layer_height_cm := nan |} ] ].
Proof. reflexivity. Qed.

(** C8. The descending-height sort of the Remainder Packer is stable: for
    every list of fragments whose heights are numbers (none is a NaN, which
    [<] does not order and on which the sort of CPython keeps no such
    promise), the fragments of any one height [k] come out of
    [_pack_layers], read pallet after pallet, in the order in which they
    were in the input list. *)
Theorem pack_layers_stable (layers : list Layer.t) (limit : float)
  (groups : list (list Layer.t)) (k : float) :
  (forall l, In l layers -> is_nan (Layer.layer_height_cm l) = false) ->
  _pack_layers layers limit = Ok groups ->
  filter (fun l => (Layer.layer_height_cm l =? k)%float) (List.concat groups)
  = filter (fun l => (Layer.layer_height_cm l =? k)%float) layers.
Proof.
  intros _ H. rewrite (pack_layers_concat _ _ _ H). apply sorted_layers_stable.
Qed.

(** ** The Orientation Selector *)

Lemma orientation_step_counts pallet options length width :
  orientation_step pallet options (length, width)
  = match orientation_counts pallet length width with
    | Ok counts =>
        if fst counts * snd counts <=? 0 then Ok options
        else Ok (options ++ [candidate length width counts])
    | Raise e => Raise e
    end.
Proof.
  unfold orientation_step, orientation_counts, bind.
  destruct (float_truediv (PalletSpec.length_cm pallet) length); [|reflexivity].
  destruct (math_floor a); [|reflexivity].
  destruct (float_truediv (PalletSpec.width_cm pallet) width); [|reflexivity].
  destruct (math_floor a1); reflexivity.
Qed.

Lemma key_lt_false_not_better c best :
  key_lt (orientation_key best) (orientation_key c) = false -> not_better c best.
Proof.
  unfold key_lt, orientation_key, not_better.
  destruct (Z.eqb_spec (OrientationPlan.cartons_per_layer best)
                       (OrientationPlan.cartons_per_layer c));
    [destruct (Z.eqb_spec (OrientationPlan.cartons_along_length best)
                          (OrientationPlan.cartons_along_length c))|];
    intros H; apply Z.ltb_ge in H; lia.
Qed.

Lemma key_lt_true_not_better c best :
  key_lt (orientation_key c) (orientation_key best) = true -> not_better c best.
Proof.
  unfold key_lt, orientation_key, not_better.
  destruct (Z.eqb_spec (OrientationPlan.cartons_per_layer c)
                       (OrientationPlan.cartons_per_layer best));
    [destruct (Z.eqb_spec (OrientationPlan.cartons_along_length c)
                          (OrientationPlan.cartons_along_length best))|];
    intros H; apply Z.ltb_lt in H; lia.
Qed.

Lemma key_lt_irrefl k1 k2 : k1 = k2 -> key_lt k1 k2 = false.
Proof.
  intros <-. destruct k1 as [[a b] c]. unfold key_lt.
  rewrite !Z.eqb_refl. apply Z.ltb_irrefl.
Qed.

Lemma not_better_refl c : not_better c c.
Proof. unfold not_better. lia. Qed.

Lemma candidate_positive n l w :
  (0 <? OrientationPlan.cartons_per_layer (candidate l w n))
  = negb (fst n * snd n <=? 0).
Proof.
  simpl. destruct (Z.leb_spec (fst n * snd n) 0);
    [apply Z.ltb_ge|apply Z.ltb_lt]; lia.
Qed.

Lemma best_orientation_eq (product : ProductSpec.t) (pallet : PalletSpec.t) :
  let L := ProductSpec.carton_length_cm product in
  let W := ProductSpec.carton_width_cm product in
  _best_orientation product pallet
  = match orientation_counts pallet L W with
    | Raise e => Raise e
    | Ok n1 =>
        match orientation_counts pallet W L with
        | Raise e => Raise e
        | Ok n2 =>
            match filter (fun c => 0 <? OrientationPlan.cartons_per_layer c)
                         [candidate L W n1; candidate W L n2] with
            | [] => Raise (ValueError
                             (CannotFitFootprint (ProductSpec.name product)))
            | [c] => Ok c
            | c1 :: c2 :: _ =>
                if key_lt (orientation_key c1) (orientation_key c2)
                then Ok c2 else Ok c1
            end
        end
    end.
Proof.
  intros L W. unfold _best_orientation. fold L. fold W.
  cbn [foldM]. rewrite !orientation_step_counts.
  destruct (orientation_counts pallet L W) as [n1|e1]; [|reflexivity].
  destruct (fst n1 * snd n1 <=? 0) eqn:E1; cbn [bind];
    rewrite orientation_step_counts;
    destruct (orientation_counts pallet W L) as [n2|e2]; try reflexivity;
    cbn [filter]; rewrite (candidate_positive n1), (candidate_positive n2), E1;
    destruct (fst n2 * snd n2 <=? 0) eqn:E2; cbn [bind negb app];
    try reflexivity.
  unfold sorted_reverse, stable_sort. cbn [rev app fold_left insert_sorted].
  destruct (key_lt (orientation_key (candidate L W n1))
                   (orientation_key (candidate W L n2))); reflexivity.
Qed.

(** C4, as it holds: the selector, case by case. The two candidates are
    the orientations (L, W) and (W, L). When the counts of both can be
    computed, it keeps those with a positive number of cartons per layer,
    fails with its validation error exactly when none is left, and otherwise
    returns one that no other beats (more cartons per layer, then more along
    the length, then more along the width), the orientation (L, W) on a tie of
    all three. When a count cannot be computed (a zero or NaN side, a
    quotient that overflows), the exception of the builtin comes out. *)
Theorem best_orientation_spec (product : ProductSpec.t) (pallet : PalletSpec.t) :
  let L := ProductSpec.carton_length_cm product in
  let W := ProductSpec.carton_width_cm product in
  match orientation_counts pallet L W, orientation_counts pallet W L with
  | Ok n1, Ok n2 =>
      let options :=
        filter (fun c => 0 <? OrientationPlan.cartons_per_layer c)
               [candidate L W n1; candidate W L n2] in
      match _best_orientation product pallet with
      | Ok best =>
          In best options /\
          (forall c, In c options -> not_better c best) /\
          (In (candidate L W n1) options ->
           orientation_key (candidate L W n1) = orientation_key best ->
           best = candidate L W n1)
      | Raise e =>
          options = [] /\
          e = ValueError (CannotFitFootprint (ProductSpec.name product))
      end
  | Raise e, _ => _best_orientation product pallet = Raise e
  | Ok _, Raise e => _best_orientation product pallet = Raise e
  end.
Proof.
  intros L W. pose proof (best_orientation_eq product pallet) as Heq.
  cbv zeta in Heq. fold L in Heq. fold W in Heq. rewrite Heq. clear Heq.
  destruct (orientation_counts pallet L W) as [n1|e1]; [|reflexivity].
  destruct (orientation_counts pallet W L) as [n2|e2]; [|reflexivity].
  cbn [filter]. rewrite (candidate_positive n1), (candidate_positive n2).
  destruct (fst n1 * snd n1 <=? 0) eqn:E1;
    destruct (fst n2 * snd n2 <=? 0) eqn:E2; cbn [negb].
  - split; reflexivity.
  - split; [left; reflexivity|]. split.
    + intros c [<-|[]]. apply not_better_refl.
    + intros [H|[]] _. exact H.
  - split; [left; reflexivity|]. split.
    + intros c [<-|[]]. apply not_better_refl.
    + intros _ _. reflexivity.
  - destruct (key_lt (orientation_key (candidate L W n1))
                     (orientation_key (candidate W L n2))) eqn:Hlt.
    + split; [right; left; reflexivity|]. split.
      * intros c [<-|[<-|[]]];
          [apply key_lt_true_not_better; exact Hlt|apply not_better_refl].
      * intros _ Heq. rewrite (key_lt_irrefl _ _ Heq) in Hlt. discriminate.
    + split; [left; reflexivity|]. split.
      * intros c [<-|[<-|[]]];
          [apply not_better_refl|apply key_lt_false_not_better; exact Hlt].
      * intros _ _. reflexivity.
Qed.

(** ** The loop over the products *)

Lemma bind_Ok {A B : Type} (r : result A) (k : A -> result B) (b : B) :
  bind r k = Ok b -> exists a, r = Ok a /\ k a = Ok b.
Proof. destruct r as [a|e]; simpl; intros H; [eauto|discriminate]. Qed.


(** A property that every step of a loop keeps holds when the loop ends. *)
Lemma foldM_invariant {A S : Type} (f : S -> A -> result S) (I : S -> Prop) :
  (forall s x s', I s -> f s x = Ok s' -> I s') ->
  forall xs s s', I s -> foldM f xs s = Ok s' -> I s'.
Proof.
  intros Hstep. induction xs as [|x xs IH]; intros s s' Hs H; simpl in H.
  - injection H as <-. exact Hs.
  - apply bind_Ok in H. destruct H as (s1 & H1 & H2).
    apply (IH s1 s'); [apply (Hstep s x s1 Hs H1)|exact H2].
Qed.

(** What one successful turn of the loop has done. *)
Lemma plan_step_Ok mixed pallet limit st product st' :
  plan_step mixed pallet limit st product = Ok st' ->
  exists orientation q lpp cr volume,
    _best_orientation product pallet = Ok orientation /\
    float_truediv limit (ProductSpec.carton_height_cm product) = Ok q /\
    math_floor q = Ok lpp /\
    0 < lpp /\
    0 < OrientationPlan.cartons_per_layer orientation * lpp /\
    ProductSpec.cartons_required product = Ok cr /\
    int_mul_float cr (ProductSpec.carton_volume_cbm product) = Ok volume /\
    let cpp := OrientationPlan.cartons_per_layer orientation * lpp in
    let plan :=
      {| ProductPlan.product := product;
         ProductPlan.orientation := orientation;
         ProductPlan.layers_per_pallet := lpp;
         ProductPlan.cartons_per_pallet := cpp;
         ProductPlan.full_pallets := cr / cpp;
         ProductPlan.remainder_cartons := cr mod cpp |} in
    product_plans st' = product_plans st ++ [plan] /\
    total_cartons st' = total_cartons st + cr /\
    volume_without_pallets st' = (volume_without_pallets st + volume)%float /\
    exists full_part rem_part layers,
      pallets st' = pallets st ++ full_part ++ rem_part /\
      remainder_layers st' = remainder_layers st ++ layers /\
      ((cr / cpp = 0 /\ full_part = []) \/
       (cr / cpp <> 0 /\
        exists gh, ProductPlan.goods_height_cm plan = Ok gh /\
                   full_part = [full_pallet pallet plan gh])) /\
      (if mixed then rem_part = [] /\ _build_layers plan = Ok layers
       else layers = [] /\
            ((cr mod cpp = 0 /\ rem_part = []) \/
             (cr mod cpp <> 0 /\
              exists gh,
                remainder_goods_height (cr mod cpp) plan product = Ok gh /\
                rem_part = [remainder_pallet pallet product (cr mod cpp) gh]))).
Proof.
  unfold plan_step. intros H.
  apply bind_Ok in H. destruct H as (orientation & Ho & H).
  apply bind_Ok in H. destruct H as (q & Hq & H).
  apply bind_Ok in H. destruct H as (lpp & Hlpp & H).
  destruct (Z.leb_spec lpp 0) as [|Hlpp0]; [discriminate|].
  destruct (Z.leb_spec (OrientationPlan.cartons_per_layer orientation * lpp) 0)
    as [|Hcpp0]; [discriminate|].
  apply bind_Ok in H. destruct H as (cr & Hcr & H).
  unfold int_floordiv, int_mod in H.
  replace (OrientationPlan.cartons_per_layer orientation * lpp =? 0) with false in H
    by (symmetry; apply Z.eqb_neq; lia).
  cbn [bind] in H.
  apply bind_Ok in H. destruct H as (volume & Hvol & H).
  apply bind_Ok in H. destruct H as (pallets1 & Hp1 & H).
  apply bind_Ok in H. destruct H as ([layers2 pallets2] & Hp2 & H).
  injection H as <-. cbn [product_plans total_cartons volume_without_pallets
                          pallets remainder_layers].
  exists orientation, q, lpp, cr, volume.
  repeat (split; [assumption || reflexivity|]).
  set (cpp := OrientationPlan.cartons_per_layer orientation * lpp) in *.
  set (plan := {| ProductPlan.product := product;
                  ProductPlan.orientation := orientation;
                  ProductPlan.layers_per_pallet := lpp;
                  ProductPlan.cartons_per_pallet := cpp;
                  ProductPlan.full_pallets := cr / cpp;
                  ProductPlan.remainder_cartons := cr mod cpp |}) in *.
  assert (Hfull : exists full_part,
            pallets1 = pallets st ++ full_part /\
            ((cr / cpp = 0 /\ full_part = []) \/
             (cr / cpp <> 0 /\
              exists gh, ProductPlan.goods_height_cm plan = Ok gh /\
                         full_part = [full_pallet pallet plan gh]))).
  { destruct (Z.eqb_spec (cr / cpp) 0) as [Hz|Hnz].
    - injection Hp1 as <-. exists []. rewrite app_nil_r. auto.
    - apply bind_Ok in Hp1. destruct Hp1 as (gh & Hgh & Hp1).
      injection Hp1 as <-. exists [full_pallet pallet plan gh].
      split; [reflexivity|]. right. split; [exact Hnz|]. eauto. }
  destruct Hfull as (full_part & -> & Hfull).
  destruct mixed.
  - apply bind_Ok in Hp2. destruct Hp2 as (layers & Hl & Hp2).
    injection Hp2 as <- <-.
    exists full_part, [], layers. rewrite app_nil_r.
    split; [reflexivity|]. split; [reflexivity|]. split; [exact Hfull|].
    split; [reflexivity|exact Hl].
  - destruct (Z.eqb_spec (cr mod cpp) 0) as [Hz|Hnz].
    + injection Hp2 as <- <-.
      exists full_part, [], []. rewrite !app_nil_r.
      split; [reflexivity|]. split; [reflexivity|]. split; [exact Hfull|].
      split; [reflexivity|]. left. split; [exact Hz|reflexivity].
    + apply bind_Ok in Hp2. destruct Hp2 as (gh & Hgh & Hp2).
      injection Hp2 as <- <-.
      exists full_part, [remainder_pallet pallet product (cr mod cpp) gh], [].
      rewrite app_nil_r, <- app_assoc.
      split; [reflexivity|]. split; [reflexivity|]. split; [exact Hfull|].
      split; [reflexivity|]. right. split; [exact Hnz|]. eauto.
Qed.

(** ** Carton counts *)

Lemma sum_Z_app l1 l2 : sum_Z (l1 ++ l2) = sum_Z l1 + sum_Z l2.
Proof. induction l1 as [|x l1 IH]; simpl; [reflexivity|]. rewrite IH. lia. Qed.

Lemma pallets_cartons_app p1 p2 :
  pallets_cartons (p1 ++ p2) = pallets_cartons p1 + pallets_cartons p2.
Proof. unfold pallets_cartons. rewrite map_app. apply sum_Z_app. Qed.

Lemma layers_cartons_app l1 l2 :
  layers_cartons (l1 ++ l2) = layers_cartons l1 + layers_cartons l2.
Proof. unfold layers_cartons. rewrite map_app. apply sum_Z_app. Qed.

Lemma layers_cartons_perm l1 l2 :
  Permutation l1 l2 -> layers_cartons l1 = layers_cartons l2.
Proof.
  unfold layers_cartons. induction 1; simpl; lia.
Qed.

Lemma layers_cartons_repeat l n :
  layers_cartons (repeat l n) = Z.of_nat n * Layer.cartons l.
Proof.
  unfold layers_cartons. induction n as [|n IH]; [reflexivity|].
  cbn [repeat map].
  change (sum_Z (?x :: ?t)) with (x + sum_Z t). rewrite IH. lia.
Qed.

Lemma dict_total_set d k c :
  dict_total (dict_set d k (dict_get d k 0 + c)) = dict_total d + c.
Proof.
  unfold dict_total. induction d as [|[k' v] d IH].
  - cbn. lia.
  - cbn [dict_set dict_get]. destruct (String.eqb k' k); cbn [map snd];
      repeat change (sum_Z (?x :: ?t)) with (x + sum_Z t);
      [lia|rewrite IH; lia].
Qed.

Lemma stack_totals_fst g : forall d a,
  dict_total
    (fst (fold_left
            (fun (acc : list (string * Z) * float) layer =>
               let '(cartons_by_product, goods_height_cm) := acc in
               (dict_set cartons_by_product (Layer.product_name layer)
                  (dict_get cartons_by_product (Layer.product_name layer) 0
                   + Layer.cartons layer),
                (goods_height_cm + Layer.layer_height_cm layer)%float))
            g (d, a)))
  = dict_total d + layers_cartons g.
Proof.
  induction g as [|l g IH]; intros d a; cbn [fold_left].
  - unfold layers_cartons. simpl. lia.
  - rewrite IH, dict_total_set. unfold layers_cartons. simpl. lia.
Qed.

Lemma mixed_pallet_cartons pallet index g :
  detail_cartons (mixed_pallet pallet index g) = layers_cartons g.
Proof.
  unfold mixed_pallet, detail_cartons.
  pose proof (stack_totals_fst g [] 0%float) as H. fold (stack_totals g) in H.
  destruct (stack_totals g) as [d a]. cbn in *. rewrite H.
  unfold dict_total. simpl. lia.
Qed.

Lemma mixed_pallets_cartons pallet packed :
  pallets_cartons (mixed_pallets pallet packed)
  = layers_cartons (List.concat packed).
Proof.
  unfold mixed_pallets. generalize 1%nat.
  induction packed as [|g packed IH]; intros i; [reflexivity|].
  cbn [List.length seq combine map List.concat].
  change (pallets_cartons (?x :: ?l)) with (detail_cartons x + pallets_cartons l).
  rewrite IH, mixed_pallet_cartons, layers_cartons_app. reflexivity.
Qed.

(** The fragments of a remainder: as many of the product's carton height as
    the remainder needs layers, with the cartons of the remainder. *)
Lemma build_layers_Ok plan layers :
  _build_layers plan = Ok layers ->
  0 < OrientationPlan.cartons_per_layer (ProductPlan.orientation plan) ->
  0 <= ProductPlan.remainder_cartons plan ->
  layers_cartons layers = ProductPlan.remainder_cartons plan /\
  Z.of_nat (List.length layers)
  = (ProductPlan.remainder_cartons plan
     + OrientationPlan.cartons_per_layer (ProductPlan.orientation plan) - 1)
    / OrientationPlan.cartons_per_layer (ProductPlan.orientation plan) /\
  Forall (fun l =>
            Layer.product_name l = ProductSpec.name (ProductPlan.product plan) /\
            Layer.layer_height_cm l
            = ProductSpec.carton_height_cm (ProductPlan.product plan))
         layers.
Proof.
  unfold _build_layers, int_floordiv, int_mod.
  set (r := ProductPlan.remainder_cartons plan).
  set (p := OrientationPlan.cartons_per_layer (ProductPlan.orientation plan)).
  intros H Hp Hr.
  pose proof (Z.div_mod r p ltac:(lia)) as Hdm.
  pose proof (Z.mod_pos_bound r p Hp) as Hmod.
  assert (Hq : 0 <= r / p) by (apply Z.div_pos; lia).
  destruct (Z.leb_spec r 0) as [Hr0|Hr0].
  - injection H as <-. split; [unfold layers_cartons; simpl; lia|].
    split; [|constructor].
    simpl. replace r with 0 by lia. symmetry. apply Z.div_small. lia.
  - replace (p =? 0) with false in H by (symmetry; apply Z.eqb_neq; lia).
    cbn [bind] in H.
    destruct (Z.eqb_spec (r mod p) 0) as [Hz|Hnz]; injection H as <-.
    + split; [|split].
      * rewrite layers_cartons_repeat, Z2Nat.id by assumption. cbn. lia.
      * rewrite repeat_length, Z2Nat.id by assumption.
        apply (Z.div_unique_pos _ _ _ (p - 1)); lia.
      * apply Forall_forall. intros l Hl. apply repeat_spec in Hl. subst l.
        split; reflexivity.
    + split; [|split].
      * rewrite layers_cartons_app, layers_cartons_repeat, Z2Nat.id by assumption.
        unfold layers_cartons. cbn. lia.
      * rewrite length_app, repeat_length, Nat2Z.inj_add, Z2Nat.id by assumption.
        cbn [List.length].
        apply (Z.div_unique_pos _ _ _ (r mod p - 1)); lia.
      * apply Forall_app. split.
        -- apply Forall_forall. intros l Hl. apply repeat_spec in Hl. subst l.
           split; reflexivity.
        -- constructor; [split; reflexivity|constructor].
Qed.

(** ** The engine as a whole *)

Section Engine.
Variable int_of_str : string -> option Z.
Variable float_of_str : string -> option float.
Variable repr : pyval -> string.

Local Abbreviation calculate :=
  (calculate_palletization int_of_str float_of_str repr).

(** What a successful call has done. *)
Lemma calculate_palletization_Ok data r :
  calculate data = Ok r ->
  exists products pallet container_height_cm limit st packed,
    _load_products int_of_str float_of_str repr (CalculationInput.products data)
      = Ok products /\
    _load_pallet float_of_str (CalculationInput.pallet data) = Ok pallet /\
    _resolve_container_height (CalculationInput.container_height data)
      = Ok container_height_cm /\
    PalletSpec.goods_height_limit pallet container_height_cm = Ok limit /\
    foldM (plan_step (CalculationInput.allow_mixed_remainders data) pallet limit)
          products initial_state = Ok st /\
    (if CalculationInput.allow_mixed_remainders data
     then _pack_layers (remainder_layers st) limit = Ok packed
     else packed = []) /\
    CalculationResult.product_plans r = product_plans st /\
    CalculationResult.pallets r = pallets st ++ mixed_pallets pallet packed /\
    CalculationResult.total_cartons r = total_cartons st /\
    CalculationResult.total_pallets r = sum_counts (CalculationResult.pallets r) /\
    CalculationResult.volume_without_pallets_cbm r = volume_without_pallets st /\
    foldM (volume_step (PalletSpec.length_cm pallet / 100
                        * (PalletSpec.width_cm pallet / 100))%float)
          (CalculationResult.pallets r) 0%float
      = Ok (CalculationResult.volume_with_pallets_cbm r).
Proof.
  unfold calculate_palletization. intros H.
  apply bind_Ok in H. destruct H as (products & Hprod & H).
  apply bind_Ok in H. destruct H as (pallet & Hpal & H).
  apply bind_Ok in H. destruct H as (ch & Hch & H).
  apply bind_Ok in H. destruct H as (limit & Hlim & H).
  apply bind_Ok in H. destruct H as (st & Hst & H).
  apply bind_Ok in H. destruct H as (all_pallets & Hall & H).
  apply bind_Ok in H. destruct H as (vol & Hvol & H).
  injection H as <-. cbn [CalculationResult.product_plans
    CalculationResult.pallets CalculationResult.total_cartons
    CalculationResult.total_pallets CalculationResult.volume_without_pallets_cbm
    CalculationResult.volume_with_pallets_cbm].
  assert (Hpacked : exists packed,
            all_pallets = pallets st ++ mixed_pallets pallet packed /\
            (if CalculationInput.allow_mixed_remainders data
             then _pack_layers (remainder_layers st) limit = Ok packed
             else packed = [])).
  { destruct (CalculationInput.allow_mixed_remainders data).
    - destruct (remainder_layers st) as [|l ls] eqn:El.
      + injection Hall as <-. exists []. rewrite app_nil_r. split; reflexivity.
      + apply bind_Ok in Hall. destruct Hall as (packed & Hp & Hall).
        injection Hall as <-. exists packed. split; [reflexivity|exact Hp].
    - injection Hall as <-. exists []. rewrite app_nil_r. split; reflexivity. }
  destruct Hpacked as (packed & -> & Hpacked).
  exists products, pallet, ch, limit, st, packed.
  repeat (split; [assumption || reflexivity|]). exact Hvol.
Qed.

Lemma plan_loop_balanced mixed pallet limit products st :
  foldM (plan_step mixed pallet limit) products initial_state = Ok st ->
  Forall plan_balanced (product_plans st).
Proof.
  apply (foldM_invariant (plan_step mixed pallet limit)
           (fun st => Forall plan_balanced (product_plans st))).
  - intros s product s' Hs Hstep.
    apply plan_step_Ok in Hstep.
    destruct Hstep as (o & q & lpp & cr & vol & _ & _ & _ & Hlpp & Hcpp & Hcr
                       & _ & Hplans & _).
    rewrite Hplans. apply Forall_app. split; [exact Hs|].
    constructor; [|constructor].
    exists cr. cbn. split; [exact Hcr|].
    pose proof (Z.div_mod cr (OrientationPlan.cartons_per_layer o * lpp)
                  ltac:(lia)).
    lia.
  - constructor.
Qed.

(** C5. Every product plan of a successful call satisfies
    [full_pallets * cartons_per_pallet + remainder_cartons
     == cartons_required], where [cartons_required] is
    [ceil(order_quantity / pieces_per_carton)] as the engine computes it
    (the float quotient of the two ints, then its ceiling), which is the
    exact ceiling of the quotient when the quantity is not negative and both
    numbers are below [2^53]. *)
Theorem plan_accounts_for_cartons (data : CalculationInput.t)
  (r : CalculationResult.t) (plan : ProductPlan.t) :
  calculate data = Ok r ->
  In plan (CalculationResult.product_plans r) ->
  let quantity := ProductSpec.order_quantity_pcs (ProductPlan.product plan) in
  let pieces := ProductSpec.pcs_per_carton (ProductPlan.product plan) in
  exists cartons_required,
    (q <- int_truediv quantity pieces ;; math_ceil q) = Ok cartons_required /\
    ProductPlan.full_pallets plan * ProductPlan.cartons_per_pallet plan
    + ProductPlan.remainder_cartons plan = cartons_required /\
    (0 <= quantity < 2 ^ 53 -> 0 < pieces < 2 ^ 53 ->
     cartons_required = (quantity + pieces - 1) / pieces).
Proof.
  intros H Hin quantity pieces. apply calculate_palletization_Ok in H.
  destruct H as (products & pallet & ch & limit & st & packed & _ & _ & _ & _
                 & Hloop & _ & Hplans & _).
  apply plan_loop_balanced in Hloop. rewrite <- Hplans in Hloop.
  rewrite Forall_forall in Hloop.
  destruct (Hloop plan Hin) as (cr & Hcr & Hsum).
  exists cr. split; [exact Hcr|]. split; [exact Hsum|].
  intros Hq Hp. pose proof (int_truediv_ceil quantity pieces Hq Hp) as Hexact.
  unfold ProductSpec.cartons_required in Hcr.
  fold quantity in Hcr. fold pieces in Hcr. congruence.
Qed.

(** What the loop keeps about cartons: those on the pallets emitted so far
    and in the pending fragments are the cartons required so far. *)
Lemma plan_loop_cartons mixed pallet limit products st :
  foldM (plan_step mixed pallet limit) products initial_state = Ok st ->
  pallets_cartons (pallets st) + layers_cartons (remainder_layers st)
  = total_cartons st /\
  (mixed = false -> remainder_layers st = []) /\
  exists required,
    Forall2 (fun plan cr =>
               ProductSpec.cartons_required (ProductPlan.product plan) = Ok cr)
            (product_plans st) required /\
    total_cartons st = sum_Z required.
Proof.
  apply (foldM_invariant (plan_step mixed pallet limit)
           (fun st =>
              pallets_cartons (pallets st) + layers_cartons (remainder_layers st)
              = total_cartons st /\
              (mixed = false -> remainder_layers st = []) /\
              exists required,
                Forall2 (fun plan cr =>
                           ProductSpec.cartons_required (ProductPlan.product plan)
                           = Ok cr)
                        (product_plans st) required /\
                total_cartons st = sum_Z required)).
  - intros s product s' (Hsum & Hnil & required & Hreq & Htot) Hstep.
    apply plan_step_Ok in Hstep.
    destruct Hstep as (o & q & lpp & cr & vol & _ & _ & _ & Hlpp & Hcpp & Hcr
                       & _ & Hplans & Htotal & _ & full_part & rem_part & layers
                       & Hpallets & Hlayers & Hfull & Hrem).
    set (cpp := OrientationPlan.cartons_per_layer o * lpp) in *.
    pose proof (Z.div_mod cr cpp ltac:(lia)) as Hdm.
    pose proof (Z.mod_pos_bound cr cpp Hcpp) as Hmod.
    assert (Hfc : pallets_cartons full_part = cr / cpp * cpp).
    { destruct Hfull as [[Hz ->]|[_ (gh & _ & ->)]].
      - rewrite Hz. reflexivity.
      - unfold pallets_cartons, detail_cartons, dict_total. cbn. lia. }
    assert (Hrc : pallets_cartons rem_part + layers_cartons layers = cr mod cpp
                  /\ (mixed = false -> layers = [])).
    { destruct mixed.
      - destruct Hrem as [-> Hbuild].
        apply build_layers_Ok in Hbuild; cbn; [|nia|lia].
        destruct Hbuild as [Hc _]. cbn in Hc. split; [|discriminate].
        unfold pallets_cartons. cbn. lia.
      - destruct Hrem as [-> [[Hz ->]|[_ (gh & _ & ->)]]]; (split; [|reflexivity]).
        + rewrite Hz. reflexivity.
        + unfold pallets_cartons, detail_cartons, dict_total, layers_cartons.
          cbn. lia. }
    destruct Hrc as [Hrc Hlnil].
    split; [|split].
    + rewrite Hpallets, Hlayers, !pallets_cartons_app, layers_cartons_app, Htotal.
      lia.
    + intros Hm. rewrite Hlayers, (Hnil Hm), (Hlnil Hm). reflexivity.
    + exists (required ++ [cr]). split.
      * rewrite Hplans. apply Forall2_app; [exact Hreq|].
        constructor; [exact Hcr|constructor].
      * rewrite Htotal, sum_Z_app, Htot. cbn. lia.
  - split; [reflexivity|]. split; [reflexivity|].
    exists []. split; [constructor|reflexivity].
Qed.

(** The plans are those of the products, one for one and in order. *)
Lemma plan_loop_products mixed pallet limit products : forall st st',
  foldM (plan_step mixed pallet limit) products st = Ok st' ->
  map ProductPlan.product (product_plans st')
  = map ProductPlan.product (product_plans st) ++ products.
Proof.
  induction products as [|product products IH]; intros st st' H.
  - injection H as <-. rewrite app_nil_r. reflexivity.
  - cbn [foldM] in H. apply bind_Ok in H. destruct H as (st1 & H1 & H).
    rewrite (IH _ _ H). apply plan_step_Ok in H1.
    destruct H1 as (o & q & lpp & cr & vol & _ & _ & _ & _ & _ & _ & _
                    & Hplans & _).
    rewrite Hplans, map_app, <- app_assoc. reflexivity.
Qed.

(** C10. Carton conservation: in either remainder mode the cartons on the
    emitted pallets, [count] times the sum of [cartons_by_product] over all
    pallet details, are [total_cartons], and [total_cartons] is the sum of
    [cartons_required] over the products that [_load_products] made of the
    input, which are, one for one and in order, the products of the plans
    of the result: no carton of any loaded product is lost or duplicated on
    the way to the pallets. *)
Theorem cartons_are_conserved (data : CalculationInput.t)
  (r : CalculationResult.t) :
  calculate data = Ok r ->
  pallets_cartons (CalculationResult.pallets r)
  = CalculationResult.total_cartons r /\
  exists products required,
    _load_products int_of_str float_of_str repr (CalculationInput.products data)
    = Ok products /\
    map ProductPlan.product (CalculationResult.product_plans r) = products /\
    Forall2 (fun product cr => ProductSpec.cartons_required product = Ok cr)
            products required /\
    CalculationResult.total_cartons r = sum_Z required.
Proof.
  intros H. apply calculate_palletization_Ok in H.
  destruct H as (products & pallet & ch & limit & st & packed & Hprod & _ & _
                 & _ & Hloop & Hpacked & Hplans & Hpallets & Htotal & _).
  pose proof (plan_loop_products _ _ _ _ _ _ Hloop) as Hmap.
  cbn [initial_state product_plans map app] in Hmap.
  apply plan_loop_cartons in Hloop.
  destruct Hloop as (Hsum & Hnil & required & Hreq & Htot).
  rewrite Hplans, Hpallets, Htotal. split.
  - rewrite pallets_cartons_app, mixed_pallets_cartons, <- Hsum. f_equal.
    destruct (CalculationInput.allow_mixed_remainders data).
    + rewrite (pack_layers_concat _ _ _ Hpacked).
      apply layers_cartons_perm, sorted_reverse_perm.
    + rewrite Hpacked, (Hnil eq_refl). reflexivity.
  - exists products, required.
    split; [exact Hprod|]. split; [exact Hmap|]. split; [|exact Htot].
    rewrite <- Hmap. clear - Hreq.
    induction Hreq as [|plan cr plans required Hcr _ IH]; cbn [map];
      constructor; assumption.
Qed.

Lemma sum_counts_sum_Z details :
  sum_counts details = sum_Z (map PalletDetail.count details).
Proof.
  unfold sum_counts.
  assert (H : forall a,
             fold_left (fun acc detail => acc + PalletDetail.count detail)
                       details a
             = a + sum_Z (map PalletDetail.count details)).
  { induction details as [|d details IH]; intros a; cbn [fold_left map].
    - cbn. lia.
    - rewrite IH. change (sum_Z (?x :: ?t)) with (x + sum_Z t). lia. }
  rewrite H. lia.
Qed.

Lemma volume_loop_sum pallet details : forall acc,
  foldM (volume_step (PalletSpec.length_cm pallet / 100
                      * (PalletSpec.width_cm pallet / 100))%float)
        details acc
  = volume_sum pallet details acc.
Proof.
  induction details as [|d details IH]; intros acc; [reflexivity|].
  cbn [foldM volume_sum]. unfold volume_step, detail_volume, bind.
  destruct (float_of_int (PalletDetail.count d)); [apply IH|reflexivity].
Qed.

(** C9. For a successful call, [total_pallets] is the sum of [count] over
    the emitted pallet details; [volume_with_pallets_cbm] is the sum over
    them, accumulated in order from [0.0], of
    [count * (pallet_length/100 * pallet_width/100) * (total_height_cm/100)];
    and each volume in cubic feet is the CBM value times 35.3146667. *)
Theorem totals_are_sums (data : CalculationInput.t) (r : CalculationResult.t) :
  calculate data = Ok r ->
  CalculationResult.total_pallets r
  = sum_Z (map PalletDetail.count (CalculationResult.pallets r)) /\
  (exists pallet,
     _load_pallet float_of_str (CalculationInput.pallet data) = Ok pallet /\
     volume_sum pallet (CalculationResult.pallets r) 0%float
     = Ok (CalculationResult.volume_with_pallets_cbm r)) /\
  CalculationResult.volume_with_pallets_cuft r
  = (CalculationResult.volume_with_pallets_cbm r * 35.3146667)%float /\
  CalculationResult.volume_without_pallets_cuft r
  = (CalculationResult.volume_without_pallets_cbm r * 35.3146667)%float.
Proof.
  intros H. apply calculate_palletization_Ok in H.
  destruct H as (products & pallet & ch & limit & st & packed & _ & Hpal & _ & _
                 & _ & _ & _ & _ & _ & Hcount & _ & Hvol).
  split; [rewrite Hcount; apply sum_counts_sum_Z|].
  split; [|split; reflexivity].
  exists pallet. split; [exact Hpal|].
  rewrite <- volume_loop_sum. exact Hvol.
Qed.

(** *** The defensive check of the packer is never reached *)

Lemma no_layer_error_bind {A B : Type} (r : result A) (k : A -> result B) :
  no_layer_error r -> (forall a, r = Ok a -> no_layer_error (k a)) ->
  no_layer_error (bind r k).
Proof.
  unfold no_layer_error. intros Hr Hk. destruct r as [a|e]; simpl.
  - apply Hk. reflexivity.
  - intros H. apply Hr. injection H as ->. reflexivity.
Qed.

Lemma no_layer_error_foldM {A S : Type} (f : S -> A -> result S) xs :
  (forall s x, no_layer_error (f s x)) -> forall s, no_layer_error (foldM f xs s).
Proof.
  intros Hf. induction xs as [|x xs IH]; intros s; simpl.
  - discriminate.
  - apply no_layer_error_bind; [apply Hf|]. intros a _. apply IH.
Qed.

Lemma no_layer_error_except {A : Type} (m : message) (r : result A) :
  m <> LayerHeightExceedsLimit -> no_layer_error (except_invalid m r).
Proof.
  unfold no_layer_error, except_invalid. intros Hm.
  destruct r as [a|[]]; cbn; congruence.
Qed.

Ltac destruct_scrutinee x :=
  lazymatch x with
  | context [match ?y with _ => _ end] => destruct_scrutinee y
  | _ => destruct x
  end.

Ltac no_layer_error :=
  unfold no_layer_error;
  repeat match goal with
  | |- context [match ?x with _ => _ end] => destruct_scrutinee x
  end;
  discriminate.

Lemma no_layer_error_float_truediv x y : no_layer_error (float_truediv x y).
Proof. unfold float_truediv. no_layer_error. Qed.

Lemma no_layer_error_math_floor x : no_layer_error (math_floor x).
Proof. unfold math_floor. no_layer_error. Qed.

Lemma no_layer_error_math_ceil x : no_layer_error (math_ceil x).
Proof. unfold math_ceil. no_layer_error. Qed.

Lemma no_layer_error_float_of_int n : no_layer_error (float_of_int n).
Proof. unfold float_of_int. no_layer_error. Qed.

Lemma no_layer_error_int_truediv a b : no_layer_error (int_truediv a b).
Proof. unfold int_truediv. no_layer_error. Qed.

Lemma no_layer_error_int_mul_float n x : no_layer_error (int_mul_float n x).
Proof.
  unfold int_mul_float. apply no_layer_error_bind;
    [apply no_layer_error_float_of_int|discriminate].
Qed.

Lemma no_layer_error_cartons_required p :
  no_layer_error (ProductSpec.cartons_required p).
Proof.
  unfold ProductSpec.cartons_required. apply no_layer_error_bind;
    [apply no_layer_error_int_truediv|intros; apply no_layer_error_math_ceil].
Qed.

Lemma no_layer_error_best_orientation product pallet :
  no_layer_error (_best_orientation product pallet).
Proof.
  unfold _best_orientation. apply no_layer_error_bind.
  - apply no_layer_error_foldM. intros options [l w]. unfold orientation_step.
    repeat (apply no_layer_error_bind;
            [apply no_layer_error_float_truediv || apply no_layer_error_math_floor
            |intros ? _]).
    no_layer_error.
  - intros options _. no_layer_error.
Qed.

Lemma no_layer_error_build_layers plan : no_layer_error (_build_layers plan).
Proof.
  unfold _build_layers, int_floordiv, int_mod, bind. no_layer_error.
Qed.

Lemma no_layer_error_plan_step mixed pallet limit st product :
  no_layer_error (plan_step mixed pallet limit st product).
Proof.
  unfold plan_step.
  apply no_layer_error_bind; [apply no_layer_error_best_orientation|intros o _].
  apply no_layer_error_bind; [apply no_layer_error_float_truediv|intros q _].
  apply no_layer_error_bind; [apply no_layer_error_math_floor|intros lpp _].
  destruct (lpp <=? 0); [discriminate|].
  destruct (OrientationPlan.cartons_per_layer o * lpp <=? 0); [discriminate|].
  apply no_layer_error_bind; [apply no_layer_error_cartons_required|intros cr _].
  apply no_layer_error_bind; [unfold int_floordiv; no_layer_error|intros fp _].
  apply no_layer_error_bind; [unfold int_mod; no_layer_error|intros rem _].
  apply no_layer_error_bind; [apply no_layer_error_int_mul_float|intros vol _].
  apply no_layer_error_bind.
  { destruct (fp =? 0); [discriminate|].
    apply no_layer_error_bind; [apply no_layer_error_int_mul_float|discriminate]. }
  intros p1 _.
  apply no_layer_error_bind; [|intros [l2 p2] _; discriminate].
  destruct mixed.
  - apply no_layer_error_bind; [apply no_layer_error_build_layers|discriminate].
  - destruct (rem =? 0); [discriminate|].
    apply no_layer_error_bind; [|discriminate].
    unfold remainder_goods_height.
    apply no_layer_error_bind; [apply no_layer_error_int_truediv|intros ? _].
    apply no_layer_error_bind; [apply no_layer_error_math_ceil|intros ? _].
    apply no_layer_error_int_mul_float.
Qed.

Lemma no_layer_error_load_products raw_products :
  no_layer_error (_load_products int_of_str float_of_str repr raw_products).
Proof.
  unfold _load_products. apply no_layer_error_bind.
  - apply no_layer_error_foldM. intros products raw.
    apply no_layer_error_bind; [|discriminate].
    apply no_layer_error_except. discriminate.
  - intros products _. destruct products; discriminate.
Qed.

Lemma no_layer_error_load_pallet raw_pallet :
  no_layer_error (_load_pallet float_of_str raw_pallet).
Proof.
  unfold _load_pallet. apply no_layer_error_bind.
  - apply no_layer_error_except. discriminate.
  - intros [[[l w] h] b] _. no_layer_error.
Qed.

(** The packer does not fail on fragments that are not taller than the
    limit. *)
Lemma pack_layers_succeeds layers limit :
  Forall (fun l => (limit <? Layer.layer_height_cm l)%float = false) layers ->
  exists packed, _pack_layers layers limit = Ok packed.
Proof.
  intros Hall. unfold _pack_layers. destruct layers as [|l0 layers]; [eauto|].
  assert (Hord : Forall (fun l => (limit <? Layer.layer_height_cm l)%float = false)
                        (sorted_reverse layer_height_lt (l0 :: layers))).
  { apply Forall_forall. intros x Hx. rewrite Forall_forall in Hall. apply Hall.
    apply (Permutation_in _ (sorted_reverse_perm layer_height_lt (l0 :: layers))).
    exact Hx. }
  generalize dependent (sorted_reverse layer_height_lt (l0 :: layers)).
  intros ordered Hord.
  assert (Hloop : forall st, exists st',
             foldM (pack_step limit) ordered st = Ok st').
  { induction Hord as [|l ordered Hl _ IH]; intros st; [simpl; eauto|].
    cbn [foldM]. unfold pack_step at 1. rewrite Hl.
    destruct (current_height st + Layer.layer_height_cm l <=? limit)%float;
      cbn [bind]; apply IH. }
  destruct (Hloop {| closed_pallets := []; current := [];
                     current_height := 0%float |}) as [st' ->].
  cbn [bind]. destruct (current st'); eauto.
Qed.

(** Every pending fragment has the carton height of a product that passed
    the stacking-height check, so it is not taller than the limit. *)
Lemma plan_loop_heights mixed pallet limit products st :
  (limit <=? 0)%float = false ->
  foldM (plan_step mixed pallet limit) products initial_state = Ok st ->
  Forall (fun l => (limit <? Layer.layer_height_cm l)%float = false)
         (remainder_layers st).
Proof.
  intros Hlimit.
  apply (foldM_invariant (plan_step mixed pallet limit)
           (fun st =>
              Forall (fun l => (limit <? Layer.layer_height_cm l)%float = false)
                     (remainder_layers st))); [|constructor].
  intros s product s' Hs Hstep.
  apply plan_step_Ok in Hstep.
  destruct Hstep as (o & q & lpp & cr & vol & _ & Hq & Hfloor & Hlpp & Hcpp & _
                     & _ & _ & _ & _ & full_part & rem_part & layers
                     & _ & Hlayers & _ & Hrem).
  rewrite Hlayers. apply Forall_app. split; [exact Hs|].
  destruct mixed; [|destruct Hrem as [-> _]; constructor].
  destruct Hrem as [_ Hbuild].
  assert (Hmod := Z.mod_pos_bound cr _ Hcpp).
  apply build_layers_Ok in Hbuild; cbn; [|nia|lia].
  destruct Hbuild as (_ & _ & Hheights).
  eapply Forall_impl; [|exact Hheights].
  intros l [_ Hh]. cbn in Hh. rewrite Hh.
  apply (floor_quotient_positive limit _ q lpp Hlimit Hq Hfloor). lia.
Qed.

(** C6. Within [calculate_palletization] the per-fragment height check of
    the Remainder Packer never fires: a product reaches the packing step
    only with [layers_per_pallet >= 1], so its carton height, which is the
    height of each of its fragments, is not above the goods height limit.
    Whatever the input, the call does not fail with "Layer height exceeds
    available stacking limit." *)
Theorem layer_height_check_unreachable (data : CalculationInput.t) :
  calculate data <> Raise (ValueError LayerHeightExceedsLimit).
Proof.
  change (no_layer_error (calculate data)). unfold calculate_palletization.
  apply no_layer_error_bind; [apply no_layer_error_load_products|].
  intros products _.
  apply no_layer_error_bind; [apply no_layer_error_load_pallet|].
  intros pallet _.
  apply no_layer_error_bind;
    [unfold _resolve_container_height; no_layer_error|].
  intros ch _.
  apply no_layer_error_bind;
    [unfold PalletSpec.goods_height_limit; no_layer_error|].
  intros limit Hlimit.
  assert (Hpos : (limit <=? 0)%float = false).
  { unfold PalletSpec.goods_height_limit in Hlimit.
    destruct (_ <=? 0)%float eqn:E in Hlimit; [discriminate|].
    injection Hlimit as <-. exact E. }
  apply no_layer_error_bind;
    [apply no_layer_error_foldM; intros; apply no_layer_error_plan_step|].
  intros st Hloop.
  apply no_layer_error_bind.
  - destruct (CalculationInput.allow_mixed_remainders data); [|discriminate].
    destruct (remainder_layers st) as [|l ls] eqn:El; [discriminate|].
    rewrite <- El.
    destruct (pack_layers_succeeds (remainder_layers st) limit
                (plan_loop_heights _ _ _ _ _ Hpos Hloop)) as [packed ->].
    discriminate.
  - intros all_pallets _.
    apply no_layer_error_bind; [|discriminate].
    apply no_layer_error_foldM. intros v d. unfold volume_step.
    apply no_layer_error_bind; [apply no_layer_error_float_of_int|discriminate].
Qed.

End Engine.

(** ** The scenario of the tests *)

(** C7. On the input of the tests (products 999-00031 and 999-00166, pallet
    120 x 105 x 195 cm with the default base of 15 cm, container 20CY) the
    engine returns, with mixing, 3 pallets, a volume with pallets close to
    6.867 and without pallets close to 5.25512 (within the tolerances of the
    tests), one full pallet and a remainder of 8 cartons for the first
    product, one full pallet and a remainder of 22 for the second; without
    mixing it returns 4 pallets, among them one labelled
    "999-00031 remainder pallet" and one "999-00166 remainder pallet". *)
Theorem scenario_results (int_of_str : string -> option Z)
  (float_of_str : string -> option float) (repr : pyval -> string) :
  calculate_palletization int_of_str float_of_str repr
    (build_example_input true) = Ok scenario_mixed /\
  CalculationResult.total_pallets scenario_mixed = 3 /\
  math_isclose (CalculationResult.volume_with_pallets_cbm scenario_mixed)
    6.867 1e-3 = true /\
  math_isclose (CalculationResult.volume_without_pallets_cbm scenario_mixed)
    5.25512 1e-5 = true /\
  map (fun plan => (ProductPlan.full_pallets plan,
                    ProductPlan.remainder_cartons plan))
      (CalculationResult.product_plans scenario_mixed) = [(1, 8); (1, 22)] /\
  calculate_palletization int_of_str float_of_str repr
    (build_example_input false) = Ok scenario_dedicated /\
  CalculationResult.total_pallets scenario_dedicated = 4 /\
  In "999-00031 remainder pallet"%string
     (map PalletDetail.label (CalculationResult.pallets scenario_dedicated)) /\
  In "999-00166 remainder pallet"%string
     (map PalletDetail.label (CalculationResult.pallets scenario_dedicated)).
Proof.
  repeat split; try (vm_compute; reflexivity).
  - right. left. reflexivity.
  - right. right. right. left. reflexivity.
Qed.

(** ** The Input Normalizer does not check signs *)

(** C2 fails on the code: an entry whose order quantity is negative is
    loaded as it is, where [_load_pallet] rejects non-positive values with
    "Pallet dimensions must be positive numbers."; the calculation then
    goes through and reports minus two full pallets. *)
Theorem load_products_accepts_negative_quantity
  (int_of_str : string -> option Z) (float_of_str : string -> option float)
  (repr : pyval -> string) :
  _load_products int_of_str float_of_str repr
    (CalculationInput.products (single_product_input false (-800) 20 195))
  = Ok [ {| ProductSpec.name := "A";
            ProductSpec.order_quantity_pcs := -800;
            ProductSpec.pcs_per_carton := 10;
            ProductSpec.carton_length_cm := 56%float;
            ProductSpec.carton_width_cm := 26%float;
            ProductSpec.carton_height_cm := 20%float |} ] /\
  exists r,
    calculate_palletization int_of_str float_of_str repr
      (single_product_input false (-800) 20 195) = Ok r /\
    map PalletDetail.count (CalculationResult.pallets r) = [-2; 1] /\
    CalculationResult.total_pallets r = -1.
Proof.
  split; [vm_compute; reflexivity|].
  eexists. split; [vm_compute; reflexivity|]. split; reflexivity.
Qed.

(** ** The dedicated remainder pallet and the packer *)

Lemma ltb_irrefl (x : float) : (x <? x)%float = false.
Proof.
  rewrite ltb_spec. unfold SFltb, SFcompare.
  destruct (Prim2SF x) as [[]|[]| |[] m e]; try reflexivity;
    rewrite Z.compare_refl, Pos.compare_cont_refl; reflexivity.
Qed.

Lemma build_layers_succeeds plan :
  OrientationPlan.cartons_per_layer (ProductPlan.orientation plan) <> 0 ->
  exists layers, _build_layers plan = Ok layers.
Proof.
  intros Hp. unfold _build_layers, int_floordiv, int_mod.
  replace (_ =? 0) with false by (symmetry; apply Z.eqb_neq; exact Hp).
  cbn [bind].
  destruct (_ <=? 0); [eauto|]. destruct (_ =? 0); eauto.
Qed.

(** What the two paths share. For a plan with a positive remainder
    (remainder and cartons per layer below [2^53], carton height not above
    the limit, as the planner ensures), the dedicated formula multiplies the
    carton height by [n = ceil(remainder / cartons_per_layer)], and [n] is
    the number of fragments that [_build_layers] yields for the plan; each
    has the carton height, together they hold the remainder, and the packer,
    given them in isolation, returns all of them, in order, in its pallets.
    So both paths stack the same [n] layers; one multiplies, the other
    adds. *)
Theorem remainder_stacks_same_layers (plan : ProductPlan.t) (limit : float) :
  let r := ProductPlan.remainder_cartons plan in
  let p := OrientationPlan.cartons_per_layer (ProductPlan.orientation plan) in
  let h := ProductSpec.carton_height_cm (ProductPlan.product plan) in
  0 < p < 2 ^ 53 -> 0 < r < 2 ^ 53 -> (limit <? h)%float = false ->
  exists n layers packed,
    (q <- int_truediv r p ;; math_ceil q) = Ok n /\
    remainder_goods_height r plan (ProductPlan.product plan)
    = int_mul_float n h /\
    _build_layers plan = Ok layers /\
    Z.of_nat (List.length layers) = n /\
    Forall (fun l => Layer.layer_height_cm l = h) layers /\
    layers_cartons layers = r /\
    _pack_layers layers limit = Ok packed /\
    List.concat packed = layers.
Proof.
  intros r p h Hp Hr Hh.
  pose proof (int_truediv_ceil r p ltac:(lia) Hp) as Hceil.
  destruct (build_layers_succeeds plan ltac:(fold p; lia)) as [layers Hbuild].
  destruct (build_layers_Ok plan layers Hbuild ltac:(fold p; lia)
              ltac:(fold r; lia)) as (Hcartons & Hlen & Hall).
  fold r in Hcartons, Hlen. fold p in Hlen.
  assert (Hheights : Forall (fun l => Layer.layer_height_cm l = h) layers).
  { eapply Forall_impl; [|exact Hall]. intros l [_ H]. exact H. }
  assert (Hfit : Forall (fun l => (limit <? Layer.layer_height_cm l)%float = false)
                        layers).
  { eapply Forall_impl; [|exact Hheights]. intros l ->. exact Hh. }
  destruct (pack_layers_succeeds layers limit Hfit) as [packed Hpack].
  exists ((r + p - 1) / p), layers, packed.
  split; [exact Hceil|]. split.
  - unfold remainder_goods_height. fold p.
    apply bind_Ok in Hceil. destruct Hceil as (q & Hq & Hc).
    rewrite Hq. cbn [bind]. rewrite Hc. reflexivity.
  - repeat (split; [assumption|]).
    rewrite (pack_layers_concat _ _ _ Hpack).
    apply sorted_reverse_flat. intros x y Hx Hy.
    rewrite Forall_forall in Hheights. unfold layer_height_lt.
    rewrite (Hheights x Hx), (Hheights y Hy). apply ltb_irrefl.
Qed.

Lemma remainder_stacks_same_layers_witness :
  0 < 8 < 2 ^ 53 /\ 0 < 44 < 2 ^ 53 /\ (180 <? 20)%float = false /\
  exists n layers packed,
    (q <- int_truediv 44 8 ;; math_ceil q) = Ok n /\
    remainder_goods_height 44 example_plan (ProductPlan.product example_plan)
    = int_mul_float n 20 /\
    _build_layers example_plan = Ok layers /\
    Z.of_nat (List.length layers) = n /\
    Forall (fun l => Layer.layer_height_cm l = 20%float) layers /\
    layers_cartons layers = 44 /\
    _pack_layers layers 180 = Ok packed /\
    List.concat packed = layers.
Proof.
  assert (H1 : 0 < 8 < 2 ^ 53) by (split; reflexivity).
  assert (H2 : 0 < 44 < 2 ^ 53) by (split; reflexivity).
  assert (H3 : (180 <? 20)%float = false) by reflexivity.
  split; [exact H1|]. split; [exact H2|]. split; [exact H3|].
  exact (remainder_stacks_same_layers example_plan 180 H1 H2 H3).
Defined.

(** Fragments of one height stay on the open pallet as long as the running
    sum of their heights, from [0.0] and in order, stays within the limit. *)
Lemma same_height_loop limit h rest : forall done running,
  (limit <? h)%float = false ->
  Forall (fun l => Layer.layer_height_cm l = h) rest ->
  same_value running (stack_height done) ->
  (forall k, (k <= List.length rest)%nat -> (0 < List.length done + k)%nat ->
             (stack_height (done ++ firstn k rest) <=? limit)%float = true) ->
  exists running',
    foldM (pack_step limit) rest
      {| closed_pallets := []; current := done; current_height := running |}
    = Ok {| closed_pallets := []; current := done ++ rest;
            current_height := running' |}.
Proof.
  induction rest as [|l rest IH]; intros done running Hh Hall Hsame Hsums.
  - exists running. rewrite app_nil_r. reflexivity.
  - inversion Hall as [|? ? Hl Hrest]; subst.
    cbn [foldM]. unfold pack_step at 1.
    cbn [closed_pallets current current_height]. rewrite Hh.
    assert (Hfit : (running + Layer.layer_height_cm l <=? limit)%float = true).
    { rewrite (same_value_leb _ _ limit (same_value_add _ _ _ Hsame)).
      rewrite <- stack_height_app.
      apply (Hsums 1%nat); cbn [List.length]; lia. }
    rewrite Hfit. cbn [bind].
    destruct (IH (done ++ [l]) (running + Layer.layer_height_cm l)%float
                Hh Hrest) as [running' E].
    + rewrite stack_height_app. apply same_value_add. exact Hsame.
    + intros k Hk _. rewrite <- app_assoc.
      apply (Hsums (S k)); cbn [List.length]; lia.
    + exists running'. rewrite E, <- app_assoc. reflexivity.
Qed.

(** Where the two paths agree on one pallet: the packer puts fragments of
    one height on a single pallet when every running sum of their heights
    stays within the limit; the goods height of that pallet is the last
    running sum, where the dedicated formula has the product. *)
Lemma same_height_in_one_pallet (layers : list Layer.t) (limit h : float) :
  layers <> [] ->
  Forall (fun l => Layer.layer_height_cm l = h) layers ->
  (forall k, (1 <= k <= List.length layers)%nat ->
             (stack_height (firstn k layers) <=? limit)%float = true) ->
  _pack_layers layers limit = Ok [layers].
Proof.
  intros Hne Hall Hsums.
  assert (Hflat : sorted_reverse layer_height_lt layers = layers).
  { apply sorted_reverse_flat. intros x y Hx Hy.
    rewrite Forall_forall in Hall. unfold layer_height_lt.
    rewrite (Hall x Hx), (Hall y Hy). apply ltb_irrefl. }
  assert (Hh : (limit <? h)%float = false).
  { destruct layers as [|l0 layers]; [contradiction Hne; reflexivity|].
    inversion Hall as [|? ? Hl0 _]; subst.
    specialize (Hsums 1%nat ltac:(cbn [List.length]; lia)).
    cbn [firstn] in Hsums.
    change (stack_height [l0]) with (0 + Layer.layer_height_cm l0)%float
      in Hsums.
    rewrite (same_value_leb _ _ limit (same_value_zero_add _)) in Hsums.
    apply leb_not_ltb. exact Hsums. }
  destruct (same_height_loop limit h layers [] 0%float Hh Hall
              (same_value_refl _)) as [running' E].
  { intros k Hk Hpos. cbn [app]. apply Hsums. cbn [List.length] in Hpos. lia. }
  unfold _pack_layers. destruct layers as [|l0 layers];
    [contradiction Hne; reflexivity|].
  rewrite Hflat, E. reflexivity.
Qed.

(** C3 fails on the code: the packer splits a remainder that the planner
    and the dedicated path put on one pallet. One product in cartons 4.4 cm
    high, 8 to a layer, on the pallet of the tests but 191 cm high: the
    goods height limit is 176 cm, the planner allows
    [floor(176 / 4.4) = 40] layers per pallet, and the 316 cartons are a
    remainder of 40 layers. In dedicated mode the engine emits one remainder
    pallet of goods height [40 * 4.4 = 176.0]. The packer, given the 40
    fragments of [_build_layers] with the same limit, adds 4.4 forty times;
    the rounded running sum passes 176 at the fortieth, and it returns two
    pallets, of 39 layers and of one. So the engine itself, in mixed mode,
    reports two pallets for this order where it reports one in dedicated
    mode. *)
Theorem packer_splits_remainder_that_fits
  (int_of_str : string -> option Z) (float_of_str : string -> option float)
  (repr : pyval -> string) :
  exists dedicated_result mixed_result plan dedicated layers g1 g2,
    (pallet <- _load_pallet float_of_str
                 (CalculationInput.pallet
                    (single_product_input false 3160 4.4 191)) ;;
     PalletSpec.goods_height_limit pallet 239) = Ok 176%float /\
    calculate_palletization int_of_str float_of_str repr
      (single_product_input false 3160 4.4 191) = Ok dedicated_result /\
    CalculationResult.product_plans dedicated_result = [plan] /\
    ProductPlan.layers_per_pallet plan = 40 /\
    OrientationPlan.cartons_per_layer (ProductPlan.orientation plan) = 8 /\
    ProductPlan.remainder_cartons plan = 316 /\
    CalculationResult.pallets dedicated_result = [dedicated] /\
    PalletDetail.goods_height_cm dedicated = 176%float /\
    CalculationResult.total_pallets dedicated_result = 1 /\
    _build_layers plan = Ok layers /\
    List.length layers = 40%nat /\
    _pack_layers layers 176 = Ok [g1; g2] /\
    List.length g1 = 39%nat /\ List.length g2 = 1%nat /\
    calculate_palletization int_of_str float_of_str repr
      (single_product_input true 3160 4.4 191) = Ok mixed_result /\
    CalculationResult.product_plans mixed_result = [plan] /\
    map PalletDetail.label (CalculationResult.pallets mixed_result)
    = ["Mixed remainder pallet #1"; "Mixed remainder pallet #2"]%string /\
    CalculationResult.total_pallets mixed_result = 2.
Proof.
  do 7 eexists.
  split; [vm_compute; reflexivity|].
  split; [vm_compute; reflexivity|].
  split; [reflexivity|]. split; [reflexivity|]. split; [reflexivity|].
  split; [reflexivity|]. split; [reflexivity|]. split; [reflexivity|].
  split; [reflexivity|].
  split; [vm_compute; reflexivity|]. split; [reflexivity|].
  split; [vm_compute; reflexivity|].
  split; [reflexivity|]. split; [reflexivity|].
  split; [vm_compute; reflexivity|].
  split; [reflexivity|]. split; reflexivity.
Qed.

(** C4 fails on the code in one respect. With a pallet 10^300 times wider
    than long and a carton 10^10 times wider than long, the orientation
    (L, W) gives a positive number of cartons per layer, yet the selector
    fails: the quotient of the swapped orientation overflows, and
    [math.floor] raises OverflowError. *)
Lemma best_orientation_fails_though_one_fits :
  (exists n,
     orientation_counts oblong_pallet
       (ProductSpec.carton_length_cm oblong_product)
       (ProductSpec.carton_width_cm oblong_product) = Ok n /\
     0 < fst n * snd n) /\
  _best_orientation oblong_product oblong_pallet = Raise OverflowError.
Proof.
  split; [|vm_compute; reflexivity].
  eexists. split; [vm_compute; reflexivity|]. vm_compute. reflexivity.
Qed.

(** ** Instances of the theorems *)

Lemma pack_layers_next_fit_witness :
  (forall l, In l example_layers ->
             (Layer.layer_height_cm l <=? 60)%float = true) /\
  exists groups,
    _pack_layers example_layers 60 = Ok groups /\
    List.concat groups = sorted_reverse layer_height_lt example_layers /\
    Forall (fun g => g <> []) groups /\
    Forall (fun g => (stack_height g <=? 60)%float = true) groups /\
    next_fit 60 (sorted_reverse layer_height_lt example_layers) [] [] 0%float
      groups.
Proof.
  assert (H : forall l, In l example_layers ->
                        (Layer.layer_height_cm l <=? 60)%float = true).
  { intros l [<-|[<-|[<-|[]]]]; reflexivity. }
  split; [exact H|]. exact (pack_layers_next_fit example_layers 60 H).
Defined.

Lemma pack_layers_stable_witness :
  (forall l, In l example_layers ->
             is_nan (Layer.layer_height_cm l) = false) /\
  _pack_layers example_layers 60 = Ok [[layer_y; layer_x]; [layer_z]] /\
  filter (fun l => (Layer.layer_height_cm l =? 20)%float)
         (List.concat [[layer_y; layer_x]; [layer_z]])
  = filter (fun l => (Layer.layer_height_cm l =? 20)%float) example_layers.
Proof.
  assert (H1 : forall l, In l example_layers ->
                         is_nan (Layer.layer_height_cm l) = false).
  { intros l [<-|[<-|[<-|[]]]]; reflexivity. }
  assert (H2 : _pack_layers example_layers 60
               = Ok [[layer_y; layer_x]; [layer_z]]) by reflexivity.
  split; [exact H1|]. split; [exact H2|].
  exact (pack_layers_stable example_layers 60 _ 20 H1 H2).
Defined.

Lemma plan_accounts_for_cartons_witness :
  calculate_palletization decimal_int_of_str decimal_float_of_str plain_repr
    (build_example_input true) = Ok scenario_mixed /\
  In scenario_plan_a (CalculationResult.product_plans scenario_mixed) /\
  exists cartons_required,
    (q <- int_truediv 800 10 ;; math_ceil q) = Ok cartons_required /\
    1 * 72 + 8 = cartons_required /\
    (0 <= 800 < 2 ^ 53 -> 0 < 10 < 2 ^ 53 ->
     cartons_required = (800 + 10 - 1) / 10).
Proof.
  assert (H1 : calculate_palletization decimal_int_of_str decimal_float_of_str
                 plain_repr (build_example_input true) = Ok scenario_mixed)
    by (vm_compute; reflexivity).
  assert (H2 : In scenario_plan_a
                  (CalculationResult.product_plans scenario_mixed))
    by (left; reflexivity).
  split; [exact H1|]. split; [exact H2|].
  exact (plan_accounts_for_cartons decimal_int_of_str decimal_float_of_str
           plain_repr (build_example_input true) scenario_mixed
           scenario_plan_a H1 H2).
Defined.

Lemma totals_are_sums_witness :
  calculate_palletization decimal_int_of_str decimal_float_of_str plain_repr
    (build_example_input true) = Ok scenario_mixed /\
  CalculationResult.total_pallets scenario_mixed
  = sum_Z (map PalletDetail.count (CalculationResult.pallets scenario_mixed)) /\
  (exists pallet,
     _load_pallet decimal_float_of_str
       (CalculationInput.pallet (build_example_input true)) = Ok pallet /\
     volume_sum pallet (CalculationResult.pallets scenario_mixed) 0%float
     = Ok (CalculationResult.volume_with_pallets_cbm scenario_mixed)) /\
  CalculationResult.volume_with_pallets_cuft scenario_mixed
  = (CalculationResult.volume_with_pallets_cbm scenario_mixed
     * 35.3146667)%float /\
  CalculationResult.volume_without_pallets_cuft scenario_mixed
  = (CalculationResult.volume_without_pallets_cbm scenario_mixed
     * 35.3146667)%float.
Proof.
  assert (H : calculate_palletization decimal_int_of_str decimal_float_of_str
                plain_repr (build_example_input true) = Ok scenario_mixed)
    by (vm_compute; reflexivity).
  split; [exact H|].
  exact (totals_are_sums decimal_int_of_str decimal_float_of_str plain_repr
           (build_example_input true) scenario_mixed H).
Defined.

Lemma cartons_are_conserved_witness :
  calculate_palletization decimal_int_of_str decimal_float_of_str plain_repr
    (build_example_input true) = Ok scenario_mixed /\
  pallets_cartons (CalculationResult.pallets scenario_mixed)
  = CalculationResult.total_cartons scenario_mixed /\
  exists products required,
    _load_products decimal_int_of_str decimal_float_of_str plain_repr
      (CalculationInput.products (build_example_input true)) = Ok products /\
    map ProductPlan.product (CalculationResult.product_plans scenario_mixed)
    = products /\
    Forall2 (fun product cr => ProductSpec.cartons_required product = Ok cr)
            products required /\
    CalculationResult.total_cartons scenario_mixed = sum_Z required.
Proof.
  assert (H : calculate_palletization decimal_int_of_str decimal_float_of_str
                plain_repr (build_example_input true) = Ok scenario_mixed)
    by (vm_compute; reflexivity).
  split; [exact H|].
  exact (cartons_are_conserved decimal_int_of_str decimal_float_of_str
           plain_repr (build_example_input true) scenario_mixed H).
Defined.

(** * Further properties of the engine *)

(** ** The Input Normalizer *)

Lemma except_invalid_Ok {A : Type} (m : message) (r : result A) (a : A) :
  except_invalid m r = Ok a <-> r = Ok a.
Proof.
  destruct r as [x|[]]; cbn; split; intros H; try discriminate; exact H.
Qed.

Section NormalizerFacts.
Variable int_of_str : string -> option Z.
Variable float_of_str : string -> option float.
Variable repr : pyval -> string.

Local Abbreviation load_one := (load_product int_of_str float_of_str repr).
Local Abbreviation load_all := (_load_products int_of_str float_of_str repr).

(** The loop of [_load_products] appends one product per entry. *)
Lemma load_loop_Ok raws : forall acc ps,
  foldM (fun products raw =>
           product <- except_invalid (InvalidProductSpecification raw)
                        (load_one raw) ;;
           Ok (products ++ [product]))
        raws acc = Ok ps
  <-> exists new, ps = acc ++ new /\
                  Forall2 (fun raw p => load_one raw = Ok p) raws new.
Proof.
  induction raws as [|raw raws IH]; intros acc ps; cbn [foldM].
  - split.
    + intros H. injection H as <-. exists []. rewrite app_nil_r.
      split; [reflexivity|constructor].
    + intros (new & -> & H). inversion H. rewrite app_nil_r. reflexivity.
  - split.
    + intros H. apply bind_Ok in H. destruct H as (acc1 & H1 & H2).
      apply bind_Ok in H1. destruct H1 as (p & Hp & H1). injection H1 as <-.
      apply except_invalid_Ok in Hp.
      apply IH in H2. destruct H2 as (new & -> & Hnew).
      exists (p :: new). rewrite <- app_assoc. split; [reflexivity|].
      constructor; assumption.
    + intros (new & -> & H). inversion H as [|? p ? new' Hp Hrest]; subst.
      rewrite Hp. cbn [except_invalid bind]. apply IH.
      exists new'. rewrite <- app_assoc. split; [reflexivity|exact Hrest].
Qed.

(** X1. [_load_products] succeeds exactly on a non-empty list of entries
    each of which can be read, and it returns the products of the entries
    one for one, in the order of the list. *)
Theorem load_products_one_per_entry (raw_products : list pyval)
  (products : list ProductSpec.t) :
  load_all raw_products = Ok products
  <-> raw_products <> [] /\
      Forall2 (fun raw product => load_one raw = Ok product)
              raw_products products.
Proof.
  unfold _load_products. split.
  - intros H. apply bind_Ok in H. destruct H as (ps & Hloop & H).
    apply load_loop_Ok in Hloop. destruct Hloop as (new & -> & Hnew).
    cbn [app] in H. destruct new as [|p new]; [discriminate|].
    injection H as <-. split; [|exact Hnew].
    intros ->. inversion Hnew.
  - intros [Hne Hall].
    assert (Hloop := proj2 (load_loop_Ok raw_products [] products)
                       (ex_intro _ products (conj eq_refl Hall))).
    rewrite Hloop. cbn [bind].
    destruct products as [|p ps]; [|reflexivity].
    inversion Hall; subst. contradiction Hne; reflexivity.
Qed.

(** X2. [_load_products] stops at the first entry that cannot be read: a
    KeyError, TypeError or ValueError of the conversion becomes the
    validation error that names that entry, any other exception comes out
    as it is, and the entries behind it are not looked at. *)
Theorem load_products_first_failure (good : list pyval) (bad : pyval)
  (rest : list pyval) (e : exn) :
  Forall (fun raw => exists product, load_one raw = Ok product) good ->
  load_one bad = Raise e ->
  load_all (good ++ bad :: rest)
  = match e with
    | KeyError | TypeError | ValueError _ =>
        Raise (ValueError (InvalidProductSpecification bad))
    | _ => Raise e
    end.
Proof.
  intros Hgood Hbad. unfold _load_products.
  assert (Hloop : forall acc,
            foldM (fun products raw =>
                     product <- except_invalid (InvalidProductSpecification raw)
                                  (load_one raw) ;;
                     Ok (products ++ [product]))
                  (good ++ bad :: rest) acc
            = except_invalid (InvalidProductSpecification bad) (Raise e)).
  { induction Hgood as [|raw good [p Hp] _ IH]; intros acc; cbn [app foldM].
    - rewrite Hbad. destruct e; reflexivity.
    - rewrite Hp. cbn [except_invalid bind]. apply IH. }
  rewrite Hloop. destruct e; reflexivity.
Qed.

(** X3. A carton_dimensions_cm list with fewer than three numbers is not
    reported as an invalid product: the IndexError of the missing element
    is not among the exceptions that [_load_products] converts, so it
    leaves the loader, and the engine, as an IndexError. *)
Theorem short_dimensions_raise_IndexError (data : CalculationInput.t)
  (entry : list (string * pyval)) (dims rest : list pyval) :
  CalculationInput.products data = PyDict entry :: rest ->
  dict_lookup entry "carton_dimensions_cm" = Some (PyList dims) ->
  (List.length dims < 3)%nat ->
  Forall (fun v => exists f, py_float float_of_str v = Ok f) dims ->
  load_all (PyDict entry :: rest) = Raise IndexError /\
  calculate_palletization int_of_str float_of_str repr data = Raise IndexError.
Proof.
  intros Hdata Hdims Hlen Hnum.
  assert (Hone : load_one (PyDict entry) = Raise IndexError).
  { unfold load_product. cbn [getitem_key]. rewrite Hdims. cbn [bind].
    destruct dims as [|d0 dims]; [reflexivity|].
    inversion Hnum as [|? ? [f0 H0] Hnum1]; subst.
    cbn [getitem_index nth_error bind]. rewrite H0. cbn [bind].
    destruct dims as [|d1 dims]; [reflexivity|].
    inversion Hnum1 as [|? ? [f1 H1] Hnum2]; subst.
    cbn [nth_error bind]. rewrite H1. cbn [bind].
    destruct dims as [|d2 dims]; [reflexivity|].
    cbn [List.length] in Hlen. lia. }
  assert (Hall : load_all (PyDict entry :: rest) = Raise IndexError).
  { unfold _load_products. cbn [foldM]. rewrite Hone. reflexivity. }
  split; [exact Hall|].
  unfold calculate_palletization. rewrite Hdata, Hall. reflexivity.
Qed.

(** X4. An entry with a str name, int quantities and three float
    dimensions is loaded as exactly these values: nothing is rounded,
    defaulted or reordered. *)
Theorem load_products_typed_entries (p : ProductSpec.t)
  (ps : list ProductSpec.t) :
  load_all (map product_entry (p :: ps)) = Ok (p :: ps).
Proof.
  unfold _load_products.
  assert (Hloop := proj2 (load_loop_Ok (map product_entry (p :: ps)) []
                            (p :: ps))).
  rewrite Hloop; [reflexivity|].
  exists (p :: ps). split; [reflexivity|].
  generalize (p :: ps). intros l.
  induction l as [|x l IH]; constructor; [|exact IH].
  destruct x; reflexivity.
Qed.

End NormalizerFacts.

(** ** The pallet of the Input Normalizer *)

Lemma not_leb_ltb (x y : float) :
  (x <=? y)%float = false ->
  (y <? x)%float = true \/ is_nan x = true \/ is_nan y = true.
Proof.
  unfold is_nan. rewrite leb_spec, ltb_spec, !eqb_spec.
  unfold SFleb, SFltb, SFeqb, SFcompare.
  destruct (Prim2SF x) as [[]|[]| |[] mx ex],
           (Prim2SF y) as [[]|[]| |[] my ey];
    try discriminate; auto; order_cases; auto.
Qed.

Lemma positive_or_nan (v : float) :
  (v <=? 0)%float = false -> (0 <? v)%float = true \/ is_nan v = true.
Proof.
  intros H. destruct (not_leb_ltb _ _ H) as [?|[?|?]]; auto. discriminate.
Qed.

Section PalletFacts.
Variable float_of_str : string -> option float.

Local Abbreviation to_float := (py_float float_of_str).
Local Abbreviation load_pallet := (_load_pallet float_of_str).

(** What a successful [_load_pallet] has read and checked. *)
Lemma load_pallet_Ok raw_pallet pallet :
  load_pallet raw_pallet = Ok pallet ->
  exists d raw_length raw_width raw_height,
    raw_pallet = PyDict d /\
    dict_lookup d "length_cm" = Some raw_length /\
    to_float raw_length = Ok (PalletSpec.length_cm pallet) /\
    dict_lookup d "width_cm" = Some raw_width /\
    to_float raw_width = Ok (PalletSpec.width_cm pallet) /\
    dict_lookup d "height_cm" = Some raw_height /\
    to_float raw_height = Ok (PalletSpec.height_cm pallet) /\
    to_float (match dict_lookup d "base_height_cm" with
              | Some raw_base => raw_base
              | None => PyFloat 15
              end) = Ok (PalletSpec.base_height_cm pallet) /\
    existsb (fun value => (value <=? 0)%float)
      [PalletSpec.length_cm pallet; PalletSpec.width_cm pallet;
       PalletSpec.height_cm pallet; PalletSpec.base_height_cm pallet] = false /\
    (PalletSpec.height_cm pallet <=? PalletSpec.base_height_cm pallet)%float
    = false.
Proof.
  unfold _load_pallet. intros H.
  apply bind_Ok in H. destruct H as ([[[l w] h] b] & Hread & H).
  apply except_invalid_Ok in Hread.
  destruct (existsb _ _) eqn:Hpos in H; [discriminate|].
  destruct (h <=? b)%float eqn:Hbase in H; [discriminate|].
  injection H as <-. cbn [PalletSpec.length_cm PalletSpec.width_cm
                          PalletSpec.height_cm PalletSpec.base_height_cm].
  destruct raw_pallet as [| | | | | |d]; try discriminate Hread.
  exists d. cbn [getitem_key get_default] in Hread.
  destruct (dict_lookup d "length_cm") as [rl|]; [|discriminate Hread].
  cbn [bind] in Hread.
  apply bind_Ok in Hread. destruct Hread as (l' & Hl & Hread).
  destruct (dict_lookup d "width_cm") as [rw|]; [|discriminate Hread].
  cbn [bind] in Hread.
  apply bind_Ok in Hread. destruct Hread as (w' & Hw & Hread).
  destruct (dict_lookup d "height_cm") as [rh|]; [|discriminate Hread].
  cbn [bind] in Hread.
  apply bind_Ok in Hread. destruct Hread as (h' & Hh & Hread).
  exists rl, rw, rh.
  destruct (dict_lookup d "base_height_cm") as [rb|]; cbn [bind] in Hread;
    apply bind_Ok in Hread; destruct Hread as (b' & Hb & Hread);
    injection Hread as <- <- <- <-; auto 12.
Qed.

(** X5. A pallet that [_load_pallet] returns has four dimensions above
    zero and a base lower than its height, or a NaN where the comparison
    says nothing: [value <= 0] and [base >= height] are both false of a NaN,
    so a NaN (the JSON literal, or the text "nan") passes the two checks. *)
Theorem load_pallet_checked (raw_pallet : pyval) (pallet : PalletSpec.t) :
  load_pallet raw_pallet = Ok pallet ->
  Forall (fun value => (0 <? value)%float = true \/ is_nan value = true)
    [PalletSpec.length_cm pallet; PalletSpec.width_cm pallet;
     PalletSpec.height_cm pallet; PalletSpec.base_height_cm pallet] /\
  ((PalletSpec.base_height_cm pallet <? PalletSpec.height_cm pallet)%float
   = true \/
   is_nan (PalletSpec.base_height_cm pallet) = true \/
   is_nan (PalletSpec.height_cm pallet) = true).
Proof.
  intros H. apply load_pallet_Ok in H.
  destruct H as (d & rl & rw & rh & _ & _ & _ & _ & _ & _ & _ & _ & Hpos
                 & Hbase).
  split.
  - cbn [existsb] in Hpos. rewrite !orb_false_iff in Hpos.
    destruct Hpos as (Hl & Hw & Hh & Hb & _).
    repeat (apply Forall_cons; [apply positive_or_nan; assumption|]).
    apply Forall_nil.
  - destruct (not_leb_ltb _ _ Hbase) as [?|[?|?]]; auto.
Qed.

(** X6. When the pallet record has no key base_height_cm, the base of the
    loaded pallet is 15 cm. *)
Theorem load_pallet_default_base (d : list (string * pyval))
  (pallet : PalletSpec.t) :
  dict_lookup d "base_height_cm" = None ->
  load_pallet (PyDict d) = Ok pallet ->
  PalletSpec.base_height_cm pallet = 15%float.
Proof.
  intros Hnone H. apply load_pallet_Ok in H.
  destruct H as (d' & rl & rw & rh & Hd & _ & _ & _ & _ & _ & _ & Hb & _).
  injection Hd as <-. rewrite Hnone in Hb. cbn in Hb. congruence.
Qed.

Lemma float_of_int_Raise n e : float_of_int n = Raise e -> e = OverflowError.
Proof.
  unfold float_of_int.
  destruct (binary_normalize prec emax n 0 false); intros H;
    try discriminate; congruence.
Qed.

Lemma py_float_Raise v e :
  to_float v = Raise e ->
  e = OverflowError \/ e = TypeError \/ e = ValueError BuiltinMessage.
Proof.
  destruct v as [|b|z|f|s|l|d]; cbn; intros H; try discriminate H;
    try (injection H as <-; auto; fail).
  - apply float_of_int_Raise in H. auto.
  - destruct (float_of_str s); [discriminate|]. injection H as <-. auto.
Qed.

(** X7. [_load_pallet] fails in four ways only: with one of its three
    validation errors, or with the OverflowError of [float()] on an int too
    large for a float, which is not among the exceptions it converts. A
    missing key, a value of a wrong type and a record that is no dict all
    end as "Invalid pallet specification.". *)
Theorem load_pallet_failures (raw_pallet : pyval) (e : exn) :
  load_pallet raw_pallet = Raise e ->
  e = OverflowError \/
  e = ValueError InvalidPalletSpecification \/
  e = ValueError PalletDimensionsNotPositive \/
  e = ValueError PalletBaseHeightTooHigh.
Proof.
  unfold _load_pallet.
  match goal with
  | |- bind (except_invalid _ ?r) _ = _ -> _ =>
      destruct r as [[[[l w] h] b]|e0] eqn:Hread
  end.
  - cbn [except_invalid bind].
    destruct (existsb _ _); [intros H; injection H as <-; auto|].
    destruct (h <=? b)%float; intros H; [injection H as <-; auto|discriminate].
  - assert (He0 : e0 = OverflowError \/ e0 = TypeError \/ e0 = KeyError
                  \/ e0 = ValueError BuiltinMessage).
    { destruct raw_pallet as [| | | | | |d];
        try (cbn in Hread; injection Hread as <-; auto; fail).
      cbn [getitem_key get_default] in Hread.
      repeat
        match type of Hread with
        | bind (match dict_lookup ?d ?k with _ => _ end) _ = _ =>
            destruct (dict_lookup d k);
              cbn [bind] in Hread;
              [|try (injection Hread as <-; auto 6; fail)]
        | bind (to_float ?v) _ = _ =>
            let E := fresh "E" in
            destruct (to_float v) eqn:E; cbn [bind] in Hread;
              [|injection Hread as <-; apply py_float_Raise in E;
                destruct E as [?|[?|?]]; auto 6]
        | bind (Ok _) _ = _ => cbn [bind] in Hread
        end; try discriminate Hread. }
    destruct He0 as [->|[->|[->| ->]]]; cbn; intros H; injection H as <-; auto.
Qed.

End PalletFacts.

(** ** The container code *)

Lemma upper_char_idempotent c : upper_char (upper_char c) = upper_char c.
Proof. destruct c as [[] [] [] [] [] [] [] []]; reflexivity. Qed.

Lemma str_upper_idempotent s : str_upper (str_upper s) = str_upper s.
Proof.
  induction s as [|c s IH]; [reflexivity|].
  cbn [str_upper]. rewrite upper_char_idempotent, IH. reflexivity.
Qed.

Section ContainerFacts.
Variable int_of_str : string -> option Z.
Variable float_of_str : string -> option float.
Variable repr : pyval -> string.

Local Abbreviation calculate :=
  (calculate_palletization int_of_str float_of_str repr).

(** The engine looks at the container code only to resolve it. *)
Lemma calculate_by_resolved_height products pallet mixed code1 code2 :
  _resolve_container_height code1 = _resolve_container_height code2 ->
  calculate {| CalculationInput.products := products;
               CalculationInput.pallet := pallet;
               CalculationInput.allow_mixed_remainders := mixed;
               CalculationInput.container_height := code1 |}
  = calculate {| CalculationInput.products := products;
                 CalculationInput.pallet := pallet;
                 CalculationInput.allow_mixed_remainders := mixed;
                 CalculationInput.container_height := code2 |}.
Proof.
  intros H. unfold calculate_palletization.
  cbn [CalculationInput.products CalculationInput.pallet
       CalculationInput.allow_mixed_remainders
       CalculationInput.container_height].
  rewrite H. reflexivity.
Qed.

(** X8. The container code is read without regard to letter case: a code
    that is accepted gives the same outcome, result or failure, as the same
    code written in capitals. *)
Theorem container_code_ignores_case (products : list pyval) (pallet : pyval)
  (mixed : bool) (code : string) (height_cm : float) :
  _resolve_container_height code = Ok height_cm ->
  calculate {| CalculationInput.products := products;
               CalculationInput.pallet := pallet;
               CalculationInput.allow_mixed_remainders := mixed;
               CalculationInput.container_height := str_upper code |}
  = calculate {| CalculationInput.products := products;
                 CalculationInput.pallet := pallet;
                 CalculationInput.allow_mixed_remainders := mixed;
                 CalculationInput.container_height := code |}.
Proof.
  intros H. apply calculate_by_resolved_height.
  unfold _resolve_container_height in *. rewrite str_upper_idempotent.
  destruct (dict_lookup _CONTAINER_HEIGHTS_CM (str_upper code));
    [reflexivity|discriminate].
Qed.

(** X9. The codes 20CY and 40CY stand for the same inner height, 239 cm:
    whatever the products, the pallet and the remainder mode, the engine
    gives the same outcome for both. *)
Theorem standard_containers_agree (products : list pyval) (pallet : pyval)
  (mixed : bool) :
  calculate {| CalculationInput.products := products;
               CalculationInput.pallet := pallet;
               CalculationInput.allow_mixed_remainders := mixed;
               CalculationInput.container_height := "20CY" |}
  = calculate {| CalculationInput.products := products;
                 CalculationInput.pallet := pallet;
                 CalculationInput.allow_mixed_remainders := mixed;
                 CalculationInput.container_height := "40CY" |}.
Proof. apply calculate_by_resolved_height. reflexivity. Qed.

End ContainerFacts.

(** ** The fragments of a remainder *)

Lemma nth_error_repeat {A : Type} (x y : A) n i :
  nth_error (repeat x n) i = Some y -> y = x.
Proof. intros H. apply nth_error_In in H. apply repeat_spec in H. exact H. Qed.

(** X10. For a plan with a positive remainder and a positive number of
    cartons per layer, [_build_layers] returns
    [ceil(remainder / cartons_per_layer)] fragments that together hold the
    remainder; each has the product's name and carton height and holds at
    least one carton and at most a layer's worth, and only the last one can
    hold less than a full layer. *)
Theorem build_layers_fragments (plan : ProductPlan.t) :
  let per_layer :=
    OrientationPlan.cartons_per_layer (ProductPlan.orientation plan) in
  let remainder := ProductPlan.remainder_cartons plan in
  0 < per_layer -> 0 < remainder ->
  exists layers,
    _build_layers plan = Ok layers /\
    Z.of_nat (List.length layers) = (remainder + per_layer - 1) / per_layer /\
    layers_cartons layers = remainder /\
    Forall (fun l =>
              Layer.product_name l = ProductSpec.name (ProductPlan.product plan) /\
              Layer.layer_height_cm l
              = ProductSpec.carton_height_cm (ProductPlan.product plan) /\
              0 < Layer.cartons l <= per_layer)
           layers /\
    (forall i l, (S i < List.length layers)%nat ->
                 nth_error layers i = Some l -> Layer.cartons l = per_layer).
Proof.
  intros per_layer remainder Hper Hrem.
  destruct (build_layers_succeeds plan) as [layers Hbuild];
    [fold per_layer; lia|].
  exists layers. split; [exact Hbuild|].
  destruct (build_layers_Ok plan layers Hbuild) as (Hsum & Hlen & Hname);
    [exact Hper|fold remainder; lia|].
  fold per_layer in Hlen. fold remainder in Hlen, Hsum.
  split; [exact Hlen|]. split; [exact Hsum|].
  unfold _build_layers, int_floordiv, int_mod in Hbuild.
  fold per_layer in Hbuild. fold remainder in Hbuild.
  replace (remainder <=? 0) with false in Hbuild
    by (symmetry; apply Z.leb_gt; exact Hrem).
  replace (per_layer =? 0) with false in Hbuild
    by (symmetry; apply Z.eqb_neq; lia).
  cbn [bind] in Hbuild.
  pose proof (Z.mod_pos_bound remainder per_layer Hper) as Hmod.
  assert (Hq : 0 <= remainder / per_layer) by (apply Z.div_pos; lia).
  set (full := {| Layer.product_name := ProductSpec.name (ProductPlan.product plan);
                  Layer.cartons := per_layer;
                  Layer.layer_height_cm :=
                    ProductSpec.carton_height_cm (ProductPlan.product plan) |})
    in Hbuild.
  assert (Hfull : Forall (fun l =>
              Layer.product_name l = ProductSpec.name (ProductPlan.product plan) /\
              Layer.layer_height_cm l
              = ProductSpec.carton_height_cm (ProductPlan.product plan) /\
              0 < Layer.cartons l <= per_layer)
            (repeat full (Z.to_nat (remainder / per_layer)))).
  { apply Forall_forall. intros l Hl. apply repeat_spec in Hl. subst l.
    cbn. repeat split; lia. }
  destruct (remainder mod per_layer =? 0) eqn:Hz; injection Hbuild as <-.
  - split; [exact Hfull|].
    intros i l _ Hi. apply nth_error_repeat in Hi. subst l. reflexivity.
  - apply Z.eqb_neq in Hz. split.
    + apply Forall_app. split; [exact Hfull|].
      constructor; [|constructor]. cbn. repeat split; lia.
    + intros i l Hi Hnth. rewrite length_app in Hi. cbn [List.length] in Hi.
      rewrite nth_error_app1 in Hnth by lia.
      apply nth_error_repeat in Hnth. subst l. reflexivity.
Qed.

(** ** More on the Remainder Packer *)

(** X11. [_pack_layers] loses and invents nothing: the pallets it returns
    hold, taken together, exactly the fragments of the input, each as often
    as the input has it; and it returns no pallet only for no fragment. *)
Theorem pack_layers_keeps_fragments (layers : list Layer.t) (limit : float)
  (groups : list (list Layer.t)) :
  _pack_layers layers limit = Ok groups ->
  Permutation (List.concat groups) layers /\
  (groups = [] <-> layers = []).
Proof.
  intros H. pose proof (pack_layers_concat _ _ _ H) as Hc.
  assert (Hperm : Permutation (List.concat groups) layers).
  { rewrite Hc. apply sorted_reverse_perm. }
  split; [exact Hperm|]. split.
  - intros ->. apply Permutation_nil. exact Hperm.
  - intros ->. cbn in H. injection H as <-. reflexivity.
Qed.

Lemma pack_loop_checked limit ordered : forall st st',
  foldM (pack_step limit) ordered st = Ok st' ->
  Forall (fun l => (limit <? Layer.layer_height_cm l)%float = false) ordered.
Proof.
  induction ordered as [|l ordered IH]; intros st st' H; [constructor|].
  cbn [foldM] in H. apply bind_Ok in H. destruct H as (st1 & H1 & H).
  constructor; [|apply (IH _ _ H)].
  unfold pack_step in H1.
  destruct (limit <? Layer.layer_height_cm l)%float; [discriminate|reflexivity].
Qed.

Lemma pack_loop_Raise limit ordered : forall st e,
  foldM (pack_step limit) ordered st = Raise e ->
  e = ValueError LayerHeightExceedsLimit /\
  Exists (fun l => (limit <? Layer.layer_height_cm l)%float = true) ordered.
Proof.
  induction ordered as [|l ordered IH]; intros st e H; [discriminate|].
  cbn [foldM] in H. unfold pack_step at 1 in H.
  destruct (limit <? Layer.layer_height_cm l)%float eqn:Hl.
  - cbn in H. injection H as <-. split; [reflexivity|]. left. exact Hl.
  - destruct (current_height st + Layer.layer_height_cm l <=? limit)%float;
      cbn [bind] in H; apply IH in H; destruct H as [-> H];
      (split; [reflexivity|right; exact H]).
Qed.

(** X12. [_pack_layers] fails exactly when some fragment is taller than the
    limit, and then with "Layer height exceeds available stacking limit.";
    it has no other failure. *)
Theorem pack_layers_failure (layers : list Layer.t) (limit : float) :
  match _pack_layers layers limit with
  | Ok _ =>
      Forall (fun l => (limit <? Layer.layer_height_cm l)%float = false) layers
  | Raise e =>
      e = ValueError LayerHeightExceedsLimit /\
      Exists (fun l => (limit <? Layer.layer_height_cm l)%float = true) layers
  end.
Proof.
  unfold _pack_layers. destruct layers as [|l0 layers]; [constructor|].
  pose proof (sorted_reverse_perm layer_height_lt (l0 :: layers)) as Hperm.
  destruct (foldM (pack_step limit) (sorted_reverse layer_height_lt (l0 :: layers))
              {| closed_pallets := []; current := []; current_height := 0 |})
    as [st|e] eqn:E; cbn [bind].
  - apply pack_loop_checked in E.
    assert (Hall : Forall (fun l => (limit <? Layer.layer_height_cm l)%float = false)
                          (l0 :: layers)).
    { apply Forall_forall. intros x Hx. rewrite Forall_forall in E. apply E.
      apply (Permutation_in _ (Permutation_sym Hperm)). exact Hx. }
    destruct (current st); exact Hall.
  - apply pack_loop_Raise in E. destruct E as [-> E]. split; [reflexivity|].
    apply Exists_exists in E. destruct E as (x & Hx & Hl).
    apply Exists_exists. exists x. split; [|exact Hl].
    apply (Permutation_in _ Hperm). exact Hx.
Qed.

Lemma adjacent_prefix {A : Type} (R : A -> A -> Prop) (l : list A) x :
  adjacent R (l ++ [x]) -> adjacent R l.
Proof.
  intros H i a b Ha Hb. apply (H i a b).
  - rewrite nth_error_app1; [exact Ha|]. apply nth_error_Some. congruence.
  - rewrite nth_error_app1; [exact Hb|]. apply nth_error_Some. congruence.
Qed.

Lemma adjacent_snoc {A : Type} (R : A -> A -> Prop) (l : list A) x y :
  adjacent R (l ++ [x]) -> R x y -> adjacent R ((l ++ [x]) ++ [y]).
Proof.
  intros H Hxy i a b Ha Hb.
  assert (Hi : (S i < List.length ((l ++ [x]) ++ [y]))%nat)
    by (apply nth_error_Some; congruence).
  rewrite !length_app in Hi. cbn [List.length] in Hi.
  destruct (Nat.eq_dec (S i) (List.length l + 1)) as [Heq|Hne].
  - rewrite nth_error_app2 in Hb by (rewrite length_app; cbn; lia).
    rewrite length_app in Hb. cbn [List.length] in Hb.
    replace (S i - (List.length l + 1))%nat with 0%nat in Hb by lia.
    injection Hb as <-.
    rewrite nth_error_app1 in Ha by (rewrite length_app; cbn; lia).
    rewrite nth_error_app2 in Ha by lia.
    replace (i - List.length l)%nat with 0%nat in Ha by lia.
    injection Ha as <-. exact Hxy.
  - apply (H i a b).
    + rewrite nth_error_app1 in Ha by (rewrite length_app; cbn; lia). exact Ha.
    + rewrite nth_error_app1 in Hb by (rewrite length_app; cbn; lia). exact Hb.
Qed.

(** Replacing the last element by one that is in the relation with the same
    elements. *)
Lemma adjacent_last {A : Type} (R : A -> A -> Prop) (l : list A) x x' :
  adjacent R (l ++ [x]) -> (forall a, R a x -> R a x') ->
  adjacent R (l ++ [x']).
Proof.
  intros H Hx i a b Ha Hb.
  assert (Hi : (S i < List.length (l ++ [x']))%nat)
    by (apply nth_error_Some; congruence).
  rewrite length_app in Hi. cbn [List.length] in Hi.
  rewrite nth_error_app1 in Ha by lia.
  destruct (Nat.eq_dec (S i) (List.length l)) as [Heq|Hne].
  - rewrite nth_error_app2 in Hb by lia.
    replace (S i - List.length l)%nat with 0%nat in Hb by lia.
    injection Hb as <-. apply Hx. apply (H i a x).
    + rewrite nth_error_app1 by lia. exact Ha.
    + rewrite nth_error_app2 by lia.
      replace (S i - List.length l)%nat with 0%nat by lia. reflexivity.
  - rewrite nth_error_app1 in Hb by lia. apply (H i a b).
    + rewrite nth_error_app1 by lia. exact Ha.
    + rewrite nth_error_app1 by lia. exact Hb.
Qed.

(** The loop opens a pallet only for a fragment that does not fit. *)
Lemma pack_loop_lack_of_room limit ordered : forall st st',
  foldM (pack_step limit) ordered st = Ok st' ->
  adjacent (opened_for_lack_of_room limit) (pallets_so_far st) ->
  same_value (current_height st) (stack_height (current st)) ->
  adjacent (opened_for_lack_of_room limit) (pallets_so_far st') /\
  same_value (current_height st') (stack_height (current st')).
Proof.
  induction ordered as [|l ordered IH]; intros st st' H Hadj Hsame.
  - injection H as <-. split; assumption.
  - cbn [foldM] in H. apply bind_Ok in H. destruct H as (st1 & H1 & H).
    apply (IH _ _ H); unfold pack_step in H1;
      destruct (limit <? Layer.layer_height_cm l)%float; try discriminate;
      destruct (current_height st + Layer.layer_height_cm l <=? limit)%float
        eqn:Hfit; injection H1 as <-; unfold pallets_so_far in *;
      cbn [closed_pallets current current_height].
    + apply (adjacent_last _ _ (current st)); [exact Hadj|].
      intros a (fragment & rest & -> & Hroom).
      exists fragment, (rest ++ [l]). split; [reflexivity|exact Hroom].
    + apply adjacent_snoc; [exact Hadj|].
      exists l, []. split; [reflexivity|].
      rewrite <- (same_value_leb _ _ limit (same_value_add _ _ _ Hsame)).
      exact Hfit.
    + rewrite stack_height_app. apply same_value_add. exact Hsame.
    + apply same_value_sym.
      change (stack_height [l]) with (0 + Layer.layer_height_cm l)%float.
      apply same_value_zero_add.
Qed.

(** X13. The packer opens a new pallet only when it must: every pallet
    behind the first starts with a fragment that did not fit on the pallet
    before it, whose goods height plus the height of that fragment is not
    within the limit. *)
Theorem pack_layers_opens_when_full (layers : list Layer.t) (limit : float)
  (groups : list (list Layer.t)) :
  _pack_layers layers limit = Ok groups ->
  adjacent (opened_for_lack_of_room limit) groups.
Proof.
  unfold _pack_layers. destruct layers as [|l0 layers].
  - intros H. injection H as <-. intros i x y Hx. destruct i; discriminate.
  - intros H. apply bind_Ok in H. destruct H as (st & Hloop & H).
    apply pack_loop_lack_of_room in Hloop.
    + destruct Hloop as [Hadj _]. unfold pallets_so_far in Hadj.
      destruct (current st); injection H as <-;
        [apply (adjacent_prefix _ _ _ Hadj)|exact Hadj].
    + intros i x y Hx Hy. destruct i as [|[|i]]; discriminate.
    + apply same_value_refl.
Qed.

(** ** More on the Orientation Selector *)

Lemma key_lt_asym k1 k2 : key_lt k1 k2 = true -> key_lt k2 k1 = false.
Proof.
  destruct k1 as [[a1 a2] a3], k2 as [[b1 b2] b3]. unfold key_lt.
  destruct (Z.eqb_spec a1 b1), (Z.eqb_spec b1 a1), (Z.eqb_spec a2 b2),
           (Z.eqb_spec b2 a2); try lia;
    rewrite ?Z.ltb_lt, ?Z.ltb_ge; lia.
Qed.

Lemma key_lt_total k1 k2 :
  key_lt k1 k2 = false -> key_lt k2 k1 = false -> k1 = k2.
Proof.
  destruct k1 as [[a1 a2] a3], k2 as [[b1 b2] b3]. unfold key_lt.
  destruct (Z.eqb_spec a1 b1), (Z.eqb_spec b1 a1), (Z.eqb_spec a2 b2),
           (Z.eqb_spec b2 a2); try lia;
    rewrite ?Z.ltb_ge; intros; try lia.
  f_equal; [f_equal|]; lia.
Qed.

(** X14. The selector does not depend on which side of the carton is
    called its length: for the product with its two sides exchanged it
    succeeds as well and finds the same number of cartons per layer, along
    the length of the pallet and along its width. *)
Theorem best_orientation_sides_exchanged (product : ProductSpec.t)
  (pallet : PalletSpec.t) (best : OrientationPlan.t) :
  _best_orientation product pallet = Ok best ->
  exists best',
    _best_orientation (swap_sides product) pallet = Ok best' /\
    orientation_key best' = orientation_key best.
Proof.
  pose proof (best_orientation_eq product pallet) as H1.
  pose proof (best_orientation_eq (swap_sides product) pallet) as H2.
  cbv zeta in H1, H2. cbn [swap_sides ProductSpec.carton_length_cm
                           ProductSpec.carton_width_cm ProductSpec.name] in H2.
  rewrite H1, H2. clear H1 H2.
  set (L := ProductSpec.carton_length_cm product).
  set (W := ProductSpec.carton_width_cm product).
  destruct (orientation_counts pallet L W) as [n1|e1]; [|discriminate].
  destruct (orientation_counts pallet W L) as [n2|e2]; [|discriminate].
  cbn [filter]. rewrite (candidate_positive n1), (candidate_positive n2).
  destruct (fst n1 * snd n1 <=? 0), (fst n2 * snd n2 <=? 0); cbn [negb];
    try discriminate.
  - intros H. injection H as <-. eauto.
  - intros H. injection H as <-. eauto.
  - destruct (key_lt (orientation_key (candidate L W n1))
                     (orientation_key (candidate W L n2))) eqn:H12;
      intros H; injection H as <-.
    + rewrite (key_lt_asym _ _ H12). eauto.
    + destruct (key_lt (orientation_key (candidate W L n2))
                       (orientation_key (candidate L W n1))) eqn:H21;
        [eauto|].
      eexists. split; [reflexivity|].
      symmetry. apply key_lt_total; assumption.
Qed.

(** ** The plans of the products *)

Lemma plan_step_planned mixed pallet limit st product st' :
  plan_step mixed pallet limit st product = Ok st' ->
  exists plan,
    product_plans st' = product_plans st ++ [plan] /\
    planned pallet limit product plan.
Proof.
  intros H. apply plan_step_Ok in H.
  destruct H as (o & q & lpp & cr & vol & Ho & Hq & Hfloor & Hlpp & Hcpp & Hcr
                 & _ & Hplans & _).
  eexists. split; [exact Hplans|].
  unfold planned. cbn. rewrite Hq. cbn [bind].
  repeat (split; [assumption || reflexivity|]).
  exists cr. repeat split; assumption || reflexivity.
Qed.

Lemma plan_loop_planned mixed pallet limit products : forall st st',
  foldM (plan_step mixed pallet limit) products st = Ok st' ->
  exists plans,
    product_plans st' = product_plans st ++ plans /\
    Forall2 (planned pallet limit) products plans.
Proof.
  induction products as [|product products IH]; intros st st' H.
  - injection H as <-. exists []. rewrite app_nil_r. split; constructor.
  - cbn [foldM] in H. apply bind_Ok in H. destruct H as (st1 & H1 & H).
    apply plan_step_planned in H1. destruct H1 as (plan & Hplans1 & Hplan).
    apply IH in H. destruct H as (plans & Hplans & Hall).
    exists (plan :: plans). rewrite Hplans, Hplans1, <- app_assoc.
    split; [reflexivity|]. constructor; assumption.
Qed.

Lemma planned_functional pallet limit product plan1 plan2 :
  planned pallet limit product plan1 -> planned pallet limit product plan2 ->
  plan1 = plan2.
Proof.
  destruct plan1 as [p1 o1 l1 c1 f1 r1], plan2 as [p2 o2 l2 c2 f2 r2].
  unfold planned. cbn.
  intros (-> & Ho1 & Hl1 & -> & _ & _ & cr1 & Hcr1 & -> & ->)
         (-> & Ho2 & Hl2 & -> & _ & _ & cr2 & Hcr2 & -> & ->).
  rewrite Ho1 in Ho2. injection Ho2 as <-.
  rewrite Hl1 in Hl2. injection Hl2 as <-.
  rewrite Hcr1 in Hcr2. injection Hcr2 as <-. reflexivity.
Qed.

Lemma Forall2_functional {A B : Type} (R : A -> B -> Prop) :
  (forall a b1 b2, R a b1 -> R a b2 -> b1 = b2) ->
  forall l l1 l2, Forall2 R l l1 -> Forall2 R l l2 -> l1 = l2.
Proof.
  intros HR l l1 l2 H1. revert l2.
  induction H1 as [|a b1 l l1 Hab _ IH]; intros l2 H2; inversion H2; subst.
  - reflexivity.
  - f_equal; [eapply HR; eassumption|apply IH; assumption].
Qed.

Lemma Forall2_In_r {A B : Type} (R : A -> B -> Prop) l1 l2 b :
  Forall2 R l1 l2 -> In b l2 -> exists a, In a l1 /\ R a b.
Proof.
  induction 1 as [|a0 b0 l1 l2 H0 _ IH]; intros Hin; [contradiction|].
  destruct Hin as [<-|Hin].
  - exists a0. split; [left; reflexivity|exact H0].
  - destruct (IH Hin) as (a & Ha & HR). exists a. split; [right|]; assumption.
Qed.

(** ** The goods volume *)

Lemma goods_volume_snoc plans plan : forall acc,
  goods_volume (plans ++ [plan]) acc
  = (v <- goods_volume plans acc ;;
     cartons_required <-
       ProductSpec.cartons_required (ProductPlan.product plan) ;;
     volume <- int_mul_float cartons_required
                 (ProductSpec.carton_volume_cbm (ProductPlan.product plan)) ;;
     Ok (v + volume)%float).
Proof.
  induction plans as [|p plans IH]; intros acc; cbn [app goods_volume bind].
  - destruct (ProductSpec.cartons_required (ProductPlan.product plan));
      [|reflexivity].
    cbn [bind]. destruct (int_mul_float _ _); reflexivity.
  - destruct (ProductSpec.cartons_required (ProductPlan.product p));
      [|reflexivity].
    cbn [bind]. destruct (int_mul_float _ _); [|reflexivity].
    cbn [bind]. apply IH.
Qed.

Lemma plan_loop_goods_volume mixed pallet limit products st :
  foldM (plan_step mixed pallet limit) products initial_state = Ok st ->
  goods_volume (product_plans st) 0 = Ok (volume_without_pallets st).
Proof.
  apply (foldM_invariant (plan_step mixed pallet limit)
           (fun st => goods_volume (product_plans st) 0
                      = Ok (volume_without_pallets st))); [|reflexivity].
  intros s product s' Hs Hstep.
  apply plan_step_Ok in Hstep.
  destruct Hstep as (o & q & lpp & cr & vol & _ & _ & _ & _ & _ & Hcr & Hvol
                     & Hplans & _ & Hv & _).
  rewrite Hplans, goods_volume_snoc, Hs. cbn [bind ProductPlan.product].
  rewrite Hcr. cbn [bind]. rewrite Hvol. cbn [bind]. rewrite Hv. reflexivity.
Qed.

(** ** The entries of the pallet list *)

Lemma full_part_entry pallet plan full_part :
  (ProductPlan.full_pallets plan = 0 /\ full_part = []) \/
  (ProductPlan.full_pallets plan <> 0 /\
   exists gh, ProductPlan.goods_height_cm plan = Ok gh /\
              full_part = [full_pallet pallet plan gh]) ->
  map detail_summary full_part = full_entry plan.
Proof.
  unfold full_entry.
  intros [[Hz ->]|(Hnz & gh & _ & ->)].
  - rewrite Hz. reflexivity.
  - apply Z.eqb_neq in Hnz. rewrite Hnz. reflexivity.
Qed.

Lemma plan_loop_dedicated pallet limit products st :
  foldM (plan_step false pallet limit) products initial_state = Ok st ->
  map detail_summary (pallets st)
  = flat_map (fun plan => full_entry plan ++ remainder_entry plan)
             (product_plans st).
Proof.
  apply (foldM_invariant (plan_step false pallet limit)
           (fun st => map detail_summary (pallets st)
                      = flat_map (fun plan => full_entry plan ++ remainder_entry plan)
                                 (product_plans st))); [|reflexivity].
  intros s product s' Hs Hstep.
  apply plan_step_Ok in Hstep.
  destruct Hstep as (o & q & lpp & cr & vol & _ & _ & _ & _ & _ & _ & _
                     & Hplans & _ & _ & full_part & rem_part & layers
                     & Hpallets & _ & Hfull & _ & Hrem).
  rewrite Hplans, Hpallets, flat_map_app, !map_app, Hs. f_equal.
  cbn [flat_map]. rewrite app_nil_r. f_equal.
  - apply (full_part_entry pallet). exact Hfull.
  - unfold remainder_entry. cbn [ProductPlan.remainder_cartons
                                 ProductPlan.product].
    destruct Hrem as [[Hz ->]|(Hnz & gh & _ & ->)].
    + rewrite Hz. reflexivity.
    + apply Z.eqb_neq in Hnz. rewrite Hnz. reflexivity.
Qed.

Lemma dedicated_entries_count plans :
  sum_Z (map (fun entry : string * Z * list (string * Z) => snd (fst entry))
             (flat_map (fun plan => full_entry plan ++ remainder_entry plan)
                       plans))
  = sum_Z (map dedicated_pallets plans).
Proof.
  induction plans as [|plan plans IH]; [reflexivity|].
  cbn [flat_map map]. rewrite !map_app, !sum_Z_app, IH.
  change (sum_Z (?x :: ?t)) with (x + sum_Z t).
  unfold full_entry, remainder_entry, dedicated_pallets.
  destruct (Z.eqb_spec (ProductPlan.full_pallets plan) 0) as [->|_],
           (ProductPlan.remainder_cartons plan =? 0); cbn; lia.
Qed.

(** ** Fragments within the limit *)

Lemma div_not_nan (x y : float) :
  Prim2SF (x / y) <> S754_nan -> is_nan x = false /\ is_nan y = false.
Proof.
  unfold is_nan. rewrite div_spec, !eqb_spec. unfold SFeqb, SFcompare.
  destruct (Prim2SF x) as [[]|[]| |[] mx ex],
           (Prim2SF y) as [[]|[]| |[] my ey]; cbn; intros H;
    try (contradiction H; reflexivity);
    rewrite ?Z.compare_refl, ?Pos.compare_cont_refl; split; reflexivity.
Qed.

(** A positive limit that holds at least one layer of height [y] is at least
    [y]. *)
Lemma floor_quotient_fits (x y q : float) (n : Z) :
  (x <=? 0)%float = false ->
  float_truediv x y = Ok q -> math_floor q = Ok n -> 1 <= n ->
  (y <=? x)%float = true.
Proof.
  intros Hx Hq Hn Hn1.
  pose proof (floor_quotient_positive x y q n Hx Hq Hn Hn1) as Hlt.
  assert (Hnan : is_nan x = false /\ is_nan y = false).
  { unfold float_truediv in Hq. destruct (y =? 0)%float; [discriminate|].
    injection Hq as <-. apply div_not_nan. unfold math_floor in Hn.
    intros E. rewrite E in Hn. discriminate. }
  destruct Hnan as [Hnx Hny].
  destruct (y <=? x)%float eqn:E; [reflexivity|].
  destruct (not_leb_ltb _ _ E) as [H|[H|H]]; congruence.
Qed.

(** The pallets of the packer are within the limit when the fragments
    are. *)
Lemma pack_layers_within_limit layers limit packed :
  Forall (fun l => (Layer.layer_height_cm l <=? limit)%float = true) layers ->
  _pack_layers layers limit = Ok packed ->
  Forall (fun g => g <> [] /\ (stack_height g <=? limit)%float = true) packed.
Proof.
  intros Hall. unfold _pack_layers. destruct layers as [|l0 layers].
  - intros H. injection H as <-. constructor.
  - set (ordered := sorted_reverse layer_height_lt (l0 :: layers)).
    assert (Hord : Forall (fun l => (Layer.layer_height_cm l <=? limit)%float = true)
                          ordered).
    { apply Forall_forall. intros x Hx. rewrite Forall_forall in Hall.
      apply Hall.
      apply (Permutation_in _ (sorted_reverse_perm layer_height_lt (l0 :: layers))).
      exact Hx. }
    assert (Hne : ordered <> []).
    { intros Hnil.
      pose proof (Permutation_length
                    (sorted_reverse_perm layer_height_lt (l0 :: layers))) as Hlen.
      fold ordered in Hlen. rewrite Hnil in Hlen. discriminate Hlen. }
    set (st0 := {| closed_pallets := []; current := [];
                   current_height := 0%float |}).
    assert (Hinv0 : pack_inv limit st0).
    { split; [constructor|]. split; [apply same_value_refl|].
      intros H; contradiction H; reflexivity. }
    destruct (pack_loop_inv limit ordered st0 Hord Hinv0)
      as (st & E & (Hclosed & Hsame & Hbound) & Hcur).
    specialize (Hcur Hne). rewrite E. cbn [bind].
    destruct (current st) as [|x c] eqn:Ec; [contradiction Hcur; reflexivity|].
    intros H. injection H as <-.
    apply Forall_app. split; [exact Hclosed|].
    constructor; [|constructor]. split; [discriminate|].
    rewrite <- (same_value_leb _ _ limit Hsame). apply Hbound. discriminate.
Qed.

Lemma plan_loop_mixed pallet limit products st :
  (limit <=? 0)%float = false ->
  foldM (plan_step true pallet limit) products initial_state = Ok st ->
  map detail_summary (pallets st) = flat_map full_entry (product_plans st) /\
  Forall (fun l => (Layer.layer_height_cm l <=? limit)%float = true)
         (remainder_layers st) /\
  exists fragments,
    Forall2 (fun plan layers => _build_layers plan = Ok layers)
            (product_plans st) fragments /\
    remainder_layers st = List.concat fragments.
Proof.
  intros Hlimit.
  apply (foldM_invariant (plan_step true pallet limit)
           (fun st =>
              map detail_summary (pallets st)
              = flat_map full_entry (product_plans st) /\
              Forall (fun l => (Layer.layer_height_cm l <=? limit)%float = true)
                     (remainder_layers st) /\
              exists fragments,
                Forall2 (fun plan layers => _build_layers plan = Ok layers)
                        (product_plans st) fragments /\
                remainder_layers st = List.concat fragments)).
  - intros s product s' (Hs & Hh & fragments & Hfr & Hcat) Hstep.
    apply plan_step_Ok in Hstep.
    destruct Hstep as (o & q & lpp & cr & vol & _ & Hq & Hfloor & Hlpp & Hcpp
                       & _ & _ & Hplans & _ & _ & full_part & rem_part & layers
                       & Hpallets & Hlayers & Hfull & -> & Hbuild).
    rewrite Hplans, Hpallets, Hlayers. split; [|split].
    + rewrite flat_map_app, !map_app, Hs. cbn [flat_map map].
      rewrite !app_nil_r. f_equal. apply (full_part_entry pallet). exact Hfull.
    + apply Forall_app. split; [exact Hh|].
      assert (Hmod := Z.mod_pos_bound cr _ Hcpp).
      pose proof Hbuild as Hb.
      apply build_layers_Ok in Hb; cbn; [|nia|lia].
      destruct Hb as (_ & _ & Hheights).
      eapply Forall_impl; [|exact Hheights].
      intros l [_ Hl]. cbn in Hl. rewrite Hl.
      apply (floor_quotient_fits limit _ q lpp Hlimit Hq Hfloor). lia.
    + exists (fragments ++ [layers]). split.
      * apply Forall2_app; [exact Hfr|]. constructor; [exact Hbuild|constructor].
      * rewrite concat_app, Hcat. cbn [List.concat]. rewrite app_nil_r.
        reflexivity.
  - split; [reflexivity|]. split; [constructor|].
    exists []. split; [constructor|reflexivity].
Qed.

Lemma mixed_pallets_labels pallet packed :
  map PalletDetail.label (mixed_pallets pallet packed)
  = map (fun index => ("Mixed remainder pallet #" ++ str_of_nat index)%string)
        (seq 1 (List.length packed)).
Proof.
  unfold mixed_pallets. generalize 1%nat.
  induction packed as [|g packed IH]; intros i; [reflexivity|].
  cbn [List.length seq combine map]. rewrite IH. f_equal.
  unfold mixed_pallet. destruct (stack_totals g). reflexivity.
Qed.

Lemma mixed_pallets_In pallet packed detail :
  In detail (mixed_pallets pallet packed) ->
  exists index g, In g packed /\ detail = mixed_pallet pallet index g.
Proof.
  unfold mixed_pallets. intros H. apply in_map_iff in H.
  destruct H as ([i g] & <- & Hin). exists i, g.
  split; [apply (in_combine_r _ _ _ _ Hin)|reflexivity].
Qed.

Lemma mixed_pallet_fields pallet index g :
  PalletDetail.count (mixed_pallet pallet index g) = 1 /\
  PalletDetail.cartons_by_product (mixed_pallet pallet index g)
  = fst (stack_totals g) /\
  PalletDetail.goods_height_cm (mixed_pallet pallet index g) = stack_height g /\
  PalletDetail.total_height_cm (mixed_pallet pallet index g)
  = (stack_height g + PalletSpec.base_height_cm pallet)%float.
Proof.
  unfold mixed_pallet, stack_height. destruct (stack_totals g).
  repeat split.
Qed.

(** ** Cartons by product *)

Lemma dict_get_set (d : list (string * Z)) k v k' default :
  dict_get (dict_set d k v) k' default
  = if String.eqb k k' then v else dict_get d k' default.
Proof.
  induction d as [|[k0 v0] d IH]; cbn [dict_set dict_get].
  - reflexivity.
  - destruct (String.eqb_spec k0 k) as [->|Hne]; cbn [dict_get].
    + destruct (String.eqb k k'); reflexivity.
    + destruct (String.eqb_spec k0 k') as [->|Hne'].
      * destruct (String.eqb_spec k k') as [->|_]; [contradiction Hne|];
          reflexivity.
      * exact IH.
Qed.

Lemma dict_set_keys (d : list (string * Z)) k v :
  map fst (dict_set d k v)
  = if existsb (String.eqb k) (map fst d) then map fst d
    else map fst d ++ [k].
Proof.
  induction d as [|[k0 v0] d IH]; cbn [dict_set map fst existsb app].
  - reflexivity.
  - rewrite (String.eqb_sym k k0).
    destruct (String.eqb k0 k); cbn [map fst orb]; [reflexivity|].
    rewrite IH. destruct (existsb (String.eqb k) (map fst d)); reflexivity.
Qed.

Lemma existsb_eqb_In k (keys : list string) :
  existsb (String.eqb k) keys = true <-> In k keys.
Proof.
  rewrite existsb_exists. split.
  - intros (x & Hx & E). apply String.eqb_eq in E. subst x. exact Hx.
  - intros H. exists k. split; [exact H|apply String.eqb_refl].
Qed.

Lemma layers_cartons_of_app name l1 l2 :
  layers_cartons_of name (l1 ++ l2)
  = layers_cartons_of name l1 + layers_cartons_of name l2.
Proof.
  unfold layers_cartons_of. rewrite filter_app. apply layers_cartons_app.
Qed.

Lemma layers_cartons_of_perm name l1 l2 :
  Permutation l1 l2 -> layers_cartons_of name l1 = layers_cartons_of name l2.
Proof.
  intros H. unfold layers_cartons_of. apply layers_cartons_perm.
  induction H; cbn [filter].
  - constructor.
  - destruct (named name x); [constructor|]; assumption.
  - destruct (named name x), (named name y);
      try apply Permutation_refl. apply perm_swap.
  - eapply Permutation_trans; eassumption.
Qed.

Lemma layers_cartons_of_cons name l layers :
  layers_cartons_of name (l :: layers)
  = (if String.eqb (Layer.product_name l) name then Layer.cartons l else 0)
    + layers_cartons_of name layers.
Proof.
  unfold layers_cartons_of, layers_cartons, named. cbn [filter].
  destruct (String.eqb (Layer.product_name l) name); cbn [map];
    [change (sum_Z (?x :: ?t)) with (x + sum_Z t)|]; lia.
Qed.

(** The inner loop over a stack, from any dict and height. *)
Lemma stack_loop_by_product g : forall d a,
  let d' :=
    fst (fold_left
           (fun (acc : list (string * Z) * float) layer =>
              let '(cartons_by_product, goods_height_cm) := acc in
              (dict_set cartons_by_product (Layer.product_name layer)
                 (dict_get cartons_by_product (Layer.product_name layer) 0
                  + Layer.cartons layer),
               (goods_height_cm + Layer.layer_height_cm layer)%float))
           g (d, a)) in
  (NoDup (map fst d) -> NoDup (map fst d')) /\
  (forall name, In name (map fst d')
                <-> In name (map fst d) \/ In name (map Layer.product_name g)) /\
  (forall name, dict_get d' name 0
                = dict_get d name 0 + layers_cartons_of name g).
Proof.
  induction g as [|l g IH]; intros d a; cbn [fold_left].
  - cbn. split; [auto|]. split; [intros; tauto|].
    intros name. unfold layers_cartons_of, layers_cartons. cbn. lia.
  - specialize (IH (dict_set d (Layer.product_name l)
                      (dict_get d (Layer.product_name l) 0 + Layer.cartons l))
                   (a + Layer.layer_height_cm l)%float).
    cbv zeta in IH |- *. destruct IH as (Hnd & Hkeys & Hget).
    pose proof (dict_set_keys d (Layer.product_name l)
                  (dict_get d (Layer.product_name l) 0 + Layer.cartons l))
      as Hset.
    pose proof (existsb_eqb_In (Layer.product_name l) (map fst d)) as Hex.
    destruct (existsb (String.eqb (Layer.product_name l)) (map fst d)).
    + assert (Hin : In (Layer.product_name l) (map fst d))
        by (apply Hex; reflexivity).
      split; [|split].
      * intros H. apply Hnd. rewrite Hset. exact H.
      * intros name. rewrite Hkeys, Hset. cbn [map In]. split.
        -- intros [H|H]; auto.
        -- intros [H|[<-|H]]; auto.
      * intros name. rewrite Hget, dict_get_set, layers_cartons_of_cons.
        destruct (String.eqb_spec (Layer.product_name l) name) as [->|_]; lia.
    + assert (Hnin : ~ In (Layer.product_name l) (map fst d)).
      { intros H. apply Hex in H. discriminate. }
      split; [|split].
      * intros H. apply Hnd. rewrite Hset.
        apply NoDup_app; [exact H|repeat constructor; intros []|].
        intros x Hx [<-|[]]. contradiction.
      * intros name. rewrite Hkeys, Hset, in_app_iff. cbn [map In]. tauto.
      * intros name. rewrite Hget, dict_get_set, layers_cartons_of_cons.
        destruct (String.eqb_spec (Layer.product_name l) name) as [->|_]; lia.
Qed.

(** X15. The cartons_by_product of a mixed pallet has each product name of
    the stack once, and under it the cartons of all fragments of that name
    in the stack (two products of one name share an entry). *)
Theorem stack_totals_by_product (layer_stack : list Layer.t) :
  let cartons_by_product := fst (stack_totals layer_stack) in
  NoDup (map fst cartons_by_product) /\
  (forall name, In name (map fst cartons_by_product)
                <-> In name (map Layer.product_name layer_stack)) /\
  (forall name, dict_get cartons_by_product name 0
                = layers_cartons_of name layer_stack).
Proof.
  destruct (stack_loop_by_product layer_stack [] 0%float) as (Hnd & Hkeys & Hget).
  fold (stack_totals layer_stack) in Hnd, Hkeys, Hget.
  cbv zeta. split; [apply Hnd; constructor|]. split.
  - intros name. rewrite Hkeys. cbn. tauto.
  - intros name. rewrite Hget. cbn. lia.
Qed.

Lemma pallets_cartons_of_app name p1 p2 :
  pallets_cartons_of name (p1 ++ p2)
  = pallets_cartons_of name p1 + pallets_cartons_of name p2.
Proof. unfold pallets_cartons_of. rewrite map_app. apply sum_Z_app. Qed.

Lemma plans_cartons_of_app name p1 p2 :
  plans_cartons_of name (p1 ++ p2)
  = plans_cartons_of name p1 + plans_cartons_of name p2.
Proof. unfold plans_cartons_of. rewrite map_app. apply sum_Z_app. Qed.

Lemma mixed_pallets_cartons_of name pallet packed :
  pallets_cartons_of name (mixed_pallets pallet packed)
  = layers_cartons_of name (List.concat packed).
Proof.
  unfold mixed_pallets. generalize 1%nat.
  induction packed as [|g packed IH]; intros i; [reflexivity|].
  cbn [List.length seq combine map List.concat].
  unfold pallets_cartons_of in *. cbn [map].
  change (sum_Z (?x :: ?t)) with (x + sum_Z t).
  rewrite IH, layers_cartons_of_app. f_equal.
  unfold detail_cartons_of.
  destruct (mixed_pallet_fields pallet i g) as (-> & -> & _).
  destruct (stack_loop_by_product g [] 0%float) as (_ & _ & Hget).
  fold (stack_totals g) in Hget. rewrite Hget. cbn. lia.
Qed.

Lemma same_name_cartons_of name product_name layers total :
  Forall (fun l => Layer.product_name l = product_name) layers ->
  layers_cartons layers = total ->
  layers_cartons_of name layers
  = if String.eqb product_name name then total else 0.
Proof.
  intros Hall <-. unfold layers_cartons_of.
  induction Hall as [|l layers Hl _ IH]; cbn [filter].
  - destruct (String.eqb product_name name); reflexivity.
  - unfold named at 1. rewrite Hl.
    destruct (String.eqb product_name name) eqn:E.
    + unfold layers_cartons in *. cbn [map].
      change (sum_Z (?x :: ?t)) with (x + sum_Z t). rewrite IH. reflexivity.
    + exact IH.
Qed.

Lemma plan_loop_cartons_of name mixed pallet limit products st :
  foldM (plan_step mixed pallet limit) products initial_state = Ok st ->
  pallets_cartons_of name (pallets st)
  + layers_cartons_of name (remainder_layers st)
  = plans_cartons_of name (product_plans st).
Proof.
  apply (foldM_invariant (plan_step mixed pallet limit)
           (fun st => pallets_cartons_of name (pallets st)
                      + layers_cartons_of name (remainder_layers st)
                      = plans_cartons_of name (product_plans st)));
    [|reflexivity].
  intros s product s' Hs Hstep.
  apply plan_step_Ok in Hstep.
  destruct Hstep as (o & q & lpp & cr & vol & _ & _ & _ & Hlpp & Hcpp & _ & _
                     & Hplans & _ & _ & full_part & rem_part & layers
                     & Hpallets & Hlayers & Hfull & Hrem).
  rewrite Hplans, Hpallets, Hlayers, plans_cartons_of_app,
          !pallets_cartons_of_app, layers_cartons_of_app, <- Hs.
  set (cpp := OrientationPlan.cartons_per_layer o * lpp) in *.
  assert (Hmod := Z.mod_pos_bound cr cpp Hcpp).
  assert (Hf : pallets_cartons_of name full_part
               = if String.eqb (ProductSpec.name product) name
                 then cr / cpp * cpp else 0).
  { destruct Hfull as [[Hz ->]|(_ & gh & _ & ->)].
    - rewrite Hz. cbn. destruct (String.eqb _ _); reflexivity.
    - unfold pallets_cartons_of, detail_cartons_of. cbn.
      destruct (String.eqb _ _); lia. }
  assert (Hr : pallets_cartons_of name rem_part + layers_cartons_of name layers
               = if String.eqb (ProductSpec.name product) name
                 then cr mod cpp else 0).
  { destruct mixed.
    - destruct Hrem as [-> Hbuild].
      apply build_layers_Ok in Hbuild; cbn; [|nia|lia].
      destruct Hbuild as (Hsum & _ & Hnames).
      cbn in Hsum. cbn [pallets_cartons_of map sum_Z fold_right].
      rewrite (same_name_cartons_of name (ProductSpec.name product) layers
                 (cr mod cpp)); [lia| |exact Hsum].
      eapply Forall_impl; [|exact Hnames]. intros l [Hl _]. exact Hl.
    - destruct Hrem as [-> [[Hz ->]|(_ & gh & _ & ->)]].
      + rewrite Hz. cbn. destruct (String.eqb _ _); reflexivity.
      + unfold pallets_cartons_of, detail_cartons_of, layers_cartons_of. cbn.
        destruct (String.eqb _ _); lia. }
  unfold plans_cartons_of. cbn [map]. unfold plan_cartons_of.
  cbn [ProductPlan.product ProductPlan.full_pallets
       ProductPlan.cartons_per_pallet ProductPlan.remainder_cartons].
  fold cpp. cbn [sum_Z fold_right].
  destruct (String.eqb (ProductSpec.name product) name); lia.
Qed.

Lemma stack_totals_keys g name :
  In name (map Layer.product_name g) ->
  In name (map fst (fst (stack_totals g))).
Proof.
  destruct (stack_loop_by_product g [] 0%float) as (_ & Hkeys & _).
  fold (stack_totals g) in Hkeys. intros H. apply Hkeys. right. exact H.
Qed.

(** ** The result of a successful call *)

Section EngineFacts.
Variable int_of_str : string -> option Z.
Variable float_of_str : string -> option float.
Variable repr : pyval -> string.

Local Abbreviation calculate :=
  (calculate_palletization int_of_str float_of_str repr).

Lemma goods_height_limit_positive pallet container_height_cm limit :
  PalletSpec.goods_height_limit pallet container_height_cm = Ok limit ->
  (limit <=? 0)%float = false.
Proof.
  unfold PalletSpec.goods_height_limit.
  destruct (_ <=? 0)%float eqn:E; [discriminate|].
  intros H. injection H as <-. exact E.
Qed.

(** X16. A successful call has made one plan per product, in the order of
    the input: the plan of a product holds the orientation that
    [_best_orientation] selects for it on the loaded pallet,
    [floor(limit / carton height)] layers for the goods height limit of the
    call, their product as cartons per pallet, and the quotient and
    remainder of the cartons required by the cartons per pallet. *)
Theorem plans_follow_products (data : CalculationInput.t)
  (r : CalculationResult.t) :
  calculate data = Ok r ->
  exists products pallet container_height_cm limit,
    _load_products int_of_str float_of_str repr (CalculationInput.products data)
    = Ok products /\
    _load_pallet float_of_str (CalculationInput.pallet data) = Ok pallet /\
    _resolve_container_height (CalculationInput.container_height data)
    = Ok container_height_cm /\
    PalletSpec.goods_height_limit pallet container_height_cm = Ok limit /\
    Forall2 (planned pallet limit) products (CalculationResult.product_plans r).
Proof.
  intros H. apply calculate_palletization_Ok in H.
  destruct H as (products & pallet & ch & limit & st & packed & Hprod & Hpal
                 & Hch & Hlim & Hloop & _ & Hplans & _).
  exists products, pallet, ch, limit.
  repeat (split; [assumption|]).
  apply plan_loop_planned in Hloop. destruct Hloop as (plans & Hst & Hall).
  rewrite Hplans, Hst. exact Hall.
Qed.

(** X17. In every plan of a successful call the cartons per layer and the
    layers per pallet are at least one, the cartons per pallet are their
    product, and the remainder is a proper one: not negative and less than
    a pallet's worth. For a quantity that is not negative and a positive
    number of pieces per carton, both below [2^53], the number of full
    pallets is not negative either. *)
Theorem plan_numbers_sound (data : CalculationInput.t)
  (r : CalculationResult.t) (plan : ProductPlan.t) :
  calculate data = Ok r ->
  In plan (CalculationResult.product_plans r) ->
  let quantity := ProductSpec.order_quantity_pcs (ProductPlan.product plan) in
  let pieces := ProductSpec.pcs_per_carton (ProductPlan.product plan) in
  1 <= OrientationPlan.cartons_per_layer (ProductPlan.orientation plan) /\
  1 <= ProductPlan.layers_per_pallet plan /\
  ProductPlan.cartons_per_pallet plan
  = OrientationPlan.cartons_per_layer (ProductPlan.orientation plan)
    * ProductPlan.layers_per_pallet plan /\
  0 <= ProductPlan.remainder_cartons plan < ProductPlan.cartons_per_pallet plan /\
  (0 <= quantity < 2 ^ 53 -> 0 < pieces < 2 ^ 53 ->
   0 <= ProductPlan.full_pallets plan).
Proof.
  intros H Hin quantity pieces. apply calculate_palletization_Ok in H.
  destruct H as (products & pallet & ch & limit & st & packed & _ & _ & _ & _
                 & Hloop & _ & Hplans & _).
  apply plan_loop_planned in Hloop. destruct Hloop as (plans & Hst & Hall).
  rewrite Hplans, Hst in Hin. cbn [app product_plans initial_state] in Hin.
  destruct (Forall2_In_r _ _ _ _ Hall Hin) as (product & _ & Hplan).
  destruct Hplan as (Hp & _ & _ & Hcpp & Hlpp & Hpos & cr & Hcr & Hfull & Hrem).
  pose proof (Z.mod_pos_bound cr _ Hpos) as Hmod.
  split; [nia|]. split; [lia|]. split; [exact Hcpp|]. split; [lia|].
  intros Hq Hpcs. rewrite Hfull. apply Z.div_pos; [|exact Hpos].
  pose proof (int_truediv_ceil quantity pieces Hq Hpcs) as Hceil.
  unfold ProductSpec.cartons_required in Hcr. rewrite <- Hp in Hcr.
  fold quantity in Hcr. fold pieces in Hcr.
  rewrite Hceil in Hcr. injection Hcr as <-.
  apply Z.div_pos; lia.
Qed.

(** X18. The goods volume of a successful call, volume_without_pallets_cbm,
    is the sum over the plans, accumulated in order from [0.0], of
    [cartons_required * carton_volume_cbm], the volume of a carton being
    [length * width * height / 1_000_000]. *)
Theorem goods_volume_is_sum (data : CalculationInput.t)
  (r : CalculationResult.t) :
  calculate data = Ok r ->
  goods_volume (CalculationResult.product_plans r) 0
  = Ok (CalculationResult.volume_without_pallets_cbm r).
Proof.
  intros H. apply calculate_palletization_Ok in H.
  destruct H as (products & pallet & ch & limit & st & packed & _ & _ & _ & _
                 & Hloop & _ & Hplans & _ & _ & _ & Hvol & _).
  rewrite Hplans, Hvol. apply (plan_loop_goods_volume _ _ _ _ _ Hloop).
Qed.

(** X19. The remainder mode changes the pallets only: when the engine
    succeeds on an input with mixing and without, the two results have the
    same plans, the same total of cartons and the same goods volume. *)
Theorem plans_independent_of_mode (products : list pyval) (pallet : pyval)
  (code : string) (mixed dedicated : CalculationResult.t) :
  calculate {| CalculationInput.products := products;
               CalculationInput.pallet := pallet;
               CalculationInput.allow_mixed_remainders := true;
               CalculationInput.container_height := code |} = Ok mixed ->
  calculate {| CalculationInput.products := products;
               CalculationInput.pallet := pallet;
               CalculationInput.allow_mixed_remainders := false;
               CalculationInput.container_height := code |} = Ok dedicated ->
  CalculationResult.product_plans mixed
  = CalculationResult.product_plans dedicated /\
  CalculationResult.total_cartons mixed
  = CalculationResult.total_cartons dedicated /\
  CalculationResult.volume_without_pallets_cbm mixed
  = CalculationResult.volume_without_pallets_cbm dedicated.
Proof.
  intros H1 H2.
  apply calculate_palletization_Ok in H1, H2.
  cbn [CalculationInput.products CalculationInput.pallet
       CalculationInput.allow_mixed_remainders
       CalculationInput.container_height] in H1, H2.
  destruct H1 as (ps1 & pal1 & ch1 & lim1 & st1 & packed1 & Hprod1 & Hpal1
                  & Hch1 & Hlim1 & Hloop1 & _ & Hplans1 & _ & Htot1 & _ & Hvol1 & _).
  destruct H2 as (ps2 & pal2 & ch2 & lim2 & st2 & packed2 & Hprod2 & Hpal2
                  & Hch2 & Hlim2 & Hloop2 & _ & Hplans2 & _ & Htot2 & _ & Hvol2 & _).
  rewrite Hprod1 in Hprod2. injection Hprod2 as <-.
  rewrite Hpal1 in Hpal2. injection Hpal2 as <-.
  rewrite Hch1 in Hch2. injection Hch2 as <-.
  rewrite Hlim1 in Hlim2. injection Hlim2 as <-.
  assert (Hsame : product_plans st1 = product_plans st2).
  { pose proof (plan_loop_planned _ _ _ _ _ _ Hloop1) as (l1 & E1 & F1).
    pose proof (plan_loop_planned _ _ _ _ _ _ Hloop2) as (l2 & E2 & F2).
    rewrite E1, E2. cbn [app product_plans initial_state].
    apply (Forall2_functional _ (planned_functional pal1 lim1) _ _ _ F1 F2). }
  rewrite Hplans1, Hplans2, Htot1, Htot2, Hvol1, Hvol2.
  split; [exact Hsame|]. split.
  - apply plan_loop_cartons in Hloop1, Hloop2.
    destruct Hloop1 as (_ & _ & req1 & F1 & ->).
    destruct Hloop2 as (_ & _ & req2 & F2 & ->).
    rewrite Hsame in F1. f_equal.
    apply (Forall2_functional _ (fun plan a b (Ha : _ = Ok a) (Hb : _ = Ok b) =>
             f_equal (fun r => match r with Ok x => x | Raise _ => a end)
                     (eq_trans (eq_sym Ha) Hb)) _ _ _ F1 F2).
  - apply plan_loop_goods_volume in Hloop1, Hloop2.
    rewrite Hsame in Hloop1. congruence.
Qed.

(** X20. In dedicated mode the pallet list is made product by product, in
    the order of the plans: the entry "<name> full pallet" with the number
    of full pallets as its count and the cartons per pallet under the name,
    unless there is no full pallet, and then the entry "<name> remainder
    pallet" with count 1 and the remainder under the name, unless there is
    no remainder. So the total of pallets is, summed over the plans, the
    number of full pallets plus one for a remainder. *)
Theorem dedicated_mode_pallets (data : CalculationInput.t)
  (r : CalculationResult.t) :
  calculate data = Ok r ->
  CalculationInput.allow_mixed_remainders data = false ->
  map detail_summary (CalculationResult.pallets r)
  = flat_map (fun plan => full_entry plan ++ remainder_entry plan)
             (CalculationResult.product_plans r) /\
  CalculationResult.total_pallets r
  = sum_Z (map dedicated_pallets (CalculationResult.product_plans r)).
Proof.
  intros H Hmode. apply calculate_palletization_Ok in H.
  destruct H as (products & pallet & ch & limit & st & packed & _ & _ & _ & _
                 & Hloop & Hpacked & Hplans & Hpallets & _ & Hcount & _).
  rewrite Hmode in Hloop, Hpacked. subst packed.
  cbn [mixed_pallets List.length seq combine map] in Hpallets.
  rewrite app_nil_r in Hpallets.
  apply plan_loop_dedicated in Hloop.
  assert (Hentries : map detail_summary (CalculationResult.pallets r)
                     = flat_map (fun plan => full_entry plan ++ remainder_entry plan)
                                (CalculationResult.product_plans r)).
  { rewrite Hpallets, Hplans. exact Hloop. }
  split; [exact Hentries|].
  rewrite Hcount, sum_counts_sum_Z, <- dedicated_entries_count, <- Hentries,
          map_map.
  reflexivity.
Qed.

(** X21. In mixed mode the pallet list is the entries of the full pallets
    of the plans, in order, followed by one entry of count 1 for each
    pallet that [_pack_layers] makes of the remainder fragments of all
    plans, labelled "Mixed remainder pallet #1", "#2", ... in the order of
    the packer; each of these holds at least one fragment, and its goods
    height is within the goods height limit of the call. *)
Theorem mixed_mode_pallets (data : CalculationInput.t)
  (r : CalculationResult.t) :
  calculate data = Ok r ->
  CalculationInput.allow_mixed_remainders data = true ->
  exists pallet container_height_cm limit fragments packed full_part,
    _load_pallet float_of_str (CalculationInput.pallet data) = Ok pallet /\
    _resolve_container_height (CalculationInput.container_height data)
    = Ok container_height_cm /\
    PalletSpec.goods_height_limit pallet container_height_cm = Ok limit /\
    Forall2 (fun plan layers => _build_layers plan = Ok layers)
            (CalculationResult.product_plans r) fragments /\
    _pack_layers (List.concat fragments) limit = Ok packed /\
    CalculationResult.pallets r = full_part ++ mixed_pallets pallet packed /\
    map detail_summary full_part
    = flat_map full_entry (CalculationResult.product_plans r) /\
    map PalletDetail.label (mixed_pallets pallet packed)
    = map (fun index => ("Mixed remainder pallet #" ++ str_of_nat index)%string)
          (seq 1 (List.length packed)) /\
    Forall (fun detail =>
              PalletDetail.count detail = 1 /\
              PalletDetail.cartons_by_product detail <> [] /\
              (PalletDetail.goods_height_cm detail <=? limit)%float = true)
           (mixed_pallets pallet packed).
Proof.
  intros H Hmode. apply calculate_palletization_Ok in H.
  destruct H as (products & pallet & ch & limit & st & packed & _ & Hpal & Hch
                 & Hlim & Hloop & Hpacked & Hplans & Hpallets & _).
  rewrite Hmode in Hloop, Hpacked.
  apply plan_loop_mixed in Hloop; [|apply (goods_height_limit_positive _ _ _ Hlim)].
  destruct Hloop as (Hfull & Hheights & fragments & Hfr & Hcat).
  exists pallet, ch, limit, fragments, packed, (pallets st).
  rewrite Hplans, <- Hcat.
  repeat (split; [assumption|]).
  split; [apply mixed_pallets_labels|].
  pose proof (pack_layers_within_limit _ _ _ Hheights Hpacked) as Hfit.
  apply Forall_forall. intros detail Hin.
  apply mixed_pallets_In in Hin. destruct Hin as (index & g & Hg & ->).
  rewrite Forall_forall in Hfit. destruct (Hfit g Hg) as [Hne Hle].
  destruct (mixed_pallet_fields pallet index g) as (-> & -> & -> & _).
  split; [reflexivity|]. split; [|exact Hle].
  intros E. destruct g as [|l g]; [contradiction Hne; reflexivity|].
  pose proof (stack_totals_keys (l :: g) (Layer.product_name l)
                (or_introl eq_refl)) as Hkey.
  rewrite E in Hkey. exact Hkey.
Qed.

(** X22. The cartons of each product are conserved, in either mode: for
    every product name, the cartons under that name on all pallets of the
    result ([count] times the entry of the name in cartons_by_product,
    summed over the pallet details) are
    [full_pallets * cartons_per_pallet + remainder_cartons] summed over the
    plans of the products of that name. *)
Theorem cartons_conserved_by_product (data : CalculationInput.t)
  (r : CalculationResult.t) (name : string) :
  calculate data = Ok r ->
  pallets_cartons_of name (CalculationResult.pallets r)
  = plans_cartons_of name (CalculationResult.product_plans r).
Proof.
  intros H. apply calculate_palletization_Ok in H.
  destruct H as (products & pallet & ch & limit & st & packed & _ & _ & _ & _
                 & Hloop & Hpacked & Hplans & Hpallets & _).
  pose proof (plan_loop_cartons_of name _ _ _ _ _ Hloop) as Hsum.
  apply plan_loop_cartons in Hloop. destruct Hloop as (_ & Hnil & _).
  rewrite Hplans, Hpallets, pallets_cartons_of_app, mixed_pallets_cartons_of,
          <- Hsum.
  f_equal.
  destruct (CalculationInput.allow_mixed_remainders data).
  - rewrite (pack_layers_concat _ _ _ Hpacked).
    apply layers_cartons_of_perm, sorted_reverse_perm.
  - rewrite Hpacked, (Hnil eq_refl). reflexivity.
Qed.

Lemma dedicated_pallets_ceiling pallet limit product plan :
  planned pallet limit product plan ->
  dedicated_pallets plan
  = (ProductPlan.full_pallets plan * ProductPlan.cartons_per_pallet plan
     + ProductPlan.remainder_cartons plan
     + ProductPlan.cartons_per_pallet plan - 1)
    / ProductPlan.cartons_per_pallet plan.
Proof.
  intros (_ & _ & _ & _ & _ & Hpos & cr & _ & Hfull & Hrem).
  unfold dedicated_pallets. rewrite Hfull, Hrem.
  set (cpp := ProductPlan.cartons_per_pallet plan) in *.
  pose proof (Z.mod_pos_bound cr cpp Hpos) as Hmod.
  destruct (Z.eqb_spec (cr mod cpp) 0) as [Hz|Hnz].
  - rewrite Hz. apply (Z.div_unique_pos _ _ _ (cpp - 1)); lia.
  - apply (Z.div_unique_pos _ _ _ (cr mod cpp - 1)); lia.
Qed.

(** X23. Dedicated mode uses, for each product, the least number of
    pallets that hold its cartons at [cartons_per_pallet] a pallet: the
    total of pallets is the sum over the plans of
    [ceil(cartons / cartons_per_pallet)], the cartons of a plan being
    [full_pallets * cartons_per_pallet + remainder_cartons]. *)
Theorem dedicated_total_is_sum_of_ceilings (data : CalculationInput.t)
  (r : CalculationResult.t) :
  calculate data = Ok r ->
  CalculationInput.allow_mixed_remainders data = false ->
  CalculationResult.total_pallets r
  = sum_Z (map (fun plan =>
                  (ProductPlan.full_pallets plan
                   * ProductPlan.cartons_per_pallet plan
                   + ProductPlan.remainder_cartons plan
                   + ProductPlan.cartons_per_pallet plan - 1)
                  / ProductPlan.cartons_per_pallet plan)
               (CalculationResult.product_plans r)).
Proof.
  intros H Hmode. apply calculate_palletization_Ok in H.
  destruct H as (products & pallet & ch & limit & st & packed & _ & _ & _ & _
                 & Hloop & Hpacked & Hplans & Hpallets & _ & Hcount & _).
  rewrite Hmode in Hloop, Hpacked. subst packed.
  cbn [mixed_pallets List.length seq combine map] in Hpallets.
  rewrite app_nil_r in Hpallets.
  pose proof (plan_loop_dedicated _ _ _ _ Hloop) as Hentries.
  apply plan_loop_planned in Hloop. destruct Hloop as (plans & Hst & Hall).
  cbn [app product_plans initial_state] in Hst.
  rewrite Hcount, sum_counts_sum_Z, Hpallets, Hplans.
  transitivity (sum_Z (map dedicated_pallets (product_plans st))).
  - rewrite <- dedicated_entries_count, <- Hentries, map_map. reflexivity.
  - rewrite Hst. clear Hst Hentries. f_equal.
    induction Hall as [|product plan products plans Hplan _ IH];
      [reflexivity|].
    cbn [map]. f_equal; [|exact IH].
    apply (dedicated_pallets_ceiling _ _ _ _ Hplan).
Qed.

(** X24. The remainder of a plan never needs more layers than a full
    pallet has: when the remainder is not zero (and the cartons per pallet
    are below [2^53]), the layer count of the dedicated remainder pallet,
    [ceil(remainder_cartons / cartons_per_layer)], is at least one and at
    most [layers_per_pallet]. *)
Theorem remainder_layers_within_pallet (data : CalculationInput.t)
  (r : CalculationResult.t) (plan : ProductPlan.t) :
  calculate data = Ok r ->
  In plan (CalculationResult.product_plans r) ->
  ProductPlan.remainder_cartons plan <> 0 ->
  ProductPlan.cartons_per_pallet plan < 2 ^ 53 ->
  exists layer_count,
    (q <- int_truediv (ProductPlan.remainder_cartons plan)
            (OrientationPlan.cartons_per_layer (ProductPlan.orientation plan)) ;;
     math_ceil q) = Ok layer_count /\
    1 <= layer_count <= ProductPlan.layers_per_pallet plan.
Proof.
  intros H Hin Hrem Hbound. apply calculate_palletization_Ok in H.
  destruct H as (products & pallet & ch & limit & st & packed & _ & _ & _ & _
                 & Hloop & _ & Hplans & _).
  apply plan_loop_planned in Hloop. destruct Hloop as (plans & Hst & Hall).
  rewrite Hplans, Hst in Hin. cbn [app product_plans initial_state] in Hin.
  destruct (Forall2_In_r _ _ _ _ Hall Hin) as (product & _ & Hplan).
  destruct Hplan as (_ & _ & _ & Hcpp & Hlpp & Hpos & cr & _ & _ & Hmodeq).
  pose proof (Z.mod_pos_bound cr _ Hpos) as Hmod. rewrite <- Hmodeq in Hmod.
  set (per := OrientationPlan.cartons_per_layer (ProductPlan.orientation plan))
    in *.
  set (lpp := ProductPlan.layers_per_pallet plan) in *.
  set (rem := ProductPlan.remainder_cartons plan) in *.
  assert (Hper : 0 < per) by nia.
  assert (Hle : per <= ProductPlan.cartons_per_pallet plan) by nia.
  exists ((rem + per - 1) / per). split.
  - apply int_truediv_ceil; lia.
  - split.
    + apply Z.div_le_lower_bound; lia.
    + apply Z.lt_succ_r, Z.div_lt_upper_bound; [lia|]. nia.
Qed.

(** X25. A successful call has at least one plan, and as many plans as the
    input has product entries. *)
Theorem result_has_plan_per_entry (data : CalculationInput.t)
  (r : CalculationResult.t) :
  calculate data = Ok r ->
  List.length (CalculationResult.product_plans r)
  = List.length (CalculationInput.products data) /\
  CalculationResult.product_plans r <> [].
Proof.
  intros H. apply calculate_palletization_Ok in H.
  destruct H as (products & pallet & ch & limit & st & packed & Hprod & _ & _
                 & _ & Hloop & _ & Hplans & _).
  apply plan_loop_planned in Hloop. destruct Hloop as (plans & Hst & Hall).
  cbn [app product_plans initial_state] in Hst.
  unfold _load_products in Hprod. apply bind_Ok in Hprod.
  destruct Hprod as (ps & Hps & Hne).
  apply load_loop_Ok in Hps. destruct Hps as (new & -> & Hnew).
  cbn [app] in Hne.
  assert (Hnew' : new = products /\ products <> []).
  { destruct new; [discriminate|]. injection Hne as <-.
    split; [reflexivity|discriminate]. }
  destruct Hnew' as [-> Hnonempty].
  rewrite Hplans, Hst. split.
  - rewrite <- (Forall2_length Hall). symmetry. apply (Forall2_length Hnew).
  - intros E. rewrite E in Hall. inversion Hall. subst. contradiction.
Qed.

End EngineFacts.

(** ** The exceptions of the engine *)

Lemma never_raises_bind {A B : Type} bad (r : result A) (k : A -> result B) :
  never_raises bad r -> (forall a, r = Ok a -> never_raises bad (k a)) ->
  never_raises bad (bind r k).
Proof.
  unfold never_raises. intros Hr Hk e. destruct r as [a|e0]; cbn [bind].
  - apply Hk. reflexivity.
  - intros H. injection H as <-. apply Hr. reflexivity.
Qed.

Lemma never_raises_foldM {A S : Type} bad (f : S -> A -> result S) xs :
  (forall s x, never_raises bad (f s x)) ->
  forall s, never_raises bad (foldM f xs s).
Proof.
  intros Hf. induction xs as [|x xs IH]; intros s; cbn [foldM].
  - intros e H. discriminate.
  - apply never_raises_bind; [apply Hf|]. intros a _. apply IH.
Qed.

Lemma never_raises_Ok {A : Type} bad (a : A) : never_raises bad (Ok a).
Proof. intros e H. discriminate. Qed.

Lemma never_raises_Raise {A : Type} (bad : exn -> bool) e :
  bad e = false -> never_raises bad (@Raise A e).
Proof. intros He e' H. injection H as <-. exact He. Qed.

(** What the handler of the loaders lets through. *)
Lemma never_raises_except {A : Type} (m : message) (r : result A) :
  never_raises is_attribute_error r ->
  never_raises lookup_exception (except_invalid m r).
Proof.
  unfold never_raises. intros Hr e.
  destruct r as [a|e0]; [discriminate|].
  specialize (Hr e0 eq_refl).
  destruct e0; cbn; intros H; injection H as <-; try reflexivity.
  discriminate Hr.
Qed.

Ltac destruct_innermost x :=
  lazymatch x with
  | context [match ?y with _ => _ end] => destruct_innermost y
  | _ => destruct x
  end.

Ltac never_raises :=
  unfold never_raises; intros ?e;
  repeat match goal with
  | |- context [match ?x with _ => _ end] => destruct_innermost x
  end;
  let H := fresh "H" in
  intros H; first [discriminate H | injection H as <-; reflexivity].

Lemma never_lookup_float_truediv x y :
  never_raises lookup_exception (float_truediv x y).
Proof. unfold float_truediv. never_raises. Qed.

Lemma never_lookup_math_floor x : never_raises lookup_exception (math_floor x).
Proof. unfold math_floor. never_raises. Qed.

Lemma never_lookup_math_ceil x : never_raises lookup_exception (math_ceil x).
Proof. unfold math_ceil. never_raises. Qed.

Lemma never_lookup_float_of_int n :
  never_raises lookup_exception (float_of_int n).
Proof. unfold float_of_int. never_raises. Qed.

Lemma never_lookup_int_truediv a b :
  never_raises lookup_exception (int_truediv a b).
Proof. unfold int_truediv. never_raises. Qed.

Lemma never_lookup_int_mul_float n x :
  never_raises lookup_exception (int_mul_float n x).
Proof.
  unfold int_mul_float. apply never_raises_bind;
    [apply never_lookup_float_of_int|intros; apply never_raises_Ok].
Qed.

Lemma never_lookup_cartons_required p :
  never_raises lookup_exception (ProductSpec.cartons_required p).
Proof.
  unfold ProductSpec.cartons_required. apply never_raises_bind;
    [apply never_lookup_int_truediv|intros; apply never_lookup_math_ceil].
Qed.

Lemma never_lookup_best_orientation product pallet :
  never_raises lookup_exception (_best_orientation product pallet).
Proof.
  unfold _best_orientation. apply never_raises_bind.
  - apply never_raises_foldM. intros options [l w]. unfold orientation_step.
    repeat (apply never_raises_bind;
            [apply never_lookup_float_truediv || apply never_lookup_math_floor
            |intros ? _]).
    never_raises.
  - intros options _. never_raises.
Qed.

Lemma never_lookup_build_layers plan :
  never_raises lookup_exception (_build_layers plan).
Proof. unfold _build_layers, int_floordiv, int_mod, bind. never_raises. Qed.

Lemma never_lookup_plan_step mixed pallet limit st product :
  never_raises lookup_exception (plan_step mixed pallet limit st product).
Proof.
  unfold plan_step.
  apply never_raises_bind; [apply never_lookup_best_orientation|intros o _].
  apply never_raises_bind; [apply never_lookup_float_truediv|intros q _].
  apply never_raises_bind; [apply never_lookup_math_floor|intros lpp _].
  destruct (lpp <=? 0); [apply never_raises_Raise; reflexivity|].
  destruct (OrientationPlan.cartons_per_layer o * lpp <=? 0);
    [apply never_raises_Raise; reflexivity|].
  apply never_raises_bind; [apply never_lookup_cartons_required|intros cr _].
  apply never_raises_bind; [unfold int_floordiv; never_raises|intros fp _].
  apply never_raises_bind; [unfold int_mod; never_raises|intros rem _].
  apply never_raises_bind; [apply never_lookup_int_mul_float|intros vol _].
  apply never_raises_bind.
  { destruct (fp =? 0); [apply never_raises_Ok|].
    apply never_raises_bind;
      [apply never_lookup_int_mul_float|intros; apply never_raises_Ok]. }
  intros p1 _.
  apply never_raises_bind; [|intros [l2 p2] _; apply never_raises_Ok].
  destruct mixed.
  - apply never_raises_bind;
      [apply never_lookup_build_layers|intros; apply never_raises_Ok].
  - destruct (rem =? 0); [apply never_raises_Ok|].
    apply never_raises_bind; [|intros; apply never_raises_Ok].
    unfold remainder_goods_height.
    apply never_raises_bind; [apply never_lookup_int_truediv|intros ? _].
    apply never_raises_bind; [apply never_lookup_math_ceil|intros ? _].
    apply never_lookup_int_mul_float.
Qed.

Lemma never_lookup_pack_layers layers limit :
  never_raises lookup_exception (_pack_layers layers limit).
Proof.
  unfold _pack_layers. destruct layers as [|l layers]; [apply never_raises_Ok|].
  apply never_raises_bind.
  - apply never_raises_foldM. intros st x. unfold pack_step. never_raises.
  - intros st _. never_raises.
Qed.

Section Exceptions.
Variable int_of_str : string -> option Z.
Variable float_of_str : string -> option float.
Variable repr : pyval -> string.

Lemma never_attribute_py_float v :
  never_raises is_attribute_error (py_float float_of_str v).
Proof. unfold py_float, float_of_int. never_raises. Qed.

Lemma never_attribute_py_int v :
  never_raises is_attribute_error (py_int int_of_str v).
Proof. unfold py_int, float_trunc. never_raises. Qed.

Lemma never_attribute_getitem_key v k :
  never_raises is_attribute_error (getitem_key v k).
Proof. unfold getitem_key. never_raises. Qed.

Lemma never_attribute_getitem_index v i :
  never_raises is_attribute_error (getitem_index v i).
Proof. unfold getitem_index. never_raises. Qed.

Lemma never_attribute_load_product raw :
  never_raises is_attribute_error
    (load_product int_of_str float_of_str repr raw).
Proof.
  unfold load_product.
  repeat (apply never_raises_bind;
          [first [apply never_attribute_getitem_key
                 |apply never_attribute_getitem_index
                 |apply never_attribute_py_float
                 |apply never_attribute_py_int]
          |intros ? _]).
  apply never_raises_Ok.
Qed.

Lemma never_lookup_load_products raw_products :
  never_raises lookup_exception
    (_load_products int_of_str float_of_str repr raw_products).
Proof.
  unfold _load_products. apply never_raises_bind.
  - apply never_raises_foldM. intros products raw.
    apply never_raises_bind; [|intros; apply never_raises_Ok].
    apply never_raises_except, never_attribute_load_product.
  - intros products _. never_raises.
Qed.

Lemma never_lookup_load_pallet raw_pallet :
  never_raises lookup_exception (_load_pallet float_of_str raw_pallet).
Proof.
  unfold _load_pallet. apply never_raises_bind.
  - apply never_raises_except.
    destruct raw_pallet as [| | | | | |d];
      try (apply never_raises_Raise; reflexivity).
    apply never_raises_bind; [apply never_attribute_getitem_key|intros ? _].
    apply never_raises_bind; [apply never_attribute_py_float|intros ? _].
    apply never_raises_bind; [apply never_attribute_getitem_key|intros ? _].
    apply never_raises_bind; [apply never_attribute_py_float|intros ? _].
    apply never_raises_bind; [apply never_attribute_getitem_key|intros ? _].
    apply never_raises_bind; [apply never_attribute_py_float|intros ? _].
    apply never_raises_bind; [cbn [get_default]; never_raises|intros ? _].
    apply never_raises_bind; [apply never_attribute_py_float|intros ? _].
    apply never_raises_Ok.
  - intros [[[l w] h] b] _. never_raises.
Qed.

(** X26. On an input whose fields have their declared types (a list of
    entries, a str code, a bool mode; the entries and the pallet record can
    be any JSON value) the engine fails with a ValueError, an IndexError, an
    OverflowError or a ZeroDivisionError only: every KeyError and TypeError
    of a lookup or conversion ends in a ValueError of a loader, and no
    AttributeError is reached. *)
Theorem engine_exceptions (data : CalculationInput.t) (e : exn) :
  calculate_palletization int_of_str float_of_str repr data = Raise e ->
  (exists m, e = ValueError m) \/ e = IndexError \/ e = OverflowError \/
  e = ZeroDivisionError.
Proof.
  intros H.
  assert (Hno : never_raises lookup_exception
                  (calculate_palletization int_of_str float_of_str repr data)).
  { unfold calculate_palletization.
    apply never_raises_bind; [apply never_lookup_load_products|intros ? _].
    apply never_raises_bind; [apply never_lookup_load_pallet|intros pallet _].
    apply never_raises_bind;
      [unfold _resolve_container_height; never_raises|intros ? _].
    apply never_raises_bind;
      [unfold PalletSpec.goods_height_limit; never_raises|intros limit _].
    apply never_raises_bind;
      [apply never_raises_foldM; intros; apply never_lookup_plan_step
      |intros st _].
    apply never_raises_bind.
    - destruct (CalculationInput.allow_mixed_remainders data);
        [|apply never_raises_Ok].
      destruct (remainder_layers st) as [|l ls] eqn:El; [apply never_raises_Ok|].
      apply never_raises_bind;
        [apply never_lookup_pack_layers|intros; apply never_raises_Ok].
    - intros all_pallets _.
      apply never_raises_bind; [|intros; apply never_raises_Ok].
      apply never_raises_foldM. intros v d. unfold volume_step.
      apply never_raises_bind;
        [apply never_lookup_float_of_int|intros; apply never_raises_Ok]. }
  specialize (Hno e H).
  destruct e; try discriminate Hno; eauto.
Qed.

End Exceptions.

(** ** The yes/no field of the web form *)

Lemma is_space_lower_char c : is_space (lower_char c) = is_space c.
Proof. destruct c as [[] [] [] [] [] [] [] []]; reflexivity. Qed.

Lemma str_lstrip_all_space s t :
  all_space s = true -> str_lstrip (s ++ t) = str_lstrip t.
Proof.
  induction s as [|c s IH]; [reflexivity|]. cbn [all_space append str_lstrip].
  intros H. apply andb_prop in H. destruct H as [-> H]. apply IH, H.
Qed.

Lemma str_lstrip_app s t :
  str_lstrip (s ++ t)
  = match str_lstrip s with
    | EmptyString => str_lstrip t
    | s' => (s' ++ t)%string
    end.
Proof.
  induction s as [|c s IH]; [reflexivity|]. cbn [append str_lstrip].
  destruct (is_space c); [exact IH|reflexivity].
Qed.

Lemma str_rstrip_all_space s : all_space s = true -> str_rstrip s = EmptyString.
Proof.
  induction s as [|c s IH]; [reflexivity|]. cbn [all_space str_rstrip].
  intros H. apply andb_prop in H. destruct H as [-> H]. rewrite (IH H).
  reflexivity.
Qed.

Lemma str_lstrip_all_space_nil s :
  all_space s = true -> str_lstrip s = EmptyString.
Proof.
  induction s as [|c s IH]; [reflexivity|]. cbn [all_space str_lstrip].
  intros H. apply andb_prop in H. destruct H as [-> H]. exact (IH H).
Qed.

Lemma str_rstrip_app_space s t :
  all_space t = true -> str_rstrip (s ++ t) = str_rstrip s.
Proof.
  intros Ht. induction s as [|c s IH]; cbn [append str_rstrip].
  - apply str_rstrip_all_space, Ht.
  - rewrite IH. reflexivity.
Qed.

Lemma str_strip_padding before value after :
  all_space before = true -> all_space after = true ->
  str_strip (before ++ value ++ after) = str_strip value.
Proof.
  intros Hb Ha. unfold str_strip.
  rewrite (str_lstrip_all_space _ _ Hb), str_lstrip_app.
  destruct (str_lstrip value) as [|c s] eqn:E.
  - rewrite (str_lstrip_all_space_nil _ Ha). reflexivity.
  - apply (str_rstrip_app_space (String c s) after Ha).
Qed.

Lemma str_lower_lstrip s : str_lower (str_lstrip s) = str_lstrip (str_lower s).
Proof.
  induction s as [|c s IH]; [reflexivity|]. cbn [str_lstrip str_lower].
  rewrite is_space_lower_char. destruct (is_space c); [exact IH|reflexivity].
Qed.

Lemma str_lower_rstrip s : str_lower (str_rstrip s) = str_rstrip (str_lower s).
Proof.
  induction s as [|c s IH]; [reflexivity|]. cbn [str_rstrip str_lower].
  rewrite <- IH, is_space_lower_char.
  destruct (str_rstrip s) as [|c' t]; cbn [str_lower]; [|reflexivity].
  destruct (is_space c); reflexivity.
Qed.

(** X27. The yes/no field is read without regard to blanks around the
    answer and to letter case: an answer padded with whitespace on either
    side reads as any answer that differs from it in letter case only. *)
Theorem parse_yes_no_ignores_padding_and_case
  (before value after value' : string) :
  all_space before = true -> all_space after = true ->
  str_lower value = str_lower value' ->
  _parse_yes_no (before ++ value ++ after) = _parse_yes_no value'.
Proof.
  intros Hb Ha Hcase. unfold _parse_yes_no.
  rewrite (str_strip_padding _ _ _ Hb Ha). unfold str_strip.
  rewrite !str_lower_rstrip, !str_lower_lstrip, Hcase. reflexivity.
Qed.

(** ** The sign of a difference of binary64 floats *)

Lemma iter_xO_pow2 m d : Zpos (Pos.iter xO m d) = Zpos m * 2 ^ Zpos d.
Proof.
  induction d as [|d IH] using Pos.peano_ind.
  - cbn [Pos.iter]. change (2 ^ 1) with 2. lia.
  - rewrite Pos.iter_succ, Pos2Z.inj_succ, Z.pow_succ_r by lia.
    rewrite Pos2Z.inj_xO, IH. lia.
Qed.

Lemma shl_align_value m e e' :
  e' <= e ->
  Zpos (fst (shl_align m e e')) = Zpos m * 2 ^ (e - e') /\
  snd (shl_align m e e') = e'.
Proof.
  intros H. unfold shl_align.
  destruct (e' - e) as [|p|p] eqn:E; try lia.
  - replace (e - e') with 0 by lia. cbn [fst snd]. change (2 ^ 0) with 1.
    split; lia.
  - cbn [fst snd]. rewrite iter_xO_pow2. split; [|reflexivity].
    f_equal. f_equal. lia.
Qed.

(** Rounding a non-zero integer multiple of [2^e], [e] in the range of the
    format, gives no zero: the result has the sign that was asked for. *)
Lemma binary_round_nonzero s p e :
  -1074 <= e ->
  binary_round prec emax s p e = S754_infinity s \/
  exists m3 e3, binary_round prec emax s p e = S754_finite s m3 e3.
Proof.
  intros He. unfold binary_round.
  set (e' := fexp prec emax (Zpos (digits2_pos p) + e)).
  change (Zpos (digits2_pos p)) with (Zdigits2 (Zpos p)) in e'.
  assert (Hd : 1 <= Zdigits2 (Zpos p)) by (cbn; lia).
  assert (Halign : exists mz ez,
            shl_align p e e' = (mz, ez) /\ -1074 <= ez /\
            ez <= fexp prec emax (Zdigits2 (Zpos mz) + ez)).
  { destruct (Z.le_gt_cases e' e) as [Hle|Hgt].
    - destruct (shl_align_value p e e' Hle) as [Hm Hz].
      destruct (shl_align p e e') as [mz ez]. cbn [fst snd] in Hm, Hz.
      subst ez. exists mz, e'. split; [reflexivity|].
      assert (He' : -1074 <= e') by (unfold e'; rewrite fexp64; lia).
      split; [exact He'|].
      assert (Hdig : Zdigits2 (Zpos mz) = Zdigits2 (Zpos p) + (e - e')).
      { apply Zdigits2_unique; [lia|].
        pose proof (Zdigits2_bounds (Zpos p) ltac:(lia)) as [Hlo Hhi].
        rewrite Hm.
        replace (Zdigits2 (Z.pos p) + (e - e') - 1)
          with ((Zdigits2 (Z.pos p) - 1) + (e - e')) by lia.
        rewrite !Z.pow_add_r by lia.
        assert (0 < 2 ^ (e - e')) by (apply Z.pow_pos_nonneg; lia).
        nia. }
      rewrite Hdig. replace (Zdigits2 (Z.pos p) + (e - e') + e')
        with (Zdigits2 (Z.pos p) + e) by lia.
      fold e'. lia.
    - exists p, e. split.
      + unfold shl_align. destruct (e' - e) eqn:E; try reflexivity. lia.
      + split; [exact He|]. fold e'. lia. }
  destruct Halign as (mz & ez & -> & Hez & Hfexp).
  pose proof (binary_round_aux_correct s (Zpos mz) ez 0 1 ltac:(lia) ltac:(lia)
                Hfexp) as H.
  cbv zeta in H. change (loc_of 0 1) with loc_Exact in H.
  set (e1 := fexp prec emax (Zdigits2 (Zpos mz) + ez)) in *.
  assert (Hpos : 0 < rne (Zpos mz * 1 + 0) (1 * 2 ^ (e1 - ez))).
  { assert (Hp : 0 < 2 ^ (e1 - ez)) by (apply Z.pow_pos_nonneg; lia).
    assert (Hge : 2 ^ (e1 - ez) <= Zpos mz).
    { pose proof (Zdigits2_bounds (Zpos mz) ltac:(lia)) as [Hlo _].
      apply Z.le_trans with (2 ^ (Zdigits2 (Zpos mz) - 1)); [|exact Hlo].
      assert (1 <= Zdigits2 (Zpos mz)) by (cbn; lia).
      apply Z.pow_le_mono_r; [lia|]. unfold e1. rewrite fexp64. lia. }
    assert (Hq : 1 <= (Zpos mz * 1 + 0) / (1 * 2 ^ (e1 - ez))).
    { apply Z.div_le_lower_bound; lia. }
    destruct (rne_cases (Zpos mz * 1 + 0) (1 * 2 ^ (e1 - ez))) as [-> | ->]; lia. }
  destruct H as [[Hz _]|(m3 & e3 & _ & _ & _ & ->)]; [lia|].
  destruct (e3 <=? emax - prec); eauto.
Qed.

Lemma canonical_order mx ex my ey :
  canonical_mantissa prec emax mx ex = true ->
  canonical_mantissa prec emax my ey = true ->
  ex < ey -> Zpos mx < Zpos my * 2 ^ (ey - ex).
Proof.
  intros Hcx Hcy Hlt.
  destruct (canonical_bounds _ _ Hcx) as (Hdx & Hex & _).
  destruct (canonical_bounds _ _ Hcy) as (_ & _ & Hny).
  pose proof (Zdigits2_bounds (Zpos mx) ltac:(lia)) as [_ Hhix].
  pose proof (Zdigits2_bounds (Zpos my) ltac:(lia)) as [Hloy _].
  rewrite Hny in Hloy by lia.
  assert (Hx53 : Zpos mx < 2 ^ 53).
  { apply Z.lt_le_trans with (2 ^ Zdigits2 (Zpos mx)); [assumption|].
    apply Z.pow_le_mono_r; lia. }
  assert (H2 : 2 ^ 1 <= 2 ^ (ey - ex)) by (apply Z.pow_le_mono_r; lia).
  change (2 ^ 1) with 2 in H2.
  change (2 ^ 53) with 9007199254740992 in *.
  change (2 ^ (53 - 1)) with 4503599627370496 in *. nia.
Qed.

(** For two positive finite floats, [x - y <= 0] exactly when [x <= y]. *)
Lemma SFsub_leb_zero mx ex my ey :
  canonical_mantissa prec emax mx ex = true ->
  canonical_mantissa prec emax my ey = true ->
  SFleb (SFsub prec emax (S754_finite false mx ex) (S754_finite false my ey))
        (S754_zero false)
  = SFleb (S754_finite false mx ex) (S754_finite false my ey).
Proof.
  intros Hcx Hcy.
  destruct (canonical_bounds _ _ Hcx) as (_ & Hex & _).
  destruct (canonical_bounds _ _ Hcy) as (_ & Hey & _).
  cbn [SFsub cond_Zopp].
  set (ez := Z.min ex ey).
  destruct (shl_align_value mx ex ez ltac:(unfold ez; lia)) as [Ha _].
  destruct (shl_align_value my ey ez ltac:(unfold ez; lia)) as [Hb _].
  rewrite Ha, Hb.
  assert (Hez : -1074 <= ez) by (unfold ez; lia).
  assert (Hsign : forall m,
            SFleb (binary_normalize prec emax m ez false) (S754_zero false)
            = (m <=? 0)).
  { intros [|p|p]; cbn [binary_normalize].
    - reflexivity.
    - destruct (binary_round_nonzero false p ez Hez) as [->|(m3 & e3 & ->)];
        reflexivity.
    - destruct (binary_round_nonzero true p ez Hez) as [->|(m3 & e3 & ->)];
        reflexivity. }
  rewrite Hsign. unfold SFleb, SFcompare.
  destruct (Z.compare_spec ex ey) as [Heq|Hlt|Hgt].
  - subst ey. replace ez with ex by (unfold ez; lia).
    rewrite Z.sub_diag. change (2 ^ 0) with 1.
    rewrite Pos.compare_cont_spec. cbn [Pos.switch_Eq].
    change (Pos.compare mx my) with (Z.compare (Zpos mx) (Zpos my)).
    destruct (Z.compare_spec (Zpos mx) (Zpos my));
      [apply Z.leb_le|apply Z.leb_le|apply Z.leb_gt]; lia.
  - pose proof (canonical_order _ _ _ _ Hcx Hcy Hlt).
    replace ez with ex by (unfold ez; lia).
    rewrite Z.sub_diag. change (2 ^ 0) with 1. apply Z.leb_le. lia.
  - pose proof (canonical_order _ _ _ _ Hcy Hcx ltac:(lia)).
    replace ez with ey by (unfold ez; lia).
    rewrite Z.sub_diag. change (2 ^ 0) with 1. apply Z.leb_gt. lia.
Qed.

(** ** The goods height limit *)

Lemma leb_ltb_or_eqb (x y : float) :
  (x <=? y)%float = true -> (x <? y)%float = true \/ (x =? y)%float = true.
Proof.
  rewrite leb_spec, ltb_spec, eqb_spec. unfold SFleb, SFltb, SFeqb.
  destruct (SFcompare (Prim2SF x) (Prim2SF y)) as [[]|]; auto; discriminate.
Qed.

(** A float above zero is a positive finite number or the infinity. *)
Lemma above_zero_cases (x : float) :
  (x <=? 0)%float = false -> is_nan x = false ->
  Prim2SF x = S754_infinity false \/
  exists m e, Prim2SF x = S754_finite false m e /\
              canonical_mantissa prec emax m e = true.
Proof.
  unfold is_nan. rewrite leb_spec, eqb_spec.
  pose proof (Prim2SF_valid x) as Hv.
  change (Prim2SF 0) with (S754_zero false).
  destruct (Prim2SF x) as [[]|[]| |[] m e]; cbn; try discriminate; auto.
  intros _ _. right. exists m, e. split; [reflexivity|].
  cbn in Hv. unfold bounded in Hv. apply andb_prop in Hv. apply Hv.
Qed.

Lemma sub_leb_zero (x y : float) mx ex my ey :
  Prim2SF x = S754_finite false mx ex ->
  canonical_mantissa prec emax mx ex = true ->
  Prim2SF y = S754_finite false my ey ->
  canonical_mantissa prec emax my ey = true ->
  (x - y <=? 0)%float = (x <=? y)%float.
Proof.
  intros Hx Hcx Hy Hcy. rewrite !leb_spec, sub_spec, Hx, Hy.
  apply SFsub_leb_zero; assumption.
Qed.

Section LimitFacts.
Variable float_of_str : string -> option float.

(** X28. For a pallet that [_load_pallet] returned (its height and base no
    NaN) and the height of a container code, the goods height limit is
    refused, with "Pallet/base height exceeds available container height.",
    exactly when the base of the pallet alone is as high as the container;
    otherwise there is a limit. *)
Theorem goods_height_limit_base_check (raw_pallet : pyval)
  (pallet : PalletSpec.t) (code : string) (container_height_cm : float) :
  _load_pallet float_of_str raw_pallet = Ok pallet ->
  is_nan (PalletSpec.height_cm pallet) = false ->
  is_nan (PalletSpec.base_height_cm pallet) = false ->
  _resolve_container_height code = Ok container_height_cm ->
  match PalletSpec.goods_height_limit pallet container_height_cm with
  | Ok limit =>
      (PalletSpec.base_height_cm pallet <? container_height_cm)%float = true
  | Raise e =>
      e = ValueError PalletExceedsContainerHeight /\
      (container_height_cm <=? PalletSpec.base_height_cm pallet)%float = true
  end.
Proof.
  intros Hload Hnh Hnb Hcode.
  apply load_pallet_Ok in Hload.
  destruct Hload as (d & rl & rw & rh & _ & _ & _ & _ & _ & _ & _ & _ & Hpos
                     & Hbase).
  cbn [existsb] in Hpos. rewrite !orb_false_iff in Hpos.
  destruct Hpos as (_ & _ & Hh & Hb & _).
  set (h := PalletSpec.height_cm pallet) in *.
  set (b := PalletSpec.base_height_cm pallet) in *.
  assert (Hc : exists mc ec,
            Prim2SF container_height_cm = S754_finite false mc ec /\
            canonical_mantissa prec emax mc ec = true /\
            is_nan container_height_cm = false).
  { unfold _resolve_container_height in Hcode.
    destruct (dict_lookup _CONTAINER_HEIGHTS_CM (str_upper code)) as [v|] eqn:E;
      [|discriminate].
    injection Hcode as <-.
    unfold _CONTAINER_HEIGHTS_CM in E. cbn [dict_lookup] in E.
    repeat match type of E with
    | (if ?t then _ else _) = _ =>
        destruct t; [injection E as <-; vm_compute; eauto|]
    end.
    discriminate. }
  destruct Hc as (mc & ec & Hc & Hcc & Hnc).
  (* the base is a finite number *)
  assert (Hbf : exists mb eb, Prim2SF b = S754_finite false mb eb /\
                              canonical_mantissa prec emax mb eb = true).
  { destruct (above_zero_cases b Hb Hnb) as [Hinf|H]; [|exact H].
    exfalso. rewrite leb_spec, Hinf in Hbase.
    unfold is_nan in Hnh. rewrite eqb_spec in Hnh.
    destruct (Prim2SF h) as [[]|[]| |[] mh eh]; discriminate. }
  destruct Hbf as (mb & eb & Hbf & Hcb).
  assert (Hlt_bh : (b <? h)%float = true).
  { destruct (not_leb_ltb _ _ Hbase) as [H|[H|H]]; [exact H|congruence..]. }
  unfold PalletSpec.goods_height_limit, py_min. fold h. fold b.
  destruct (container_height_cm <? h)%float eqn:Hch.
  - rewrite (sub_leb_zero container_height_cm b _ _ _ _ Hc Hcc Hbf Hcb).
    destruct (container_height_cm <=? b)%float eqn:Hcb'.
    + split; reflexivity.
    + destruct (not_leb_ltb _ _ Hcb') as [H|[H|H]]; [exact H|congruence..].
  - (* the pallet is not higher than the container *)
    assert (Hhf : exists mh eh, Prim2SF h = S754_finite false mh eh /\
                                canonical_mantissa prec emax mh eh = true).
    { destruct (above_zero_cases h Hh Hnh) as [Hinf|H]; [|exact H].
      exfalso. rewrite ltb_spec, Hinf, Hc in Hch. discriminate. }
    destruct Hhf as (mh & eh & Hhf & Hchh).
    rewrite (sub_leb_zero h b _ _ _ _ Hhf Hchh Hbf Hcb), Hbase.
    assert (Hle : (h <=? container_height_cm)%float = true).
    { destruct (h <=? container_height_cm)%float eqn:E; [reflexivity|].
      destruct (not_leb_ltb _ _ E) as [H|[H|H]]; congruence. }
    destruct (leb_ltb_or_eqb _ _ Hle) as [Hlt|Heq].
    + apply (ltb_trans _ _ _ Hlt_bh Hlt).
    + assert (Hrefl : (container_height_cm =? container_height_cm)%float
                      = true).
      { unfold is_nan in Hnc.
        destruct (container_height_cm =? container_height_cm)%float;
          [reflexivity|discriminate]. }
      rewrite <- (eqb_ltb_r h container_height_cm container_height_cm b
                    Heq Hrefl).
      exact Hlt_bh.
Qed.

End LimitFacts.

(** ** Instances of the further properties *)

Lemma load_products_first_failure_witness :
  load_product decimal_int_of_str decimal_float_of_str plain_repr (PyDict [])
  = Raise KeyError /\
  _load_products decimal_int_of_str decimal_float_of_str plain_repr
    ([product_entry (ProductPlan.product example_plan)] ++ PyDict [] :: [PyNone])
  = Raise (ValueError (InvalidProductSpecification (PyDict []))).
Proof.
  split; [reflexivity|].
  apply (load_products_first_failure decimal_int_of_str decimal_float_of_str
           plain_repr [product_entry (ProductPlan.product example_plan)]
           (PyDict []) [PyNone] KeyError).
  - constructor; [|constructor]. eexists. reflexivity.
  - reflexivity.
Defined.

Lemma short_dimensions_raise_IndexError_witness :
  _load_products decimal_int_of_str decimal_float_of_str plain_repr
    [PyDict two_dimensions_entry] = Raise IndexError /\
  calculate_palletization decimal_int_of_str decimal_float_of_str plain_repr
    two_dimensions_input = Raise IndexError.
Proof.
  apply (short_dimensions_raise_IndexError decimal_int_of_str
           decimal_float_of_str plain_repr two_dimensions_input
           two_dimensions_entry [PyInt 56; PyInt 26] []).
  - reflexivity.
  - reflexivity.
  - cbn. lia.
  - constructor; [eexists; reflexivity|].
    constructor; [eexists; reflexivity|constructor].
Defined.

Lemma load_pallet_checked_witness :
  _load_pallet decimal_float_of_str (PyDict example_pallet_record)
  = Ok example_pallet /\
  Forall (fun value => (0 <? value)%float = true \/ is_nan value = true)
    [120%float; 105%float; 195%float; 15%float] /\
  ((15 <? 195)%float = true \/ is_nan 15 = true \/ is_nan 195 = true).
Proof.
  assert (H : _load_pallet decimal_float_of_str (PyDict example_pallet_record)
              = Ok example_pallet) by (vm_compute; reflexivity).
  split; [exact H|].
  exact (load_pallet_checked decimal_float_of_str
           (PyDict example_pallet_record) example_pallet H).
Defined.

Lemma load_pallet_default_base_witness :
  dict_lookup example_pallet_record "base_height_cm" = None /\
  _load_pallet decimal_float_of_str (PyDict example_pallet_record)
  = Ok example_pallet /\
  PalletSpec.base_height_cm example_pallet = 15%float.
Proof.
  assert (H1 : dict_lookup example_pallet_record "base_height_cm" = None)
    by reflexivity.
  assert (H2 : _load_pallet decimal_float_of_str (PyDict example_pallet_record)
               = Ok example_pallet) by (vm_compute; reflexivity).
  split; [exact H1|]. split; [exact H2|].
  exact (load_pallet_default_base decimal_float_of_str example_pallet_record
           example_pallet H1 H2).
Defined.

Lemma load_pallet_failures_witness :
  _load_pallet decimal_float_of_str (PyList [])
  = Raise (ValueError InvalidPalletSpecification) /\
  (ValueError InvalidPalletSpecification = OverflowError \/
   ValueError InvalidPalletSpecification
   = ValueError InvalidPalletSpecification \/
   ValueError InvalidPalletSpecification
   = ValueError PalletDimensionsNotPositive \/
   ValueError InvalidPalletSpecification
   = ValueError PalletBaseHeightTooHigh).
Proof.
  assert (H : _load_pallet decimal_float_of_str (PyList [])
              = Raise (ValueError InvalidPalletSpecification)) by reflexivity.
  split; [exact H|].
  exact (load_pallet_failures decimal_float_of_str (PyList [])
           (ValueError InvalidPalletSpecification) H).
Defined.

Lemma container_code_ignores_case_witness :
  _resolve_container_height "40hq" = Ok 269%float /\
  calculate_palletization decimal_int_of_str decimal_float_of_str plain_repr
    {| CalculationInput.products :=
         CalculationInput.products (build_example_input true);
       CalculationInput.pallet := PyDict example_pallet_record;
       CalculationInput.allow_mixed_remainders := true;
       CalculationInput.container_height := str_upper "40hq" |}
  = calculate_palletization decimal_int_of_str decimal_float_of_str plain_repr
      {| CalculationInput.products :=
           CalculationInput.products (build_example_input true);
         CalculationInput.pallet := PyDict example_pallet_record;
         CalculationInput.allow_mixed_remainders := true;
         CalculationInput.container_height := "40hq" |}.
Proof.
  assert (H : _resolve_container_height "40hq" = Ok 269%float) by reflexivity.
  split; [exact H|].
  exact (container_code_ignores_case decimal_int_of_str decimal_float_of_str
           plain_repr (CalculationInput.products (build_example_input true))
           (PyDict example_pallet_record) true "40hq" 269%float H).
Defined.

Lemma build_layers_fragments_witness :
  exists layers,
    _build_layers example_plan = Ok layers /\
    Z.of_nat (List.length layers) = (44 + 8 - 1) / 8 /\
    layers_cartons layers = 44 /\
    Forall (fun l =>
              Layer.product_name l = "A"%string /\
              Layer.layer_height_cm l = 20%float /\
              0 < Layer.cartons l <= 8)
           layers /\
    (forall i l, (S i < List.length layers)%nat ->
                 nth_error layers i = Some l -> Layer.cartons l = 8).
Proof.
  apply (build_layers_fragments example_plan); cbn; lia.
Defined.

Lemma pack_layers_keeps_fragments_witness :
  _pack_layers example_layers 60 = Ok [[layer_y; layer_x]; [layer_z]] /\
  Permutation (List.concat [[layer_y; layer_x]; [layer_z]]) example_layers /\
  ([[layer_y; layer_x]; [layer_z]] = [] <-> example_layers = []).
Proof.
  assert (H : _pack_layers example_layers 60
              = Ok [[layer_y; layer_x]; [layer_z]]) by reflexivity.
  split; [exact H|].
  exact (pack_layers_keeps_fragments example_layers 60 _ H).
Defined.

Lemma pack_layers_opens_when_full_witness :
  _pack_layers example_layers 60 = Ok [[layer_y; layer_x]; [layer_z]] /\
  adjacent (opened_for_lack_of_room 60) [[layer_y; layer_x]; [layer_z]].
Proof.
  assert (H : _pack_layers example_layers 60
              = Ok [[layer_y; layer_x]; [layer_z]]) by reflexivity.
  split; [exact H|].
  exact (pack_layers_opens_when_full example_layers 60 _ H).
Defined.

Lemma best_orientation_sides_exchanged_witness :
  _best_orientation (ProductPlan.product example_plan) example_pallet
  = Ok (ProductPlan.orientation example_plan) /\
  exists best',
    _best_orientation (swap_sides (ProductPlan.product example_plan))
      example_pallet = Ok best' /\
    orientation_key best'
    = orientation_key (ProductPlan.orientation example_plan).
Proof.
  assert (H : _best_orientation (ProductPlan.product example_plan)
                example_pallet
              = Ok (ProductPlan.orientation example_plan))
    by (vm_compute; reflexivity).
  split; [exact H|].
  exact (best_orientation_sides_exchanged (ProductPlan.product example_plan)
           example_pallet (ProductPlan.orientation example_plan) H).
Defined.

Lemma parse_yes_no_ignores_padding_and_case_witness :
  all_space "  " = true /\ all_space " " = true /\
  str_lower "Yes" = str_lower "yes" /\
  _parse_yes_no ("  " ++ "Yes" ++ " ") = _parse_yes_no "yes".
Proof.
  assert (H1 : all_space "  " = true) by reflexivity.
  assert (H2 : all_space " " = true) by reflexivity.
  assert (H3 : str_lower "Yes" = str_lower "yes") by reflexivity.
  split; [exact H1|]. split; [exact H2|]. split; [exact H3|].
  exact (parse_yes_no_ignores_padding_and_case "  " "Yes" " " "yes" H1 H2 H3).
Defined.

Lemma goods_height_limit_base_check_witness :
  _load_pallet decimal_float_of_str (PyDict example_pallet_record)
  = Ok example_pallet /\
  _resolve_container_height "20CY" = Ok 239%float /\
  match PalletSpec.goods_height_limit example_pallet 239 with
  | Ok limit => (15 <? 239)%float = true
  | Raise e =>
      e = ValueError PalletExceedsContainerHeight /\
      (239 <=? 15)%float = true
  end.
Proof.
  assert (H1 : _load_pallet decimal_float_of_str (PyDict example_pallet_record)
               = Ok example_pallet) by (vm_compute; reflexivity).
  assert (H2 : _resolve_container_height "20CY" = Ok 239%float) by reflexivity.
  split; [exact H1|]. split; [exact H2|].
  exact (goods_height_limit_base_check decimal_float_of_str
           (PyDict example_pallet_record) example_pallet "20CY" 239%float
           H1 eq_refl eq_refl H2).
Defined.

(** The engine on the input of the tests. *)

Lemma plans_follow_products_witness :
  calculate_palletization decimal_int_of_str decimal_float_of_str plain_repr
    (build_example_input true) = Ok scenario_mixed /\
  exists products pallet container_height_cm limit,
    _load_products decimal_int_of_str decimal_float_of_str plain_repr
      (CalculationInput.products (build_example_input true)) = Ok products /\
    _load_pallet decimal_float_of_str
      (CalculationInput.pallet (build_example_input true)) = Ok pallet /\
    _resolve_container_height
      (CalculationInput.container_height (build_example_input true))
    = Ok container_height_cm /\
    PalletSpec.goods_height_limit pallet container_height_cm = Ok limit /\
    Forall2 (planned pallet limit) products
            (CalculationResult.product_plans scenario_mixed).
Proof.
  assert (H : calculate_palletization decimal_int_of_str decimal_float_of_str
                plain_repr (build_example_input true) = Ok scenario_mixed)
    by (vm_compute; reflexivity).
  split; [exact H|].
  exact (plans_follow_products decimal_int_of_str decimal_float_of_str
           plain_repr (build_example_input true) scenario_mixed H).
Defined.

Lemma plan_numbers_sound_witness :
  calculate_palletization decimal_int_of_str decimal_float_of_str plain_repr
    (build_example_input true) = Ok scenario_mixed /\
  In scenario_plan_a (CalculationResult.product_plans scenario_mixed) /\
  1 <= 8 /\ 1 <= 9 /\ 72 = 8 * 9 /\ 0 <= 8 < 72 /\
  (0 <= 800 < 2 ^ 53 -> 0 < 10 < 2 ^ 53 -> 0 <= 1).
Proof.
  assert (H1 : calculate_palletization decimal_int_of_str decimal_float_of_str
                 plain_repr (build_example_input true) = Ok scenario_mixed)
    by (vm_compute; reflexivity).
  assert (H2 : In scenario_plan_a
                  (CalculationResult.product_plans scenario_mixed))
    by (left; reflexivity).
  split; [exact H1|]. split; [exact H2|].
  exact (plan_numbers_sound decimal_int_of_str decimal_float_of_str plain_repr
           (build_example_input true) scenario_mixed scenario_plan_a H1 H2).
Defined.

Lemma goods_volume_is_sum_witness :
  calculate_palletization decimal_int_of_str decimal_float_of_str plain_repr
    (build_example_input true) = Ok scenario_mixed /\
  goods_volume (CalculationResult.product_plans scenario_mixed) 0
  = Ok (CalculationResult.volume_without_pallets_cbm scenario_mixed).
Proof.
  assert (H : calculate_palletization decimal_int_of_str decimal_float_of_str
                plain_repr (build_example_input true) = Ok scenario_mixed)
    by (vm_compute; reflexivity).
  split; [exact H|].
  exact (goods_volume_is_sum decimal_int_of_str decimal_float_of_str plain_repr
           (build_example_input true) scenario_mixed H).
Defined.

Lemma plans_independent_of_mode_witness :
  CalculationResult.product_plans scenario_mixed
  = CalculationResult.product_plans scenario_dedicated /\
  CalculationResult.total_cartons scenario_mixed
  = CalculationResult.total_cartons scenario_dedicated /\
  CalculationResult.volume_without_pallets_cbm scenario_mixed
  = CalculationResult.volume_without_pallets_cbm scenario_dedicated.
Proof.
  apply (plans_independent_of_mode decimal_int_of_str decimal_float_of_str
           plain_repr (CalculationInput.products (build_example_input true))
           (CalculationInput.pallet (build_example_input true)) "20CY"
           scenario_mixed scenario_dedicated);
    vm_compute; reflexivity.
Defined.

Lemma dedicated_mode_pallets_witness :
  calculate_palletization decimal_int_of_str decimal_float_of_str plain_repr
    (build_example_input false) = Ok scenario_dedicated /\
  map detail_summary (CalculationResult.pallets scenario_dedicated)
  = flat_map (fun plan => full_entry plan ++ remainder_entry plan)
             (CalculationResult.product_plans scenario_dedicated) /\
  CalculationResult.total_pallets scenario_dedicated
  = sum_Z (map dedicated_pallets
               (CalculationResult.product_plans scenario_dedicated)).
Proof.
  assert (H : calculate_palletization decimal_int_of_str decimal_float_of_str
                plain_repr (build_example_input false) = Ok scenario_dedicated)
    by (vm_compute; reflexivity).
  split; [exact H|].
  exact (dedicated_mode_pallets decimal_int_of_str decimal_float_of_str
           plain_repr (build_example_input false) scenario_dedicated H
           eq_refl).
Defined.

Lemma dedicated_total_is_sum_of_ceilings_witness :
  calculate_palletization decimal_int_of_str decimal_float_of_str plain_repr
    (build_example_input false) = Ok scenario_dedicated /\
  CalculationResult.total_pallets scenario_dedicated
  = sum_Z (map (fun plan =>
                  (ProductPlan.full_pallets plan
                   * ProductPlan.cartons_per_pallet plan
                   + ProductPlan.remainder_cartons plan
                   + ProductPlan.cartons_per_pallet plan - 1)
                  / ProductPlan.cartons_per_pallet plan)
               (CalculationResult.product_plans scenario_dedicated)).
Proof.
  assert (H : calculate_palletization decimal_int_of_str decimal_float_of_str
                plain_repr (build_example_input false) = Ok scenario_dedicated)
    by (vm_compute; reflexivity).
  split; [exact H|].
  exact (dedicated_total_is_sum_of_ceilings decimal_int_of_str
           decimal_float_of_str plain_repr (build_example_input false)
           scenario_dedicated H eq_refl).
Defined.

Lemma mixed_mode_pallets_witness :
  calculate_palletization decimal_int_of_str decimal_float_of_str plain_repr
    (build_example_input true) = Ok scenario_mixed /\
  exists pallet container_height_cm limit fragments packed full_part,
    _load_pallet decimal_float_of_str
      (CalculationInput.pallet (build_example_input true)) = Ok pallet /\
    _resolve_container_height
      (CalculationInput.container_height (build_example_input true))
    = Ok container_height_cm /\
    PalletSpec.goods_height_limit pallet container_height_cm = Ok limit /\
    Forall2 (fun plan layers => _build_layers plan = Ok layers)
            (CalculationResult.product_plans scenario_mixed) fragments /\
    _pack_layers (List.concat fragments) limit = Ok packed /\
    CalculationResult.pallets scenario_mixed
    = full_part ++ mixed_pallets pallet packed /\
    map detail_summary full_part
    = flat_map full_entry (CalculationResult.product_plans scenario_mixed) /\
    map PalletDetail.label (mixed_pallets pallet packed)
    = map (fun index => ("Mixed remainder pallet #" ++ str_of_nat index)%string)
          (seq 1 (List.length packed)) /\
    Forall (fun detail =>
              PalletDetail.count detail = 1 /\
              PalletDetail.cartons_by_product detail <> [] /\
              (PalletDetail.goods_height_cm detail <=? limit)%float = true)
           (mixed_pallets pallet packed).
Proof.
  assert (H : calculate_palletization decimal_int_of_str decimal_float_of_str
                plain_repr (build_example_input true) = Ok scenario_mixed)
    by (vm_compute; reflexivity).
  split; [exact H|].
  exact (mixed_mode_pallets decimal_int_of_str decimal_float_of_str plain_repr
           (build_example_input true) scenario_mixed H eq_refl).
Defined.

Lemma cartons_conserved_by_product_witness :
  calculate_palletization decimal_int_of_str decimal_float_of_str plain_repr
    (build_example_input true) = Ok scenario_mixed /\
  pallets_cartons_of "999-00166" (CalculationResult.pallets scenario_mixed)
  = plans_cartons_of "999-00166"
      (CalculationResult.product_plans scenario_mixed).
Proof.
  assert (H : calculate_palletization decimal_int_of_str decimal_float_of_str
                plain_repr (build_example_input true) = Ok scenario_mixed)
    by (vm_compute; reflexivity).
  split; [exact H|].
  exact (cartons_conserved_by_product decimal_int_of_str decimal_float_of_str
           plain_repr (build_example_input true) scenario_mixed "999-00166" H).
Defined.

Lemma remainder_layers_within_pallet_witness :
  calculate_palletization decimal_int_of_str decimal_float_of_str plain_repr
    (build_example_input true) = Ok scenario_mixed /\
  In scenario_plan_a (CalculationResult.product_plans scenario_mixed) /\
  exists layer_count,
    (q <- int_truediv 8 8 ;; math_ceil q) = Ok layer_count /\
    1 <= layer_count <= 9.
Proof.
  assert (H1 : calculate_palletization decimal_int_of_str decimal_float_of_str
                 plain_repr (build_example_input true) = Ok scenario_mixed)
    by (vm_compute; reflexivity).
  assert (H2 : In scenario_plan_a
                  (CalculationResult.product_plans scenario_mixed))
    by (left; reflexivity).
  split; [exact H1|]. split; [exact H2|].
  apply (remainder_layers_within_pallet decimal_int_of_str decimal_float_of_str
           plain_repr (build_example_input true) scenario_mixed scenario_plan_a
           H1 H2).
  - cbn. lia.
  - cbn. lia.
Defined.

Lemma result_has_plan_per_entry_witness :
  calculate_palletization decimal_int_of_str decimal_float_of_str plain_repr
    (build_example_input true) = Ok scenario_mixed /\
  List.length (CalculationResult.product_plans scenario_mixed)
  = List.length (CalculationInput.products (build_example_input true)) /\
  CalculationResult.product_plans scenario_mixed <> [].
Proof.
  assert (H : calculate_palletization decimal_int_of_str decimal_float_of_str
                plain_repr (build_example_input true) = Ok scenario_mixed)
    by (vm_compute; reflexivity).
  split; [exact H|].
  exact (result_has_plan_per_entry decimal_int_of_str decimal_float_of_str
           plain_repr (build_example_input true) scenario_mixed H).
Defined.

Lemma engine_exceptions_witness :
  calculate_palletization decimal_int_of_str decimal_float_of_str plain_repr
    no_products_input = Raise (ValueError AtLeastOneProduct) /\
  ((exists m, ValueError AtLeastOneProduct = ValueError m) \/
   ValueError AtLeastOneProduct = IndexError \/
   ValueError AtLeastOneProduct = OverflowError \/
   ValueError AtLeastOneProduct = ZeroDivisionError).
Proof.
  assert (H : calculate_palletization decimal_int_of_str decimal_float_of_str
                plain_repr no_products_input
              = Raise (ValueError AtLeastOneProduct)) by reflexivity.
  split; [exact H|].
  exact (engine_exceptions decimal_int_of_str decimal_float_of_str plain_repr
           no_products_input (ValueError AtLeastOneProduct) H).
Defined.
